(** * Orbital Intel Python utilities

    A shallow embedding of the five command-line tools of the repository
    (png2icon.py, video2gif.py and the three QR code generators) together
    with the properties of their run session: where the log and the
    artifacts go, how the destination name and the module style are
    resolved, which payload reaches the QR encoder, and how the guarded
    conversion step terminates.

    Python text is modelled by [string].  A Python [str] is a sequence of
    code points; here it is the sequence of the bytes of its UTF-8 form.
    Every comparison the tools make is against an ASCII constant, for which
    the two readings agree: an ASCII pattern occurs in the code points
    exactly when it occurs in the bytes, and the only characters whose
    [lower()] is an ASCII letter other than themselves are [A-Z] and the
    Kelvin sign, whose image [k] appears in none of the constants. *)

From Stdlib Require Import String Ascii List ZArith Lia Bool Arith.
From Stdlib Require Import DecimalString.
Import ListNotations.
Open Scope string_scope.

(** ** The parts of the Python runtime the tools rely on *)

Module Py.

Definition EMPTY : string := EmptyString.

(** The line feed written [\n] in the sources. *)
Definition NL : string := String (ascii_of_nat 10) EmptyString.

(** *** [str] methods *)

Definition lower_char (c : ascii) : ascii :=
  let n := nat_of_ascii c in
  if (65 <=? n)%nat && (n <=? 90)%nat then ascii_of_nat (n + 32) else c.

(** [s.lower()] *)
Fixpoint lower (s : string) : string :=
  match s with
  | EmptyString => EmptyString
  | String c s' => String (lower_char c) (lower s')
  end.

(** [s.startswith(p)] *)
Fixpoint startswith (s p : string) : bool :=
  match p, s with
  | EmptyString, _ => true
  | String _ _, EmptyString => false
  | String a p', String b s' => Ascii.eqb a b && startswith s' p'
  end.

(** [s.endswith(c)] for a one-character [c]. *)
Fixpoint endswith_char (s : string) (c : ascii) : bool :=
  match s with
  | EmptyString => false
  | String a EmptyString => Ascii.eqb a c
  | String _ s' => endswith_char s' c
  end.

Fixpoint find_from (s sub : string) (i : nat) : option nat :=
  if startswith s sub then Some i
  else match s with
       | EmptyString => None
       | String _ s' => find_from s' sub (S i)
       end.

(** [s.find(sub)]: the lowest index of an occurrence, or -1. *)
Definition find (s sub : string) : Z :=
  match find_from s sub 0 with
  | Some i => Z.of_nat i
  | None => (-1)%Z
  end.

Fixpoint rfind_from (s sub : string) (i : nat) : option nat :=
  match s with
  | EmptyString => if startswith s sub then Some i else None
  | String _ s' =>
      match rfind_from s' sub (S i) with
      | Some j => Some j
      | None => if startswith s sub then Some i else None
      end
  end.

(** [s.rfind(sub)]: the highest index of an occurrence, or -1. *)
Definition rfind (s sub : string) : Z :=
  match rfind_from s sub 0 with
  | Some i => Z.of_nat i
  | None => (-1)%Z
  end.

(** [s[:n]] and [s[n:]] for [0 <= n]. *)
Fixpoint take (n : nat) (s : string) : string :=
  match n, s with
  | S n', String c s' => String c (take n' s')
  | _, _ => EmptyString
  end.

Fixpoint drop (n : nat) (s : string) : string :=
  match n, s with
  | S n', String _ s' => drop n' s'
  | _, _ => s
  end.

(** [s.split(sep)] for a one-character separator: never empty. *)
Fixpoint split (s : string) (sep : ascii) : list string :=
  match s with
  | EmptyString => [EmptyString]
  | String a s' =>
      if Ascii.eqb a sep then EmptyString :: split s' sep
      else match split s' sep with
           | h :: t => String a h :: t
           | [] => [String a EmptyString]
           end
  end.

(** [str(n)] for a natural number and for an integer. *)
Definition str_nat (n : nat) : string :=
  NilEmpty.string_of_uint (Nat.to_uint n).

Definition str_int (z : Z) : string :=
  NilZero.string_of_int (Z.to_int z).

(** [s.rjust(w)]: pad with spaces on the left up to width [w]. *)
Fixpoint spaces (n : nat) : string :=
  match n with
  | O => EmptyString
  | S n' => String " " (spaces n')
  end.

Definition rjust (w : nat) (s : string) : string :=
  spaces (w - String.length s) ++ s.

(** [s.zfill(w)] on the decimal form of a natural number. *)
Fixpoint zeros (n : nat) : string :=
  match n with
  | O => EmptyString
  | S n' => String "0" (zeros n')
  end.

Definition zfill (w : nat) (n : nat) : string :=
  let s := str_nat n in zeros (w - String.length s) ++ s.

(** *** [os.path] (the POSIX flavour, [posixpath.py]) *)

Definition SEP : string := "/".

(** [os.path.join(a, *p)] *)
Definition join_step (path b : string) : string :=
  if startswith b SEP then b
  else if (path =? EMPTY) || endswith_char path "/" then path ++ b
  else path ++ SEP ++ b.

Definition join (a : string) (p : list string) : string :=
  fold_left join_step p a.

(** [os.path.basename(p)] *)
Definition basename (p : string) : string :=
  let i := (rfind p SEP + 1)%Z in
  drop (Z.to_nat i) p.

(** The loop of [genericpath._splitext] that skips leading dots; [n]
    bounds the remaining iterations ([dotIndex - filenameIndex]). *)
Fixpoint splitext_loop (p : string) (filenameIndex dotIndex n : nat)
  : option (string * string) :=
  match n with
  | O => None
  | S n' =>
      if negb (substring filenameIndex 1 p =? ".")
      then Some (take dotIndex p, drop dotIndex p)
      else splitext_loop p (S filenameIndex) dotIndex n'
  end.

(** [os.path.splitext(p)] *)
Definition splitext (p : string) : string * string :=
  let sepIndex := rfind p SEP in
  let dotIndex := rfind p "." in
  if (sepIndex <? dotIndex)%Z then
    let filenameIndex := Z.to_nat (sepIndex + 1) in
    match splitext_loop p filenameIndex (Z.to_nat dotIndex)
                        (Z.to_nat dotIndex - filenameIndex) with
    | Some r => r
    | None => (p, EMPTY)
    end
  else (p, EMPTY).

(** [s.rstrip('/')] *)
Fixpoint rstrip_sep (s : string) : string :=
  match s with
  | EmptyString => EmptyString
  | String c s' =>
      match rstrip_sep s' with
      | EmptyString => if Ascii.eqb c "/" then EmptyString
                       else String c EmptyString
      | r => String c r
      end
  end.

(** [os.path.dirname(p)] *)
Definition dirname (p : string) : string :=
  let i := (rfind p SEP + 1)%Z in
  let head := take (Z.to_nat i) p in
  if negb (head =? EMPTY) && negb (rstrip_sep head =? EMPTY)
  then rstrip_sep head else head.

End Py.

(** ** Exceptions, JSON values and the logging records *)

Module Rt.

(** An instance of a subclass of [Exception]: [exc_msg] is [str(ex)]. *)
Record error := { exc_type : string; exc_msg : string }.

(** What a [raise] can carry up the stack.  [KeyboardInterrupt] and
    [SystemExit] derive from [BaseException] only, so [except Exception]
    lets them through. *)
Inductive exn :=
| KeyboardInterrupt
| SystemExit (code : Z)
| Exc (e : error).

Inductive outcome (A : Type) :=
| Returned (a : A)
| Raised (x : exn).
Arguments Returned {A} a.
Arguments Raised {A} x.

Definition KeyError (key : string) : exn :=
  Exc {| exc_type := "KeyError"; exc_msg := "'" ++ key ++ "'" |}.
Definition TypeError (msg : string) : exn :=
  Exc {| exc_type := "TypeError"; exc_msg := msg |}.
Definition ValueError (msg : string) : exn :=
  Exc {| exc_type := "ValueError"; exc_msg := msg |}.
Definition AttributeError (msg : string) : exn :=
  Exc {| exc_type := "AttributeError"; exc_msg := msg |}.
Definition IndexError (msg : string) : exn :=
  Exc {| exc_type := "IndexError"; exc_msg := msg |}.
Definition UnboundLocalError (name : string) : exn :=
  Exc {| exc_type := "UnboundLocalError";
         exc_msg := "cannot access local variable '" ++ name
                    ++ "' where it is not associated with a value" |}.

(** The value [json.load] returns.  A number with a fraction or an
    exponent becomes a Python [float], kept here as its literal. *)
#[warnings="-register-all"] Inductive json :=
| JNull
| JBool (b : bool)
| JInt (z : Z)
| JFloat (lit : string)
| JStr (s : string)
| JArr (items : list json)
| JObj (members : list (string * json)).

Definition type_name (v : json) : string :=
  match v with
  | JNull => "NoneType"
  | JBool _ => "bool"
  | JInt _ => "int"
  | JFloat _ => "float"
  | JStr _ => "str"
  | JArr _ => "list"
  | JObj _ => "dict"
  end.

Fixpoint lookup (key : string) (members : list (string * json)) : option json :=
  match members with
  | [] => None
  | (k, v) :: rest => if k =? key then Some v else lookup key rest
  end.

(** [v[key]] for a string [key]. *)
Definition getitem (v : json) (key : string) : outcome json :=
  match v with
  | JObj members =>
      match lookup key members with
      | Some x => Returned x
      | None => Raised (KeyError key)
      end
  | JArr _ =>
      Raised (TypeError "list indices must be integers or slices, not str")
  | JStr _ =>
      Raised (TypeError "string indices must be integers, not 'str'")
  | _ => Raised (TypeError ("'" ++ type_name v ++ "' object is not subscriptable"))
  end.

(** [v.lower()] *)
Definition lower_of (v : json) : outcome string :=
  match v with
  | JStr s => Returned (Py.lower s)
  | _ => Raised (AttributeError
                   ("'" ++ type_name v ++ "' object has no attribute 'lower'"))
  end.

(** [f'{v:3d}'] *)
Definition format_3d (v : json) : outcome string :=
  match v with
  | JInt z => Returned (Py.rjust 3 (Py.str_int z))
  | JBool b => Returned (Py.rjust 3 (if b then "1" else "0"))
  | JStr _ | JFloat _ =>
      Raised (ValueError ("Unknown format code 'd' for object of type '"
                          ++ type_name v ++ "'"))
  | _ => Raised (TypeError ("unsupported format string passed to "
                            ++ type_name v ++ ".__format__"))
  end.

(** The levels of the [logging] module and their numbers. *)
Inductive level := DEBUG | INFO | WARNING | ERROR | CRITICAL.

Definition levelno (l : level) : nat :=
  match l with
  | DEBUG => 10
  | INFO => 20
  | WARNING => 30
  | ERROR => 40
  | CRITICAL => 50
  end.

(** One record that reached the two handlers (the log file and the
    console); the [asctime] prefix of the format is left out. *)
Record record := { levelname : level; message : string }.

(** The module drawers of [qrcode.image.styles.moduledrawers] that the
    tools instantiate. *)
Inductive drawer :=
| SquareModuleDrawer
| GappedSquareModuleDrawer
| VerticalBarsDrawer
| HorizontalBarsDrawer
| RoundedModuleDrawer.

(** A call that leaves the program, with whether it returned. *)
Inductive call :=
| MakeDirs (path : string)
| FileHandler (filename : string)
| JsonLoad (file : string)
| ImageOpen (file : string)
| ImageSaveIco (file : string)
| VideoFileClip (file : string)
| WriteGif (file : string)
| QRCode (version : json) (border : option json)
| AddData (data : string)
| MakeImage (module_drawer : drawer) (back_color front_color : json * json * json)
| ImageSave (img : string) (file : string).

Record event := { callee : call; raised : option exn }.

Definition status {A} (o : outcome A) : option exn :=
  match o with
  | Returned _ => None
  | Raised x => Some x
  end.

(** The calls that make up the conversion step of a tool. *)
Definition is_conversion (c : call) : bool :=
  match c with
  | ImageOpen _ | ImageSaveIco _ | VideoFileClip _ | WriteGif _
  | QRCode _ _ | AddData _ | MakeImage _ _ _ | ImageSave _ _ => true
  | _ => false
  end.

(** The calls that write an artifact, with the path they write to. *)
Definition written (e : event) : option string :=
  match callee e, raised e with
  | ImageSaveIco f, None => Some f
  | WriteGif f, None => Some f
  | ImageSave _ f, None => Some f
  | _, _ => None
  end.

End Rt.

(** ** The world a run lives in, and the monad of its effects *)

Module Run.
Import Rt.

(** The fields of [datetime.now(timezone.utc)] that the stamps use. *)
Record datetime := {
  year : nat; month : nat; day : nat;
  hour : nat; minute : nat; second : nat
}.

(** [utc.strftime('%Y.%m.%d_%H.%M')] *)
Definition strftime_minute (u : datetime) : string :=
  Py.zfill 4 (year u) ++ "." ++ Py.zfill 2 (month u) ++ "."
  ++ Py.zfill 2 (day u) ++ "_" ++ Py.zfill 2 (hour u) ++ "."
  ++ Py.zfill 2 (minute u).

(** [utc.strftime('%Y.%m.%d_%H.%M.%S')] *)
Definition strftime_second (u : datetime) : string :=
  strftime_minute u ++ "." ++ Py.zfill 2 (second u).

(** A decoded picture or clip, and the QR code object under construction. *)
Definition image := string.

Record qr := {
  qr_version : json;
  qr_border : option json;
  qr_data : list string
}.

(** Everything outside the scripts: the clock, the process, the file
    system and the libraries, each as the answer it gives to a call. *)
Record Env := {
  utc : datetime;                       (* datetime.now(timezone.utc) at import *)
  cwd : string;                         (* os.getcwd() at import *)
  argv : list string;                   (* sys.argv *)
  start_utc : Z;                        (* the four later clock readings *)
  start_local : Z;
  end_utc : Z;
  end_local : Z;
  str_utc : Z -> string;                (* str() of an aware datetime *)
  str_local : Z -> string;              (* str() of a naive datetime *)
  str_timedelta : Z -> string;          (* str() of a timedelta *)
  str_other : json -> string;           (* str() of a float, list or dict *)
  format_exc : error -> string;         (* traceback.format_exc() *)
  path_exists : string -> bool;         (* os.path.exists *)
  makedirs : string -> outcome unit;    (* os.makedirs *)
  file_handler : string -> outcome unit;  (* logging.FileHandler(mode='w') *)
  json_load : string -> outcome json;   (* open, json.load, close *)
  image_open : string -> outcome image;
  image_save_ico : image -> string -> outcome unit;
  video_file_clip : string -> outcome image;
  write_gif : image -> string -> outcome unit;
  qr_code : json -> option json -> outcome unit;
  add_data : qr -> string -> outcome unit;
  make_image : qr -> drawer -> json * json * json -> json * json * json
               -> outcome image;
  image_save : image -> string -> outcome unit
}.

(** [str(v)], as an f-string applies it to a configuration value. *)
Definition str (env : Env) (v : json) : string :=
  match v with
  | JStr s => s
  | JInt z => Py.str_int z
  | JBool true => "True"
  | JBool false => "False"
  | JNull => "None"
  | _ => str_other env v
  end.

(** Two points of a run at which the request of the conversion (the pair
    of file names, or the [Config] object) is observed: when its
    construction has returned and when the conversion function is called.
    The observations are no part of the scripts; they only make the value
    visible in the result of a run. *)
Inductive point := Constructed | Converting.

Section Frame.

(** [L] is the frame of [main], its local variables that an exception can
    leave unbound; [C] is the type of the conversion request. *)
Variables L C : Type.

Record state := {
  locals : L;
  threshold : nat;              (* the level the logger lets through *)
  records : list record;        (* what the handlers have received *)
  trace : list event;           (* the calls made so far *)
  marks : list (point * C)      (* the observations made so far *)
}.

Definition M (A : Type) : Type := state -> state * outcome A.

Definition ret {A} (a : A) : M A := fun s => (s, Returned a).

Definition raise {A} (x : exn) : M A := fun s => (s, Raised x).

Definition bind {A B} (m : M A) (k : A -> M B) : M B :=
  fun s =>
    match m s with
    | (s1, Returned a) => k a s1
    | (s1, Raised x) => (s1, Raised x)
    end.

(** A value computed without effects, or the exception it raises. *)
Definition lift {A} (o : outcome A) : M A := fun s => (s, o).

(** The changes a step makes to the state. *)
Definition called (c : call) (x : option exn) (s : state) : state :=
  {| locals := locals s; threshold := threshold s; records := records s;
     trace := (trace s ++ [{| callee := c; raised := x |}])%list;
     marks := marks s |}.

Definition handled (l : level) (msg : string) (s : state) : state :=
  {| locals := locals s; threshold := threshold s;
     records := (records s ++ [{| levelname := l; message := msg |}])%list;
     trace := trace s; marks := marks s |}.

Definition logged (l : level) (msg : string) (s : state) : state :=
  if (threshold s <=? levelno l)%nat then handled l msg s else s.

Definition leveled (n : nat) (s : state) : state :=
  {| locals := locals s; threshold := n; records := records s;
     trace := trace s; marks := marks s |}.

Definition assigned (f : L -> L) (s : state) : state :=
  {| locals := f (locals s); threshold := threshold s;
     records := records s; trace := trace s; marks := marks s |}.

Definition marked (p : point) (c : C) (s : state) : state :=
  {| locals := locals s; threshold := threshold s; records := records s;
     trace := trace s; marks := (marks s ++ [(p, c)])%list |}.

(** A call to the outside, recorded with its answer. *)
Definition perform {A} (c : call) (o : outcome A) : M A :=
  fun s => (called c (status o) s, o).

(** [log.<level>(msg)]: the record reaches the handlers when its level is
    at least the level of the logger. *)
Definition log (l : level) (msg : string) : M unit :=
  fun s => (logged l msg s, Returned tt).

(** [log.level = n] *)
Definition set_level (n : nat) : M unit :=
  fun s => (leveled n s, Returned tt).

(** An assignment to local variables. *)
Definition assign (f : L -> L) : M unit :=
  fun s => (assigned f s, Returned tt).

(** Reading a local variable that no assignment may have reached yet. *)
Definition read {A} (name : string) (field : L -> option A) : M A :=
  fun s =>
    match field (locals s) with
    | Some a => (s, Returned a)
    | None => (s, Raised (UnboundLocalError name))
    end.

Definition mark (p : point) (c : C) : M unit :=
  fun s => (marked p c s, Returned tt).

(** [try: body / except ...: handler]; [handler x] is [None] when no
    clause matches [x]. *)
Definition try_except {A} (body : M A) (handler : exn -> option (M A)) : M A :=
  fun s =>
    match body s with
    | (s1, Returned a) => (s1, Returned a)
    | (s1, Raised x) =>
        match handler x with
        | Some h => h s1
        | None => (s1, Raised x)
        end
    end.

(** [try: body / finally: final] *)
Definition try_finally {A} (body : M A) (final : M unit) : M A :=
  fun s =>
    match body s with
    | (s1, r) =>
        match final s1 with
        | (s2, Returned _) => (s2, r)
        | (s2, Raised x) => (s2, Raised x)
        end
    end.

(** [sys.exit(code)] *)
Definition sys_exit {A} (code : Z) : M A := raise (SystemExit code).

End Frame.

Arguments locals {L C} s.
Arguments threshold {L C} s.
Arguments records {L C} s.
Arguments trace {L C} s.
Arguments marks {L C} s.
Arguments called {L C} c x s.
Arguments handled {L C} l msg s.
Arguments logged {L C} l msg s.
Arguments leveled {L C} n s.
Arguments assigned {L C} f s.
Arguments marked {L C} p c s.
Arguments ret {L C A} a.
Arguments raise {L C A} x.
Arguments bind {L C A B} m k.
Arguments lift {L C A} o.
Arguments perform {L C A} c o.
Arguments log {L C} l msg.
Arguments set_level {L C} n.
Arguments assign {L C} f.
Arguments read {L C A} name field.
Arguments mark {L C} p c.
Arguments try_except {L C A} body handler.
Arguments try_finally {L C A} body final.
Arguments sys_exit {L C A} code.

Notation "x <- m ;; k" := (bind m (fun x => k))
  (at level 61, m at next level, right associativity).
Notation "m ;; k" := (bind m (fun _ => k))
  (at level 61, right associativity).

(** The three clauses the [main] of every tool uses. *)
Definition except_KeyboardInterrupt {L C A} (h : M L C A) (x : exn) : option (M L C A) :=
  match x with
  | KeyboardInterrupt => Some h
  | _ => None
  end.

Definition except_Exception {L C A} (h : error -> M L C A) (x : exn) : option (M L C A) :=
  match x with
  | Exc e => Some (h e)
  | _ => None
  end.

Definition except_all {L C A} (h : M L C A) (x : exn) : option (M L C A) := Some h.

Definition orelse {L C A} (h1 h2 : exn -> option (M L C A)) (x : exn) : option (M L C A) :=
  match h1 x with
  | Some h => Some h
  | None => h2 x
  end.

(** Several [log.<level>] calls in a row. *)
Fixpoint log_lines {L C} (l : level) (lines : list string) : M L C unit :=
  match lines with
  | [] => ret tt
  | m :: rest => log l m ;; log_lines l rest
  end.

(** How the process ends: the interpreter maps a normal return of [main]
    to status 0, [SystemExit(c)] to [c], an uncaught [KeyboardInterrupt]
    to 130 and any other uncaught exception, after printing its
    traceback, to 1. *)
Record result (C : Type) := {
  exit_code : Z;
  uncaught : option exn;
  log_records : list record;
  calls : list event;
  observed : list (point * C)
}.
Arguments exit_code {C} r.
Arguments uncaught {C} r.
Arguments log_records {C} r.
Arguments calls {C} r.
Arguments observed {C} r.

Definition finish {L C} (r : state L C * outcome unit) : result C :=
  let (s, o) := r in
  {| exit_code := match o with
                  | Returned _ => 0
                  | Raised (SystemExit c) => c
                  | Raised KeyboardInterrupt => 130
                  | Raised (Exc _) => 1
                  end;
     uncaught := match o with
                 | Raised (Exc e) => Some (Exc e)
                 | Raised KeyboardInterrupt => Some KeyboardInterrupt
                 | _ => None
                 end;
     log_records := records s;
     calls := trace s;
     observed := marks s |}.

(** The state [main] starts from: nothing logged, nothing called, and the
    logger at the default level of the root logger. *)
Definition initial {L C} (frame : L) : state L C :=
  {| locals := frame; threshold := levelno WARNING; records := [];
     trace := []; marks := [] |}.

(** [logging.basicConfig(level=logging.WARNING, handlers=[FileHandler(
    filename=LOG_FILENAME, mode='w'), StreamHandler()])]: the handler
    opens the log file, which can fail; the root level is WARNING, which
    the module logger inherits. *)
Definition ConfigureLogging {L C} (env : Env) (LOG_FILENAME : string)
  : M L C unit :=
  perform (FileHandler LOG_FILENAME) (file_handler env LOG_FILENAME) ;;
  set_level (levelno WARNING).

(** The loop of [GetCommandLine] over [sys.argv]. *)
Fixpoint GetCommandLine_loop {L C} (args : list string) (counter : nat)
  (strCmdLine : string) : M L C string :=
  match args with
  | [] => ret strCmdLine
  | x :: rest =>
      log DEBUG (Py.str_nat counter ++ ": " ++ x) ;;
      let strCmdLine := strCmdLine ++ " " ++ x in
      log DEBUG (Py.str_nat counter ++ ": " ++ strCmdLine) ;;
      GetCommandLine_loop rest (counter + 1) strCmdLine
  end.

Definition GetCommandLine {L C} (env : Env) : M L C string :=
  GetCommandLine_loop (argv env) 0 "python".

(** The set-up every [main] starts with. *)
Definition setup_logging {L C} (env : Env) (LOG_FILENAME : string) : M L C unit :=
  let logPath := Py.dirname LOG_FILENAME in
  (if negb (path_exists env logPath)
   then perform (MakeDirs logPath) (makedirs env logPath)
   else ret tt) ;;
  ConfigureLogging env LOG_FILENAME.

(** The logo all five banners open with. *)
Definition LOGO : list string :=
  [ "     ____       __    _ __        __   ____      __       __";
    "    / __ \_____/ /_  (_) /_____ _/ /  /  _/___  / /____  / /";
    "   / / / / ___/ __ \/ / __/ __ `/ /   / // __ \/ __/ _ \/ / ";
    "  / /_/ / /  / /_/ / / /_/ /_/ / /  _/ // / / / /_/  __/ /  ";
    "  \____/_/  /_.___/_/\__/\__,_/_/  /___/_/ /_/\__/\___/_/   " ].

Definition HASHES62 : string :=
  "##############################################################".
Definition EQUALS62 : string :=
  "==============================================================".
Definition BITS_ORBITAL : string :=
  "01001111 01110010 01100010 01101001 01110100 01100001 01101100".
Definition BITS_INTEL : string :=
  "00100000 01001001 01101110 01110100 01100101 01101100 00000000".
Definition HASHES45 : string :=
  "#############################################".
Definition TILDES39 : string :=
  "~~~~~~~~~~~~~~~~~~~~~~~~~~~~~~~~~~~~~~~".
Definition HASHES54 : string :=
  "######################################################".

End Run.

(** ** Png2Icon/png2icon.py *)

Module Png2Icon.
Import Rt Run.

Definition VERSION : string := "2024.11.21".
Definition COPYRIGHT : string := "2024".

Definition directoryDate (env : Env) : string := strftime_minute (utc env).
Definition filenameDateTime (env : Env) : string := strftime_second (utc env).
Definition baseDirectory (env : Env) : string :=
  Py.join (cwd env) ["Png2Icon_Artifacts"; directoryDate env].
Definition logsDirectory (env : Env) : string := baseDirectory env.

Definition LOG_FILENAME (env : Env) : string :=
  Py.join (logsDirectory env) ["Png2IconLog_" ++ filenameDateTime env ++ "z.log"].

(** The namespace [parser.parse_args()] returns. *)
Record Args := { sourcefile : string; destfile : string; verbose : bool }.

(** The variables of [main] that are assigned inside its [try]. *)
Record Locals := {
  startUtcDatetime : option Z;
  startLocalDatetime : option Z
}.

(** The request of the conversion: [(sourceFile, destFile)]. *)
Definition Request : Type := string * string.

Definition GenerateIcoFile (env : Env) (sourceFile destFile : string)
  : M Locals Request unit :=
  try_except
    (sourcePng <- perform (ImageOpen sourceFile) (image_open env sourceFile) ;;
     perform (ImageSaveIco destFile) (image_save_ico env sourcePng destFile))
    (except_Exception (fun ex =>
       log ERROR ("Error processing " ++ sourceFile ++ ": " ++ exc_msg ex))).

(** "Set the destination filename": lines 127-130 of [main]. *)
Definition destination (sourceFile destFile : string) : string :=
  if (String.length destFile <? 5)%nat || (Py.find destFile ".ico" =? -1)%Z
  then let (fileName, fileExtension) := Py.splitext (Py.basename sourceFile) in
       fileName ++ ".ico"
  else destFile.

Definition BANNER : list string :=
  app LOGO
  [ Py.EMPTY; HASHES62; BITS_ORBITAL; BITS_INTEL; EQUALS62; Py.EMPTY;
    "                            Orbital Intel                     ";
    "                       .PNG to .ICO Converter                 ";
    Py.EMPTY; EQUALS62; BITS_ORBITAL; BITS_INTEL; HASHES62; Py.EMPTY;
    "Copyright (c) " ++ COPYRIGHT ++ " Orbital Intelligence LLC";
    "Version " ++ VERSION;
    Py.EMPTY ].

(** The body of the [try] of [main]. *)
Definition guarded (env : Env) (sourceFile destFile : string)
  : M Locals Request unit :=
  assign (fun l => {| startUtcDatetime := Some (start_utc env);
                      startLocalDatetime := startLocalDatetime l |}) ;;
  assign (fun l => {| startUtcDatetime := startUtcDatetime l;
                      startLocalDatetime := Some (start_local env) |}) ;;
  log CRITICAL Py.EMPTY ;;
  cmd <- GetCommandLine env ;;
  log CRITICAL ("Command line:     " ++ cmd) ;;
  log CRITICAL ("Source PNG File:  " ++ sourceFile) ;;
  log CRITICAL ("Output ICO File:  " ++ destFile) ;;
  log CRITICAL Py.EMPTY ;;
  log CRITICAL ("Converting " ++ Py.basename sourceFile ++ " to a .ICO file...") ;;
  mark Converting (sourceFile, destFile) ;;
  GenerateIcoFile env sourceFile destFile ;;
  log CRITICAL ("Generated " ++ destFile).

Definition on_KeyboardInterrupt : M Locals Request unit :=
  log CRITICAL Py.EMPTY ;;
  log CRITICAL HASHES45 ;;
  log CRITICAL "png2icon.py aborted by user." ;;
  log CRITICAL HASHES45 ;;
  sys_exit 0.

Definition on_Exception (env : Env) (error : error) : M Locals Request unit :=
  log CRITICAL HASHES45 ;;
  log CRITICAL "General Error during png2icon.py processing." ;;
  log CRITICAL TILDES39 ;;
  log CRITICAL ("Error: " ++ exc_msg error) ;;
  log CRITICAL ("Call Stack:" ++ Py.NL ++ format_exc env error) ;;
  log CRITICAL HASHES45.

(** The lines the [finally] block logs once both start times are read. *)
Definition report_lines (env : Env) (destFile : string) (executionTime : Z)
  : list string :=
  [ "png2icon processing time:   " ++ str_timedelta env executionTime ++ " ";
    Py.EMPTY;
    ".ico file: " ++ Py.join (baseDirectory env) [destFile];
    Py.EMPTY;
    "Log file:  " ++ LOG_FILENAME env;
    Py.EMPTY;
    HASHES54;
    "png2icon completed.   ";
    HASHES54 ].

(** The [finally] block of [main]. *)
Definition final_report (env : Env) (destFile : string)
  : M Locals Request unit :=
  let endUtcDatetime := end_utc env in
  let endLocalDatetime := end_local env in
  startLocal <- read "startLocalDatetime" startLocalDatetime ;;
  let executionTime := (endLocalDatetime - startLocal)%Z in
  log CRITICAL Py.EMPTY ;;
  startUtc <- read "startUtcDatetime" startUtcDatetime ;;
  log DEBUG ("png2icon processing started at:   " ++ str_local env startLocal
             ++ "L / " ++ str_utc env startUtc ++ "Z") ;;
  log DEBUG ("png2icon processing completed at: "
             ++ str_local env endLocalDatetime
             ++ "L / " ++ str_utc env endUtcDatetime ++ "Z") ;;
  log DEBUG Py.EMPTY ;;
  log_lines CRITICAL (report_lines env destFile executionTime).

Definition run (env : Env) (args : Args) : M Locals Request unit :=
  setup_logging env (LOG_FILENAME env) ;;
  log_lines CRITICAL BANNER ;;
  (if verbose args then set_level (levelno DEBUG) else ret tt) ;;
  let sourceFile := sourcefile args in
  let destFile := destination sourceFile (destfile args) in
  mark Constructed (sourceFile, destFile) ;;
  try_finally
    (try_except
       (guarded env sourceFile destFile)
       (orelse (except_KeyboardInterrupt on_KeyboardInterrupt)
               (except_Exception (on_Exception env))))
    (final_report env destFile).

Definition main (env : Env) (args : Args) : result Request :=
  finish (run env args
            (initial {| startUtcDatetime := None; startLocalDatetime := None |})).

End Png2Icon.

(** ** Video2Gif/video2gif.py *)

Module Video2Gif.
Import Rt Run.

Definition VERSION : string := "2024.12.26".
Definition COPYRIGHT : string := "2024".

Definition directoryDate (env : Env) : string := strftime_minute (utc env).
Definition filenameDateTime (env : Env) : string := strftime_second (utc env).
Definition baseDirectory (env : Env) : string :=
  Py.join (cwd env) ["Video2Gif_Artifacts"; directoryDate env].
Definition logsDirectory (env : Env) : string := baseDirectory env.

Definition LOG_FILENAME (env : Env) : string :=
  Py.join (logsDirectory env) ["Video2GifLog_" ++ filenameDateTime env ++ "z.log"].

Record Args := { sourcefile : string; destfile : string; verbose : bool }.

Record Locals := {
  startUtcDatetime : option Z;
  startLocalDatetime : option Z
}.

Definition Request : Type := string * string.

Definition GenerateGifFile (env : Env) (sourceFile destFile : string)
  : M Locals Request unit :=
  try_except
    (videoFileClip <- perform (VideoFileClip sourceFile)
                              (video_file_clip env sourceFile) ;;
     perform (WriteGif destFile) (write_gif env videoFileClip destFile))
    (except_Exception (fun ex =>
       log ERROR ("Error processing " ++ sourceFile ++ ": " ++ exc_msg ex))).

(** "Set the destination filename": lines 129-132 of [main]. *)
Definition destination (sourceFile destFile : string) : string :=
  if (String.length destFile <? 5)%nat || (Py.find destFile ".gif" =? -1)%Z
  then let (fileName, fileExtension) := Py.splitext (Py.basename sourceFile) in
       fileName ++ ".gif"
  else destFile.

Definition BANNER : list string :=
  app LOGO
  [ Py.EMPTY; HASHES62; BITS_ORBITAL; BITS_INTEL; EQUALS62; Py.EMPTY;
    "                            Orbital Intel                     ";
    "                    Video file to .GIF Converter              ";
    Py.EMPTY; EQUALS62; BITS_ORBITAL; BITS_INTEL; HASHES62; Py.EMPTY;
    "Copyright (c) " ++ COPYRIGHT ++ " Orbital Intelligence LLC";
    "Version " ++ VERSION;
    Py.EMPTY ].

Definition guarded (env : Env) (sourceFile destFile : string)
  : M Locals Request unit :=
  assign (fun l => {| startUtcDatetime := Some (start_utc env);
                      startLocalDatetime := startLocalDatetime l |}) ;;
  assign (fun l => {| startUtcDatetime := startUtcDatetime l;
                      startLocalDatetime := Some (start_local env) |}) ;;
  log CRITICAL Py.EMPTY ;;
  cmd <- GetCommandLine env ;;
  log CRITICAL ("Command line:     " ++ cmd) ;;
  log CRITICAL ("Source PNG File:  " ++ sourceFile) ;;
  log CRITICAL ("Output GIF File:  " ++ destFile) ;;
  log CRITICAL Py.EMPTY ;;
  log CRITICAL ("Converting " ++ Py.basename sourceFile ++ " to a .GIF file...") ;;
  mark Converting (sourceFile, destFile) ;;
  GenerateGifFile env sourceFile destFile ;;
  log CRITICAL ("Generated " ++ destFile).

Definition on_KeyboardInterrupt : M Locals Request unit :=
  log CRITICAL Py.EMPTY ;;
  log CRITICAL HASHES45 ;;
  log CRITICAL "Video2Gif.py aborted by user." ;;
  log CRITICAL HASHES45 ;;
  sys_exit 0.

Definition on_Exception (env : Env) (error : error) : M Locals Request unit :=
  log CRITICAL HASHES45 ;;
  log CRITICAL "General Error during Video2Gif.py processing." ;;
  log CRITICAL TILDES39 ;;
  log CRITICAL ("Error: " ++ exc_msg error) ;;
  log CRITICAL ("Call Stack:" ++ Py.NL ++ format_exc env error) ;;
  log CRITICAL HASHES45.

Definition report_lines (env : Env) (destFile : string) (executionTime : Z)
  : list string :=
  [ "Video2Gif processing time:   " ++ str_timedelta env executionTime ++ " ";
    Py.EMPTY;
    ".gif file: " ++ Py.join (baseDirectory env) [destFile];
    Py.EMPTY;
    "Log file:  " ++ LOG_FILENAME env;
    Py.EMPTY;
    HASHES54;
    "Video2Gif completed.   ";
    HASHES54 ].

Definition final_report (env : Env) (destFile : string)
  : M Locals Request unit :=
  let endUtcDatetime := end_utc env in
  let endLocalDatetime := end_local env in
  startLocal <- read "startLocalDatetime" startLocalDatetime ;;
  let executionTime := (endLocalDatetime - startLocal)%Z in
  log CRITICAL Py.EMPTY ;;
  startUtc <- read "startUtcDatetime" startUtcDatetime ;;
  log DEBUG ("Video2Gif processing started at:   " ++ str_local env startLocal
             ++ "L / " ++ str_utc env startUtc ++ "Z") ;;
  log DEBUG ("Video2Gif processing completed at: "
             ++ str_local env endLocalDatetime
             ++ "L / " ++ str_utc env endUtcDatetime ++ "Z") ;;
  log DEBUG Py.EMPTY ;;
  log_lines CRITICAL (report_lines env destFile executionTime).

Definition run (env : Env) (args : Args) : M Locals Request unit :=
  setup_logging env (LOG_FILENAME env) ;;
  log_lines CRITICAL BANNER ;;
  (if verbose args then set_level (levelno DEBUG) else ret tt) ;;
  let sourceFile := sourcefile args in
  let destFile := destination sourceFile (destfile args) in
  mark Constructed (sourceFile, destFile) ;;
  try_finally
    (try_except
       (guarded env sourceFile destFile)
       (orelse (except_KeyboardInterrupt on_KeyboardInterrupt)
               (except_Exception (on_Exception env))))
    (final_report env destFile).

Definition main (env : Env) (args : Args) : result Request :=
  finish (run env args
            (initial {| startUtcDatetime := None; startLocalDatetime := None |})).

End Video2Gif.

(** ** What the three QR code generators repeat verbatim *)

Module QR.
Import Rt Run.

Definition MODULE_DRAWER_STYLE_SQUARE : string := "SquareModuleDrawer".
Definition MODULE_DRAWER_STYLE_GAPPED_SQUARE : string := "GappedSquareModuleDrawer".
Definition MODULE_DRAWER_STYLE_VERTICAL_BARS : string := "VerticalBarsDrawer".
Definition MODULE_DRAWER_STYLE_HORIZONTAL_BARS : string := "HorizontalBarsDrawer".
Definition MODULE_DRAWER_STYLE_ROUNDED : string := "RoundedModuleDrawer".

Definition directoryDate (env : Env) : string := strftime_minute (utc env).
Definition filenameDateTime (env : Env) : string := strftime_second (utc env).
Definition baseDirectory (env : Env) : string :=
  Py.join (cwd env) ["QRCode_Artifacts"; directoryDate env].
Definition logsDirectory (env : Env) : string := baseDirectory env.

Definition LOG_FILENAME (env : Env) : string :=
  Py.join (logsDirectory env) ["QRCodeLog_" ++ filenameDateTime env ++ "z.log"].

(** [d[k1][k2]] and [d[k1][k2][k3]] *)
Definition item2 {L C} (d : json) (k1 k2 : string) : M L C json :=
  a <- lift (getitem d k1) ;;
  lift (getitem a k2).

Definition item3 {L C} (d : json) (k1 k2 k3 : string) : M L C json :=
  a <- item2 d k1 k2 ;;
  lift (getitem a k3).

(** The [if]/[elif] chain of [Config.__init__] over
    [configData['config'][key].lower()], which every test evaluates anew. *)
Definition module_style {L C} (configData : json) (key : string) : M L C string :=
  let lowered : M L C string :=
    v <- item2 configData "config" key ;; lift (lower_of v) in
  s <- lowered ;;
  if s =? "gappedsquare" then ret MODULE_DRAWER_STYLE_GAPPED_SQUARE else
  s <- lowered ;;
  if s =? "verticalbars" then ret MODULE_DRAWER_STYLE_VERTICAL_BARS else
  s <- lowered ;;
  if s =? "horizontalbars" then ret MODULE_DRAWER_STYLE_HORIZONTAL_BARS else
  s <- lowered ;;
  if s =? "rounded" then ret MODULE_DRAWER_STYLE_ROUNDED else
  s <- lowered ;;
  if s =? "square" then ret MODULE_DRAWER_STYLE_SQUARE
  else ret MODULE_DRAWER_STYLE_SQUARE.

(** The [if]/[elif] chain of the generators over the stored style: it
    binds [qr_img] in the branch whose constant the style equals, and
    leaves it unbound when none does. *)
Definition styled_image {L C} (env : Env) (q : qr) (style : string)
  (back front : json * json * json) : M L C (option image) :=
  let make (d : drawer) : M L C (option image) :=
    img <- perform (MakeImage d back front) (make_image env q d back front) ;;
    ret (Some img) in
  if style =? MODULE_DRAWER_STYLE_VERTICAL_BARS then make VerticalBarsDrawer
  else if style =? MODULE_DRAWER_STYLE_HORIZONTAL_BARS then make HorizontalBarsDrawer
  else if style =? MODULE_DRAWER_STYLE_GAPPED_SQUARE then make GappedSquareModuleDrawer
  else if style =? MODULE_DRAWER_STYLE_SQUARE then make SquareModuleDrawer
  else if style =? MODULE_DRAWER_STYLE_ROUNDED then make RoundedModuleDrawer
  else ret None.

(** [qr_img.save(path)], where [qr_img] may be unbound. *)
Definition save {L C} (env : Env) (qr_img : option image) (path : string)
  : M L C unit :=
  match qr_img with
  | Some img => perform (ImageSave img path) (image_save env img path)
  | None => raise (UnboundLocalError "qr_img")
  end.

(** [f'{r:3d} {g:3d} {b:3d}'] *)
Definition color_3d {L C} (r g b : json) : M L C string :=
  sr <- lift (format_3d r) ;;
  sg <- lift (format_3d g) ;;
  sb <- lift (format_3d b) ;;
  ret (sr ++ " " ++ sg ++ " " ++ sb).

Definition banner (title : string) (COPYRIGHT VERSION : string) : list string :=
  app LOGO
  [ Py.EMPTY; HASHES62; BITS_ORBITAL; BITS_ORBITAL; EQUALS62; Py.EMPTY;
    "                        Orbital Intel                         ";
    title;
    Py.EMPTY; EQUALS62; BITS_ORBITAL; BITS_ORBITAL; HASHES62; Py.EMPTY;
    "Copyright (c) " ++ COPYRIGHT ++ " Orbital Intelligence LLC";
    "Version " ++ VERSION;
    Py.EMPTY ].

(** The [except KeyboardInterrupt] and [except Exception] clauses. *)
Definition on_KeyboardInterrupt {L C} (prog : string) : M L C unit :=
  log CRITICAL Py.EMPTY ;;
  log CRITICAL HASHES45 ;;
  log CRITICAL (prog ++ " aborted by user.") ;;
  log CRITICAL HASHES45 ;;
  sys_exit 0.

Definition on_Exception {L C} (env : Env) (prog : string) (error : error)
  : M L C unit :=
  log CRITICAL HASHES45 ;;
  log CRITICAL ("General Error during " ++ prog ++ " processing.") ;;
  log CRITICAL TILDES39 ;;
  log CRITICAL ("Error: " ++ exc_msg error) ;;
  log CRITICAL ("Call Stack:" ++ Py.NL ++ format_exc env error) ;;
  log CRITICAL HASHES45.

End QR.

(** ** QR Code Generators/Wifi QR Code Generator/WifiQRCodeGenerator.py *)

Module WifiQR.
Import Rt Run QR.

Definition VERSION : string := "2024.11.21".
Definition COPYRIGHT : string := "2024".

Record Config := {
  frontColorRed : json; frontColorGreen : json; frontColorBlue : json;
  backColorRed : json; backColorGreen : json; backColorBlue : json;
  moduleStyleWifi : string;
  moduleStyleOnboarding : string;
  versionSize : json;
  border : json;
  wifiNetwork : string;
  wifiPassword : string;
  destFileWifi : string;
  sha256 : string; sha1 : string; md5 : string
}.

Record Args := {
  configfile : string; network : string; password : string; verbose : bool
}.

Record Locals := {
  objConfig : option Config;
  startUtcDatetime : option Z;
  startLocalDatetime : option Z
}.

(** [Config.__init__]: the attributes it does not assign keep the value of
    the class attribute. *)
Definition Config_init (env : Env) (configurationFile : string)
  : M Locals Config Config :=
  configData <- perform (JsonLoad configurationFile)
                        (json_load env configurationFile) ;;
  fr <- item3 configData "config" "FrontColor" "r" ;;
  fg <- item3 configData "config" "FrontColor" "g" ;;
  fb <- item3 configData "config" "FrontColor" "b" ;;
  br <- item3 configData "config" "BackColor" "r" ;;
  bg <- item3 configData "config" "BackColor" "g" ;;
  bb <- item3 configData "config" "BackColor" "b" ;;
  size <- item2 configData "config" "Size" ;;
  bord <- item2 configData "config" "Border" ;;
  style <- module_style configData "ModuleStyleWifi" ;;
  ret {| frontColorRed := fr; frontColorGreen := fg; frontColorBlue := fb;
         backColorRed := br; backColorGreen := bg; backColorBlue := bb;
         moduleStyleWifi := style;
         moduleStyleOnboarding := Py.EMPTY;
         versionSize := size;
         border := bord;
         wifiNetwork := Py.EMPTY;
         wifiPassword := Py.EMPTY;
         destFileWifi := "QR_Code_Wifi_" ++ filenameDateTime env ++ ".png";
         sha256 := Py.EMPTY; sha1 := Py.EMPTY; md5 := Py.EMPTY |}.

(** [config.wifiNetwork = v] and [config.wifiPassword = v] *)
Definition set_wifiNetwork (c : Config) (v : string) : Config :=
  {| frontColorRed := frontColorRed c; frontColorGreen := frontColorGreen c;
     frontColorBlue := frontColorBlue c;
     backColorRed := backColorRed c; backColorGreen := backColorGreen c;
     backColorBlue := backColorBlue c;
     moduleStyleWifi := moduleStyleWifi c;
     moduleStyleOnboarding := moduleStyleOnboarding c;
     versionSize := versionSize c; border := border c;
     wifiNetwork := v;
     wifiPassword := wifiPassword c;
     destFileWifi := destFileWifi c;
     sha256 := sha256 c; sha1 := sha1 c; md5 := md5 c |}.

Definition set_wifiPassword (c : Config) (v : string) : Config :=
  {| frontColorRed := frontColorRed c; frontColorGreen := frontColorGreen c;
     frontColorBlue := frontColorBlue c;
     backColorRed := backColorRed c; backColorGreen := backColorGreen c;
     backColorBlue := backColorBlue c;
     moduleStyleWifi := moduleStyleWifi c;
     moduleStyleOnboarding := moduleStyleOnboarding c;
     versionSize := versionSize c; border := border c;
     wifiNetwork := wifiNetwork c;
     wifiPassword := v;
     destFileWifi := destFileWifi c;
     sha256 := sha256 c; sha1 := sha1 c; md5 := md5 c |}.

(** The text [GenerateWifiQRCode] hands to [add_data]. *)
Definition payload (config : Config) : string :=
  "WIFI:S:" ++ wifiNetwork config ++ ";T:WPA;P:" ++ wifiPassword config
  ++ ";H:false;;".

Definition GenerateWifiQRCode (env : Env) (config : Config)
  : M Locals Config unit :=
  perform (QRCode (versionSize config) (Some (border config)))
          (qr_code env (versionSize config) (Some (border config))) ;;
  let qrWifi := {| qr_version := versionSize config;
                   qr_border := Some (border config); qr_data := [] |} in
  perform (AddData (payload config)) (add_data env qrWifi (payload config)) ;;
  let qrWifi := {| qr_version := versionSize config;
                   qr_border := Some (border config);
                   qr_data := [payload config] |} in
  qr_img <- styled_image env qrWifi (moduleStyleWifi config)
              (backColorRed config, backColorGreen config, backColorBlue config)
              (frontColorRed config, frontColorGreen config, frontColorBlue config) ;;
  save env qr_img (Py.join (baseDirectory env) [destFileWifi config]).

Definition BANNER : list string :=
  banner "                WiFi Network QR Code Generator                "
         COPYRIGHT VERSION.

(** The body of the [try] of [main]. *)
Definition guarded (env : Env) (configFile wifiNetwork wifiPassword : string)
  : M Locals Config unit :=
  c <- Config_init env configFile ;;
  assign (fun l => {| objConfig := Some c;
                      startUtcDatetime := startUtcDatetime l;
                      startLocalDatetime := startLocalDatetime l |}) ;;
  mark Constructed c ;;
  let c := set_wifiNetwork c wifiNetwork in
  assign (fun l => {| objConfig := Some c;
                      startUtcDatetime := startUtcDatetime l;
                      startLocalDatetime := startLocalDatetime l |}) ;;
  let c := set_wifiPassword c wifiPassword in
  assign (fun l => {| objConfig := Some c;
                      startUtcDatetime := startUtcDatetime l;
                      startLocalDatetime := startLocalDatetime l |}) ;;
  assign (fun l => {| objConfig := objConfig l;
                      startUtcDatetime := Some (start_utc env);
                      startLocalDatetime := startLocalDatetime l |}) ;;
  assign (fun l => {| objConfig := objConfig l;
                      startUtcDatetime := startUtcDatetime l;
                      startLocalDatetime := Some (start_local env) |}) ;;
  log CRITICAL Py.EMPTY ;;
  cmd <- GetCommandLine env ;;
  log CRITICAL ("Command line:     " ++ cmd) ;;
  log CRITICAL ("QR Code File:     " ++ destFileWifi c) ;;
  log CRITICAL ("Module Style E:   " ++ moduleStyleWifi c) ;;
  log CRITICAL ("Module Style O:   " ++ moduleStyleOnboarding c) ;;
  log CRITICAL ("Version/Size:     " ++ str env (versionSize c)) ;;
  log CRITICAL ("Border:           " ++ str env (border c)) ;;
  log CRITICAL ("Wifi Network:     " ++ WifiQR.wifiNetwork c) ;;
  log CRITICAL ("Wifi Password:    " ++ WifiQR.wifiPassword c) ;;
  front <- color_3d (frontColorRed c) (frontColorGreen c) (frontColorBlue c) ;;
  log CRITICAL ("Front Color:      " ++ front) ;;
  back <- color_3d (backColorRed c) (backColorGreen c) (backColorBlue c) ;;
  log CRITICAL ("Back Color:       " ++ back) ;;
  log CRITICAL Py.EMPTY ;;
  log CRITICAL "Generating WiFi QR Code..." ;;
  mark Converting c ;;
  GenerateWifiQRCode env c ;;
  log CRITICAL "Success".

(** The lines the [finally] block logs at CRITICAL once [objConfig] is
    read. *)
Definition report_lines (env : Env) (c : Config) : list string :=
  [ "WiFi QR Code file: " ++ Py.join (baseDirectory env) [destFileWifi c];
    Py.EMPTY;
    "Log file: " ++ LOG_FILENAME env;
    Py.EMPTY;
    HASHES54;
    "WifiQRCodeGenerator completed.   ";
    HASHES54 ].

(** The [finally] block of [main]. *)
Definition final_report (env : Env) : M Locals Config unit :=
  let endUtcDatetime := end_utc env in
  let endLocalDatetime := end_local env in
  startLocal <- read "startLocalDatetime" startLocalDatetime ;;
  let executionTime := (endLocalDatetime - startLocal)%Z in
  log CRITICAL Py.EMPTY ;;
  startUtc <- read "startUtcDatetime" startUtcDatetime ;;
  log INFO ("WifiQRCodeGenerator processing started at:   "
            ++ str_local env startLocal
            ++ "L / " ++ str_utc env startUtc ++ "Z") ;;
  log INFO ("WifiQRCodeGenerator processing completed at: "
            ++ str_local env endLocalDatetime
            ++ "L / " ++ str_utc env endUtcDatetime ++ "Z") ;;
  log INFO Py.EMPTY ;;
  log CRITICAL ("WifiQRCodeGenerator processing time:   "
                ++ str_timedelta env executionTime ++ " ") ;;
  log CRITICAL Py.EMPTY ;;
  c <- read "objConfig" objConfig ;;
  log_lines CRITICAL (report_lines env c).

Definition run (env : Env) (args : Args) : M Locals Config unit :=
  setup_logging env (LOG_FILENAME env) ;;
  log_lines CRITICAL BANNER ;;
  (if verbose args then set_level (levelno DEBUG) else ret tt) ;;
  let configFile := configfile args in
  let wifiNetwork := network args in
  let wifiPassword := password args in
  try_finally
    (try_except
       (guarded env configFile wifiNetwork wifiPassword)
       (orelse (except_KeyboardInterrupt
                  (on_KeyboardInterrupt "WifiQRCodeGenerator.py"))
               (except_Exception (on_Exception env "WifiQRCodeGenerator.py"))))
    (final_report env).

Definition main (env : Env) (args : Args) : result Config :=
  finish (run env args
            (initial {| objConfig := None; startUtcDatetime := None;
                        startLocalDatetime := None |})).

End WifiQR.

(** ** QR Code Generators/Url QR Code Generator/UrlQRCodeGenerator.py *)

Module UrlQR.
Import Rt Run QR.

Definition VERSION : string := "2024.11.21".
Definition COPYRIGHT : string := "2023-2024".

Record Config := {
  frontColorRed : json; frontColorGreen : json; frontColorBlue : json;
  backColorRed : json; backColorGreen : json; backColorBlue : json;
  ModuleStyle : string;
  versionSize : json;
  border : json;
  url : json;
  destFileUrl : string
}.

Record Args := { configfile : string; verbose : bool }.

Record Locals := {
  objConfig : option Config;
  startUtcDatetime : option Z;
  startLocalDatetime : option Z
}.

Definition Config_init (env : Env) (configurationFile : string)
  : M Locals Config Config :=
  configData <- perform (JsonLoad configurationFile)
                        (json_load env configurationFile) ;;
  fr <- item3 configData "config" "FrontColor" "r" ;;
  fg <- item3 configData "config" "FrontColor" "g" ;;
  fb <- item3 configData "config" "FrontColor" "b" ;;
  br <- item3 configData "config" "BackColor" "r" ;;
  bg <- item3 configData "config" "BackColor" "g" ;;
  bb <- item3 configData "config" "BackColor" "b" ;;
  size <- item2 configData "config" "Size" ;;
  bord <- item2 configData "config" "Border" ;;
  style <- module_style configData "ModuleStyle" ;;
  u <- item2 configData "config" "Url" ;;
  ret {| frontColorRed := fr; frontColorGreen := fg; frontColorBlue := fb;
         backColorRed := br; backColorGreen := bg; backColorBlue := bb;
         ModuleStyle := style;
         versionSize := size;
         border := bord;
         url := u;
         destFileUrl := "QR_Code_Url_" ++ filenameDateTime env ++ ".png" |}.

(** The text [GenerateUrlQRCode] hands to [add_data]: [f'{config.url}']. *)
Definition payload (env : Env) (config : Config) : string :=
  str env (url config).

Definition GenerateUrlQRCode (env : Env) (config : Config)
  : M Locals Config unit :=
  perform (QRCode (versionSize config) (Some (border config)))
          (qr_code env (versionSize config) (Some (border config))) ;;
  let qrUrl := {| qr_version := versionSize config;
                  qr_border := Some (border config); qr_data := [] |} in
  perform (AddData (payload env config))
          (add_data env qrUrl (payload env config)) ;;
  let qrUrl := {| qr_version := versionSize config;
                  qr_border := Some (border config);
                  qr_data := [payload env config] |} in
  qr_img <- styled_image env qrUrl (ModuleStyle config)
              (backColorRed config, backColorGreen config, backColorBlue config)
              (frontColorRed config, frontColorGreen config, frontColorBlue config) ;;
  save env qr_img (Py.join (baseDirectory env) [destFileUrl config]).

Definition BANNER : list string :=
  banner "                    URL QR Code Generator                     "
         COPYRIGHT VERSION.

Definition guarded (env : Env) (configFile : string) : M Locals Config unit :=
  c <- Config_init env configFile ;;
  assign (fun l => {| objConfig := Some c;
                      startUtcDatetime := startUtcDatetime l;
                      startLocalDatetime := startLocalDatetime l |}) ;;
  mark Constructed c ;;
  assign (fun l => {| objConfig := objConfig l;
                      startUtcDatetime := Some (start_utc env);
                      startLocalDatetime := startLocalDatetime l |}) ;;
  assign (fun l => {| objConfig := objConfig l;
                      startUtcDatetime := startUtcDatetime l;
                      startLocalDatetime := Some (start_local env) |}) ;;
  log CRITICAL Py.EMPTY ;;
  cmd <- GetCommandLine env ;;
  log CRITICAL ("Command line:     " ++ cmd) ;;
  log CRITICAL ("QR Code File:     " ++ destFileUrl c) ;;
  log CRITICAL ("Module Style:     " ++ ModuleStyle c) ;;
  log CRITICAL ("Version/Size:     " ++ str env (versionSize c)) ;;
  log CRITICAL ("Border:           " ++ str env (border c)) ;;
  log CRITICAL ("Url:              " ++ str env (url c)) ;;
  front <- color_3d (frontColorRed c) (frontColorGreen c) (frontColorBlue c) ;;
  log CRITICAL ("Front Color:      " ++ front) ;;
  back <- color_3d (backColorRed c) (backColorGreen c) (backColorBlue c) ;;
  log CRITICAL ("Back Color:       " ++ back) ;;
  log CRITICAL Py.EMPTY ;;
  log CRITICAL "Generating URL QR Code..." ;;
  mark Converting c ;;
  GenerateUrlQRCode env c ;;
  log CRITICAL "Success".

Definition report_lines (env : Env) (c : Config) : list string :=
  [ "URL QR Code file: " ++ Py.join (baseDirectory env) [destFileUrl c];
    Py.EMPTY;
    "Log file: " ++ LOG_FILENAME env;
    Py.EMPTY;
    HASHES54;
    "UrlQRCodeGenerator completed.   ";
    HASHES54 ].

Definition final_report (env : Env) : M Locals Config unit :=
  let endUtcDatetime := end_utc env in
  let endLocalDatetime := end_local env in
  startLocal <- read "startLocalDatetime" startLocalDatetime ;;
  let executionTime := (endLocalDatetime - startLocal)%Z in
  log CRITICAL Py.EMPTY ;;
  startUtc <- read "startUtcDatetime" startUtcDatetime ;;
  log INFO ("UrlQRCodeGenerator processing started at:   "
            ++ str_local env startLocal
            ++ "L / " ++ str_utc env startUtc ++ "Z") ;;
  log INFO ("UrlQRCodeGenerator processing completed at: "
            ++ str_local env endLocalDatetime
            ++ "L / " ++ str_utc env endUtcDatetime ++ "Z") ;;
  log INFO Py.EMPTY ;;
  log CRITICAL ("UrlQRCodeGenerator processing time:   "
                ++ str_timedelta env executionTime ++ " ") ;;
  log CRITICAL Py.EMPTY ;;
  c <- read "objConfig" objConfig ;;
  log_lines CRITICAL (report_lines env c).

Definition run (env : Env) (args : Args) : M Locals Config unit :=
  setup_logging env (LOG_FILENAME env) ;;
  log_lines CRITICAL BANNER ;;
  (if verbose args then set_level (levelno DEBUG) else ret tt) ;;
  let configFile := configfile args in
  try_finally
    (try_except
       (guarded env configFile)
       (orelse (except_KeyboardInterrupt
                  (on_KeyboardInterrupt "UrlQRCodeGenerator.py"))
               (except_Exception (on_Exception env "UrlQRCodeGenerator.py"))))
    (final_report env).

Definition main (env : Env) (args : Args) : result Config :=
  finish (run env args
            (initial {| objConfig := None; startUtcDatetime := None;
                        startLocalDatetime := None |})).

End UrlQR.

(** ** QR Code Generators/Contact Card QR Code Generator/ContactCardQRCodeGenerator.py *)

Module ContactCard.
Import Rt Run QR.

Definition VERSION : string := "2024.11.21".
Definition COPYRIGHT : string := "2023-2024".
Definition DEFAULT_QRCODE_FILENAME : string := "vcard_qr.png".

Record Config := {
  frontColorRed : json; frontColorGreen : json; frontColorBlue : json;
  backColorRed : json; backColorGreen : json; backColorBlue : json;
  moduleStyle : string;
  versionSize : json;
  firstName : json;
  lastName : json;
  title : json;
  organization : json;
  phone : json;
  email : json;
  url : json;
  note : json;
  destFileTimestamp : string;
  destFile : string
}.

Record Args := { configfile : string; destfile : string; verbose : bool }.

Record Locals := {
  objConfig : option Config;
  startUtcDatetime : option Z;
  startLocalDatetime : option Z
}.

(** [l[i]] on the list a [split] returns. *)
Definition list_item (l : list string) (i : nat) : outcome string :=
  match nth_error l i with
  | Some x => Returned x
  | None => Raised (IndexError "list index out of range")
  end.

(** [f'{name.split(".")[0]}_{filenameDateTime}.{name.split(".")[1]}'] *)
Definition timestamped (env : Env) (name : string) : M Locals Config string :=
  stem <- lift (list_item (Py.split name ".") 0) ;;
  ext <- lift (list_item (Py.split name ".") 1) ;;
  ret (stem ++ "_" ++ filenameDateTime env ++ "." ++ ext).

Definition Config_init (env : Env) (configurationFile destinationFile : string)
  : M Locals Config Config :=
  configData <- perform (JsonLoad configurationFile)
                        (json_load env configurationFile) ;;
  fr <- item3 configData "config" "FrontColor" "r" ;;
  fg <- item3 configData "config" "FrontColor" "g" ;;
  fb <- item3 configData "config" "FrontColor" "b" ;;
  br <- item3 configData "config" "BackColor" "r" ;;
  bg <- item3 configData "config" "BackColor" "g" ;;
  bb <- item3 configData "config" "BackColor" "b" ;;
  size <- item2 configData "config" "Size" ;;
  style <- module_style configData "ModuleStyle" ;;
  first <- item2 configData "config" "FirstName" ;;
  last <- item2 configData "config" "LastName" ;;
  ttl <- item2 configData "config" "Title" ;;
  org <- item2 configData "config" "Organization" ;;
  tel <- item2 configData "config" "Phone" ;;
  mail <- item2 configData "config" "Email" ;;
  u <- item2 configData "config" "Url" ;;
  nt <- try_except (item2 configData "config" "Note")
                   (except_all (ret (JStr Py.EMPTY))) ;;
  dest <- try_except
            (stamped <- timestamped env destinationFile ;;
             ret (stamped, destinationFile))
            (except_all
               (log ERROR ("Invalid destination filename [" ++ destinationFile
                           ++ "]. Using the default [" ++ DEFAULT_QRCODE_FILENAME
                           ++ "] filename.") ;;
                stamped <- timestamped env DEFAULT_QRCODE_FILENAME ;;
                ret (stamped, DEFAULT_QRCODE_FILENAME))) ;;
  ret {| frontColorRed := fr; frontColorGreen := fg; frontColorBlue := fb;
         backColorRed := br; backColorGreen := bg; backColorBlue := bb;
         moduleStyle := style;
         versionSize := size;
         firstName := first; lastName := last; title := ttl;
         organization := org; phone := tel; email := mail; url := u;
         note := nt;
         destFileTimestamp := fst dest;
         destFile := snd dest |}.

(** The VCARD text [GenerateContactCard] hands to [add_data]. *)
Definition cardData (env : Env) (config : Config) : string :=
  "BEGIN:VCARD" ++ Py.NL
  ++ "VERSION:4.0" ++ Py.NL
  ++ "N:" ++ str env (lastName config) ++ ";" ++ str env (firstName config)
     ++ ";;;" ++ Py.NL
  ++ "FN:" ++ str env (firstName config) ++ " " ++ str env (lastName config)
     ++ Py.NL
  ++ "TITLE:" ++ str env (title config) ++ Py.NL
  ++ "ORG:" ++ str env (organization config) ++ Py.NL
  ++ "TEL;TYPE=work:" ++ str env (phone config) ++ Py.NL
  ++ "EMAIL;TYPE=work:" ++ str env (email config) ++ Py.NL
  ++ "URL:" ++ str env (url config) ++ Py.NL
  ++ "NOTE:" ++ str env (note config) ++ Py.NL
  ++ "END:VCARD".

Definition GenerateContactCard (env : Env) (config : Config)
  : M Locals Config unit :=
  perform (QRCode (versionSize config) None)
          (qr_code env (versionSize config) None) ;;
  let qrContact := {| qr_version := versionSize config;
                      qr_border := None; qr_data := [] |} in
  log CRITICAL ("Card Data:" ++ Py.NL ++ cardData env config) ;;
  perform (AddData (cardData env config))
          (add_data env qrContact (cardData env config)) ;;
  let qrContact := {| qr_version := versionSize config;
                      qr_border := None;
                      qr_data := [cardData env config] |} in
  qr_img <- styled_image env qrContact (moduleStyle config)
              (backColorRed config, backColorGreen config, backColorBlue config)
              (frontColorRed config, frontColorGreen config, frontColorBlue config) ;;
  save env qr_img (Py.join (baseDirectory env) [destFile config]) ;;
  save env qr_img (Py.join (baseDirectory env) [destFileTimestamp config]).

Definition BANNER : list string :=
  banner "                   QR Code VCard Generator                    "
         COPYRIGHT VERSION.

Definition guarded (env : Env) (configFile destFile : string)
  : M Locals Config unit :=
  c <- Config_init env configFile destFile ;;
  assign (fun l => {| objConfig := Some c;
                      startUtcDatetime := startUtcDatetime l;
                      startLocalDatetime := startLocalDatetime l |}) ;;
  mark Constructed c ;;
  assign (fun l => {| objConfig := objConfig l;
                      startUtcDatetime := Some (start_utc env);
                      startLocalDatetime := startLocalDatetime l |}) ;;
  assign (fun l => {| objConfig := objConfig l;
                      startUtcDatetime := startUtcDatetime l;
                      startLocalDatetime := Some (start_local env) |}) ;;
  log CRITICAL Py.EMPTY ;;
  cmd <- GetCommandLine env ;;
  log CRITICAL ("Command line: " ++ cmd) ;;
  log CRITICAL ("QR Code File: " ++ ContactCard.destFile c) ;;
  log CRITICAL ("Module Style: " ++ moduleStyle c) ;;
  log CRITICAL ("Version/Size: " ++ str env (versionSize c)) ;;
  log CRITICAL ("First Name:   " ++ str env (firstName c)) ;;
  log CRITICAL ("Last Name:    " ++ str env (lastName c)) ;;
  log CRITICAL ("Title:        " ++ str env (title c)) ;;
  log CRITICAL ("Organization: " ++ str env (organization c)) ;;
  log CRITICAL ("Phone:        " ++ str env (phone c)) ;;
  log CRITICAL ("Email:        " ++ str env (email c)) ;;
  log CRITICAL ("Url:          " ++ str env (url c)) ;;
  front <- color_3d (frontColorRed c) (frontColorGreen c) (frontColorBlue c) ;;
  log CRITICAL ("Front Color:  " ++ front) ;;
  back <- color_3d (backColorRed c) (backColorGreen c) (backColorBlue c) ;;
  log CRITICAL ("Back Color:   " ++ back) ;;
  log CRITICAL Py.EMPTY ;;
  log CRITICAL "Generating VCard Contact Card QR Code..." ;;
  mark Converting c ;;
  GenerateContactCard env c ;;
  log CRITICAL "Success".

Definition report_lines (env : Env) (c : Config) : list string :=
  [ "QR Code file: " ++ Py.join (baseDirectory env) [destFile c];
    "QR Code file: " ++ Py.join (baseDirectory env) [destFileTimestamp c];
    Py.EMPTY;
    "Log file:     " ++ LOG_FILENAME env;
    Py.EMPTY;
    HASHES54;
    "ContactCardQRCodeGenerator completed.   ";
    HASHES54 ].

Definition final_report (env : Env) : M Locals Config unit :=
  let endUtcDatetime := end_utc env in
  let endLocalDatetime := end_local env in
  startLocal <- read "startLocalDatetime" startLocalDatetime ;;
  let executionTime := (endLocalDatetime - startLocal)%Z in
  log CRITICAL Py.EMPTY ;;
  startUtc <- read "startUtcDatetime" startUtcDatetime ;;
  log INFO ("ContactCardQRCodeGenerator processing started at:   "
            ++ str_local env startLocal
            ++ "L / " ++ str_utc env startUtc ++ "Z") ;;
  log INFO ("ContactCardQRCodeGenerator processing completed at: "
            ++ str_local env endLocalDatetime
            ++ "L / " ++ str_utc env endUtcDatetime ++ "Z") ;;
  log INFO Py.EMPTY ;;
  log CRITICAL ("ContactCardQRCodeGenerator processing time:   "
                ++ str_timedelta env executionTime ++ " ") ;;
  log CRITICAL Py.EMPTY ;;
  c <- read "objConfig" objConfig ;;
  log_lines CRITICAL (report_lines env c).

Definition run (env : Env) (args : Args) : M Locals Config unit :=
  setup_logging env (LOG_FILENAME env) ;;
  log_lines CRITICAL BANNER ;;
  (if verbose args then set_level (levelno DEBUG) else ret tt) ;;
  let destFile := destfile args in
  let configFile := configfile args in
  try_finally
    (try_except
       (guarded env configFile destFile)
       (orelse (except_KeyboardInterrupt
                  (on_KeyboardInterrupt "ContactCardQRCodeGenerator.py"))
               (except_Exception
                  (on_Exception env "ContactCardQRCodeGenerator.py"))))
    (final_report env).

Definition main (env : Env) (args : Args) : result Config :=
  finish (run env args
            (initial {| objConfig := None; startUtcDatetime := None;
                        startLocalDatetime := None |})).

End ContactCard.

(** ** The vocabulary of the properties *)

Module Spec.
Import Rt Run.

(** The five tools, under the names their scripts give themselves in
    their header and in their description. *)
Inductive tool := png2icon | video2gif | contact_card | url_qr | wifi_qr.

Definition tool_name (t : tool) : string :=
  match t with
  | png2icon => "Png2Icon"
  | video2gif => "Video2Gif"
  | contact_card => "ContactCardQRCodeGenerator"
  | url_qr => "UrlQRCodeGenerator"
  | wifi_qr => "WifiQRCodeGenerator"
  end.

Definition base_directory (t : tool) (env : Env) : string :=
  match t with
  | png2icon => Png2Icon.baseDirectory env
  | video2gif => Video2Gif.baseDirectory env
  | _ => QR.baseDirectory env
  end.

Definition log_path (t : tool) (env : Env) : string :=
  match t with
  | png2icon => Png2Icon.LOG_FILENAME env
  | video2gif => Video2Gif.LOG_FILENAME env
  | _ => QR.LOG_FILENAME env
  end.

(** The prefix each script gives the name of its log file. *)
Definition log_prefix (t : tool) : string :=
  match t with
  | png2icon => "Png2Icon"
  | video2gif => "Video2Gif"
  | _ => "QRCode"
  end.

Definition crit (m : string) : record :=
  {| levelname := CRITICAL; message := m |}.

(** [sub] occurs in [s]. *)
Definition Contains (s sub : string) : Prop :=
  exists pre post, s = pre ++ sub ++ post.

(** [X] is the end of [l]. *)
Definition Suffix {A} (X l : list A) : Prop :=
  exists pre, l = (pre ++ X)%list.

(** A call of the conversion step raised [x]. *)
Definition conversion_raised {C} (r : result C) (x : exn) : Prop :=
  exists c, is_conversion c = true
            /\ In {| callee := c; raised := Some x |} (calls r).

(** The paths of the artifacts a run has written. *)
Definition artifacts {C} (r : result C) : list string :=
  flat_map (fun e => match written e with Some p => [p] | None => [] end)
           (calls r).

(** Where a path given to a library call lands: a relative one is taken
    from the working directory of the process. *)
Definition resolved (env : Env) (path : string) : string :=
  Py.join (cwd env) [path].

(** The records of the [except KeyboardInterrupt] clause. *)
Definition abort_records (prog : string) : list record :=
  map crit [Py.EMPTY; HASHES45; prog ++ " aborted by user."; HASHES45].

(** The records of the [finally] block: the timing lines at level [l]
    reach the handlers only in a verbose run. *)
Definition final_records (env : Env) (l : level) (name : string)
  (verbose : bool) (tail : list string) : list record :=
  (crit Py.EMPTY
   :: (if verbose then
         [ {| levelname := l;
              message := name ++ " processing started at:   "
                         ++ str_local env (start_local env)
                         ++ "L / " ++ str_utc env (start_utc env) ++ "Z" |};
           {| levelname := l;
              message := name ++ " processing completed at: "
                         ++ str_local env (end_local env)
                         ++ "L / " ++ str_utc env (end_utc env) ++ "Z" |};
           {| levelname := l; message := Py.EMPTY |} ]
       else [])
      ++ map crit tail)%list.

(** The tail of the [finally] block of a QR tool. *)
Definition qr_tail (env : Env) (name : string) (lines : list string)
  : list string :=
  (name ++ " processing time:   "
   ++ str_timedelta env (end_local env - start_local env) ++ " ")
  :: Py.EMPTY :: lines.

(** The state after several [log.<level>] calls. *)
Fixpoint logged_all {L C} (l : level) (msgs : list string) (s : state L C)
  : state L C :=
  match msgs with
  | [] => s
  | m :: rest => logged_all l rest (logged l m s)
  end.

(** What [GetCommandLine] returns and what it logs at DEBUG. *)
Fixpoint cmdline (args : list string) (strCmdLine : string) : string :=
  match args with
  | [] => strCmdLine
  | x :: rest => cmdline rest (strCmdLine ++ " " ++ x)
  end.

Fixpoint cmdline_debug (args : list string) (counter : nat)
  (strCmdLine : string) : list string :=
  match args with
  | [] => []
  | x :: rest =>
      (Py.str_nat counter ++ ": " ++ x)
      :: (Py.str_nat counter ++ ": " ++ (strCmdLine ++ " " ++ x))
      :: cmdline_debug rest (counter + 1) (strCmdLine ++ " " ++ x)
  end.

(** [Q] holds of the state and the outcome [m] ends with from [s]. *)
Definition wp {L C A} (m : M L C A) (s : state L C)
  (Q : state L C -> outcome A -> Prop) : Prop :=
  Q (fst (m s)) (snd (m s)).

(** The style the documentation of the configuration promises for a
    [ModuleStyle] string: one of the five names in any letter case, and
    square for anything else. *)
Definition documented_style (m : string) : string :=
  let name := Py.lower m in
  if name =? "square" then QR.MODULE_DRAWER_STYLE_SQUARE
  else if name =? "gappedsquare" then QR.MODULE_DRAWER_STYLE_GAPPED_SQUARE
  else if name =? "verticalbars" then QR.MODULE_DRAWER_STYLE_VERTICAL_BARS
  else if name =? "horizontalbars" then QR.MODULE_DRAWER_STYLE_HORIZONTAL_BARS
  else if name =? "rounded" then QR.MODULE_DRAWER_STYLE_ROUNDED
  else QR.MODULE_DRAWER_STYLE_SQUARE.

(** *** Sample worlds *)

Definition sample_utc : datetime :=
  {| year := 2024; month := 11; day := 21;
     hour := 10; minute := 30; second := 5 |}.

(** A world in which [config] is the content of every configuration file
    and [fault] tells which calls raise. *)
Definition sample (args : list string) (config : json)
  (fault : call -> option exn) : Env :=
  let answer {A} (c : call) (a : A) : outcome A :=
    match fault c with
    | Some x => Raised x
    | None => Returned a
    end in
  {| utc := sample_utc;
     cwd := "/home/u";
     argv := args;
     start_utc := 100; start_local := 100; end_utc := 107; end_local := 107;
     str_utc := fun z => "U" ++ Py.str_int z;
     str_local := fun z => "L" ++ Py.str_int z;
     str_timedelta := fun z => "0:00:0" ++ Py.str_int z;
     str_other := fun _ => "?";
     format_exc := fun e =>
       "Traceback (most recent call last):" ++ Py.NL
       ++ exc_type e ++ ": " ++ exc_msg e ++ Py.NL;
     path_exists := fun _ => false;
     makedirs := fun p => answer (MakeDirs p) tt;
     file_handler := fun f => answer (FileHandler f) tt;
     json_load := fun f => answer (JsonLoad f) config;
     image_open := fun f => answer (ImageOpen f) "PNG";
     image_save_ico := fun _ f => answer (ImageSaveIco f) tt;
     video_file_clip := fun f => answer (VideoFileClip f) "CLIP";
     write_gif := fun _ f => answer (WriteGif f) tt;
     qr_code := fun v b => answer (QRCode v b) tt;
     add_data := fun _ d => answer (AddData d) tt;
     make_image := fun _ d b f => answer (MakeImage d b f) "QR";
     image_save := fun i f => answer (ImageSave i f) tt |}.

Definition no_fault (c : call) : option exn := None.

Definition boom : error := {| exc_type := "OSError"; exc_msg := "boom" |}.

(** The library fails, or the operator interrupts, when a file is
    opened or a QR code object is created. *)
Definition fault_at_start (x : exn) (c : call) : option exn :=
  match c with
  | ImageOpen _ | VideoFileClip _ | QRCode _ _ => Some x
  | _ => None
  end.

Definition rgb (r g b : Z) : json :=
  JObj [("r", JInt r); ("g", JInt g); ("b", JInt b)].

Definition sample_contact : json :=
  JObj [("config", JObj
    [ ("FrontColor", rgb 0 0 0); ("BackColor", rgb 255 255 255);
      ("Size", JInt 5); ("ModuleStyle", JStr "Rounded");
      ("FirstName", JStr "Ada"); ("LastName", JStr "Lovelace");
      ("Title", JStr "Countess"); ("Organization", JStr "Analytical Engines");
      ("Phone", JStr "+44 20 7946 0000"); ("Email", JStr "ada@example.org");
      ("Url", JStr "https://example.org") ])].

Definition sample_wifi : json :=
  JObj [("config", JObj
    [ ("FrontColor", rgb 0 0 0); ("BackColor", rgb 255 255 255);
      ("Size", JInt 5); ("Border", JInt 4);
      ("ModuleStyleWifi", JStr "Rounded") ])].

Definition sample_url : json :=
  JObj [("config", JObj
    [ ("FrontColor", rgb 0 0 0); ("BackColor", rgb 255 255 255);
      ("Size", JInt 5); ("Border", JInt 4);
      ("ModuleStyle", JStr "square"); ("Url", JStr "https://example.org") ])].

Definition png_args : Png2Icon.Args :=
  {| Png2Icon.sourcefile := "logo.png"; Png2Icon.destfile := Py.EMPTY;
     Png2Icon.verbose := false |}.

Definition gif_args : Video2Gif.Args :=
  {| Video2Gif.sourcefile := "clip.mp4"; Video2Gif.destfile := Py.EMPTY;
     Video2Gif.verbose := false |}.

Definition contact_args (dest : string) : ContactCard.Args :=
  {| ContactCard.configfile := "card.json"; ContactCard.destfile := dest;
     ContactCard.verbose := false |}.

Definition url_args : UrlQR.Args :=
  {| UrlQR.configfile := "url.json"; UrlQR.verbose := false |}.

Definition wifi_args : WifiQR.Args :=
  {| WifiQR.configfile := "wifi.json"; WifiQR.network := "HomeNet";
     WifiQR.password := "secret123"; WifiQR.verbose := false |}.


(** A computation that leaves the state as it is. *)
Definition pure {L C A} (m : M L C A) : Prop := forall s, fst (m s) = s.

(** What the set-up leaves in the trace. *)
Definition setup_trace (LOG : string) (tr : list event) : Prop :=
  forall ev, In ev tr ->
    (exists p x, ev = {| callee := MakeDirs p; raised := x |})
    \/ (exists x, ev = {| callee := FileHandler LOG; raised := x |}).

(** What every run of png2icon.py guarantees. *)
Definition png_destFile (args : Png2Icon.Args) : string :=
  Png2Icon.destination (Png2Icon.sourcefile args) (Png2Icon.destfile args).

Definition Png2Icon_facts (env : Env) (args : Png2Icon.Args)
  (r : result Png2Icon.Request) : Prop :=
  let dest := png_destFile args in
  (conversion_raised r KeyboardInterrupt ->
     exit_code r = 0%Z /\ uncaught r = None /\
     Suffix (abort_records "png2icon.py" ++
             final_records env DEBUG "png2icon" (Png2Icon.verbose args)
               (Png2Icon.report_lines env dest (end_local env - start_local env)))%list
            (log_records r))
  /\ (forall e, conversion_raised r (Exc e) ->
        exit_code r = 0%Z /\ uncaught r = None /\
        In {| levelname := ERROR;
              message := "Error processing " ++ Png2Icon.sourcefile args ++ ": "
                         ++ exc_msg e |} (log_records r)
        /\ In (crit ("Generated " ++ dest)) (log_records r))
  /\ (forall p c, In (p, c) (observed r) -> c = (Png2Icon.sourcefile args, dest))
  /\ (forall ev p, In ev (calls r) -> callee ev = FileHandler p ->
        p = Png2Icon.LOG_FILENAME env)
  /\ (forall ev p, In ev (calls r) -> callee ev = ImageSaveIco p -> p = dest).

(** What every run of video2gif.py guarantees. *)
Definition gif_destFile (args : Video2Gif.Args) : string :=
  Video2Gif.destination (Video2Gif.sourcefile args) (Video2Gif.destfile args).

Definition Video2Gif_facts (env : Env) (args : Video2Gif.Args)
  (r : result Video2Gif.Request) : Prop :=
  let dest := gif_destFile args in
  (conversion_raised r KeyboardInterrupt ->
     exit_code r = 0%Z /\ uncaught r = None /\
     Suffix (abort_records "Video2Gif.py" ++
             final_records env DEBUG "Video2Gif" (Video2Gif.verbose args)
               (Video2Gif.report_lines env dest (end_local env - start_local env)))%list
            (log_records r))
  /\ (forall e, conversion_raised r (Exc e) ->
        exit_code r = 0%Z /\ uncaught r = None /\
        In {| levelname := ERROR;
              message := "Error processing " ++ Video2Gif.sourcefile args ++ ": "
                         ++ exc_msg e |} (log_records r)
        /\ In (crit ("Generated " ++ dest)) (log_records r))
  /\ (forall p c, In (p, c) (observed r) -> c = (Video2Gif.sourcefile args, dest))
  /\ (forall ev p, In ev (calls r) -> callee ev = FileHandler p ->
        p = Video2Gif.LOG_FILENAME env)
  /\ (forall ev p, In ev (calls r) -> callee ev = WriteGif p -> p = dest).

(** The message [Config.__init__] of the contact card tool logs when the
    destination name has no second part after a dot. *)
Definition dest_warning (d : string) : list string :=
  match ContactCard.list_item (Py.split d ".") 0,
        ContactCard.list_item (Py.split d ".") 1 with
  | Returned _, Returned _ => []
  | _, _ => [ "Invalid destination filename [" ++ d
              ++ "]. Using the default [" ++ ContactCard.DEFAULT_QRCODE_FILENAME
              ++ "] filename." ]
  end.

(** What every run of a QR tool guarantees. *)
Definition qr_facts {C} (env : Env) (prog name : string) (verbose : bool)
  (lines : C -> list string) (after : C -> C) (r : result C) : Prop :=
  (conversion_raised r KeyboardInterrupt ->
     exit_code r = 0%Z /\ uncaught r = None /\
     exists c, In (Converting, c) (observed r) /\
       Suffix (abort_records prog ++
               final_records env INFO name verbose (qr_tail env name (lines c)))%list
              (log_records r))
  /\ (forall e, conversion_raised r (Exc e) ->
        exit_code r = 0%Z /\ uncaught r = None /\
        In (crit ("Error: " ++ exc_msg e)) (log_records r)
        /\ In (crit ("Call Stack:" ++ Py.NL ++ format_exc env e)) (log_records r))
  /\ (forall c1 c2, In (Constructed, c1) (observed r) ->
        In (Converting, c2) (observed r) -> c2 = after c1)
  /\ (forall ev p, In ev (calls r) -> callee ev = FileHandler p ->
        p = QR.LOG_FILENAME env).

Definition WifiQR_after (args : WifiQR.Args) (c : WifiQR.Config) : WifiQR.Config :=
  WifiQR.set_wifiPassword (WifiQR.set_wifiNetwork c (WifiQR.network args))
                          (WifiQR.password args).

Definition WifiQR_facts (env : Env) (args : WifiQR.Args)
  (r : result WifiQR.Config) : Prop :=
  qr_facts env "WifiQRCodeGenerator.py" "WifiQRCodeGenerator"
           (WifiQR.verbose args) (WifiQR.report_lines env)
           (WifiQR_after args) r
  /\ (forall ev d, In ev (calls r) -> callee ev = AddData d ->
        d = "WIFI:S:" ++ WifiQR.network args ++ ";T:WPA;P:"
            ++ WifiQR.password args ++ ";H:false;;").

Definition UrlQR_facts (env : Env) (args : UrlQR.Args)
  (r : result UrlQR.Config) : Prop :=
  qr_facts env "UrlQRCodeGenerator.py" "UrlQRCodeGenerator"
           (UrlQR.verbose args) (UrlQR.report_lines env) (fun c => c) r.

Definition ContactCard_facts (env : Env) (args : ContactCard.Args)
  (r : result ContactCard.Config) : Prop :=
  qr_facts env "ContactCardQRCodeGenerator.py" "ContactCardQRCodeGenerator"
           (ContactCard.verbose args) (ContactCard.report_lines env)
           (fun c => c) r
  /\ (forall ev d, In ev (calls r) -> callee ev = AddData d ->
        exists c, In (Converting, c) (observed r)
                  /\ d = ContactCard.cardData env c)
  /\ (forall ev img p, In ev (calls r) -> callee ev = ImageSave img p ->
        exists c, In (Converting, c) (observed r)
          /\ (p = Py.join (QR.baseDirectory env) [ContactCard.destFile c]
              \/ p = Py.join (QR.baseDirectory env)
                              [ContactCard.destFileTimestamp c])).

(** *** Statements of the specification, in its own words *)

(** A configuration string resolves to a stored style: each of the five
    names, in any letter case, to its own style, and any other string to
    the square one. *)
Definition resolves (m style : string) : Prop :=
  (Py.lower m = "square" -> style = QR.MODULE_DRAWER_STYLE_SQUARE)
  /\ (Py.lower m = "gappedsquare" -> style = QR.MODULE_DRAWER_STYLE_GAPPED_SQUARE)
  /\ (Py.lower m = "verticalbars" -> style = QR.MODULE_DRAWER_STYLE_VERTICAL_BARS)
  /\ (Py.lower m = "horizontalbars"
      -> style = QR.MODULE_DRAWER_STYLE_HORIZONTAL_BARS)
  /\ (Py.lower m = "rounded" -> style = QR.MODULE_DRAWER_STYLE_ROUNDED)
  /\ (Py.lower m <> "square" -> Py.lower m <> "gappedsquare" ->
      Py.lower m <> "verticalbars" -> Py.lower m <> "horizontalbars" ->
      Py.lower m <> "rounded" -> style = QR.MODULE_DRAWER_STYLE_SQUARE).

(** A conversion call that raises is reported with its message and with a
    stack trace, and the process exits with status 0. *)
Definition raise_is_reported {C} (env : Env) (r : result C) : Prop :=
  forall e, conversion_raised r (Exc e) ->
    exit_code r = 0%Z /\ uncaught r = None
    /\ (exists rec, In rec (log_records r)
                    /\ Contains (message rec) (exc_msg e))
    /\ (exists rec, In rec (log_records r)
                    /\ Contains (message rec) (format_exc env e)).

(** The log file is named after the invoked tool. *)
Definition log_named_after_tool (t : tool) (env : Env) : Prop :=
  log_path t env
  = Py.join (base_directory t env)
            [tool_name t ++ "Log_" ++ strftime_second (utc env) ++ "z.log"].

(** The request holds at the conversion call what it held when its
    construction returned. *)
Definition unchanged_request {C} (r : result C) : Prop :=
  forall c1 c2, In (Constructed, c1) (observed r) ->
                In (Converting, c2) (observed r) -> c1 = c2.

(** The members of [config] that [Config.__init__] of the contact card
    tool reads without a fallback. *)
Definition has_rgb (v : json) : Prop :=
  exists kv r g b, v = JObj kv /\ lookup "r" kv = Some r
                   /\ lookup "g" kv = Some g /\ lookup "b" kv = Some b.

Definition contact_text_keys : list string :=
  ["FirstName"; "LastName"; "Title"; "Organization"; "Phone"; "Email"; "Url"].

Definition contact_required (members : list (string * json)) : Prop :=
  (exists v, lookup "FrontColor" members = Some v /\ has_rgb v)
  /\ (exists v, lookup "BackColor" members = Some v /\ has_rgb v)
  /\ (exists v, lookup "Size" members = Some v)
  /\ (exists m, lookup "ModuleStyle" members = Some (JStr m))
  /\ (forall k, In k contact_text_keys -> exists v, lookup k members = Some v).

(** An interrupt is reported and the final report [final] follows it: the
    run ends with status 0, a record holds [aborted by user], and the log
    ends with the records of the [except KeyboardInterrupt] clause followed
    by those of the [finally] block. *)
Definition interrupt_reported {C} (prog : string) (final : list record)
  (r : result C) : Prop :=
  exit_code r = 0%Z /\ uncaught r = None
  /\ (exists rec, In rec (log_records r)
                  /\ Contains (message rec) "aborted by user")
  /\ Suffix (abort_records prog ++ final)%list (log_records r).

(** [configData['config'][key]] *)
Definition config_member (configData : json) (key : string) : outcome json :=
  match getitem configData "config" with
  | Returned a => getitem a key
  | Raised x => Raised x
  end.

(** [s] ends with [t]. *)
Definition EndsWith (s t : string) : Prop := exists pre, s = pre ++ t.

(** The texts a run has handed to [add_data]. *)
Definition payloads {C} (r : result C) : list string :=
  flat_map (fun e => match callee e with AddData d => [d] | _ => [] end)
           (calls r).

(** The lines of a text. *)
Definition lines (text : string) : list string :=
  Py.split text (ascii_of_nat 10).

(** The two paths the contact card tool saves the image at. *)
Definition stable_path (env : Env) (c : ContactCard.Config) : string :=
  Py.join (QR.baseDirectory env) [ContactCard.destFile c].

Definition stamped_path (env : Env) (c : ContactCard.Config) : string :=
  Py.join (QR.baseDirectory env) [ContactCard.destFileTimestamp c].

(** The lines a final report closes the log with: the elapsed time, the
    path of each artifact, the path of the log file and the closing
    banner. *)
Definition closing_lines (elapsed : string) (files : list string)
  (logfile completed : string) : list string :=
  ([elapsed; Py.EMPTY] ++ files
   ++ [ Py.EMPTY; logfile; Py.EMPTY;
        "######################################################";
        completed;
        "######################################################" ])%list.

(** An entry that the [except Exception] clause of [main] writes: its
    header, or the stack trace. *)
Definition handler_entry (prog : string) (rec : record) : bool :=
  match levelname rec with
  | CRITICAL =>
      Py.startswith (message rec) "Call Stack:"
      || (message rec =? "General Error during " ++ prog ++ " processing.")
  | _ => false
  end.

(** The log holds no stack trace: the [except Exception] clause of [main]
    has written nothing. *)
Definition no_stack_trace (prog : string) (log : list record) : Prop :=
  Forall (fun rec => handler_entry prog rec = false) log.

(** The images a run has saved, each with the path it was saved at. *)
Definition saves {C} (r : result C) : list (image * string) :=
  flat_map (fun e => match callee e, raised e with
                     | ImageSave img p, None => [(img, p)]
                     | _, _ => []
                     end)
           (calls r).

(** A colour of the configuration file whose three parts are integers. *)
Definition int_rgb (v : json) : Prop :=
  exists kv r g b, v = JObj kv /\ lookup "r" kv = Some (JInt r)
                   /\ lookup "g" kv = Some (JInt g)
                   /\ lookup "b" kv = Some (JInt b).

(** A configuration the contact card tool runs to its end with: every
    member [Config.__init__] reads without a fallback is there, the
    colours are integers and the module style is a string. *)
Definition contact_valid (members : list (string * json)) : Prop :=
  (exists v, lookup "FrontColor" members = Some v /\ int_rgb v)
  /\ (exists v, lookup "BackColor" members = Some v /\ int_rgb v)
  /\ (exists v, lookup "Size" members = Some v)
  /\ (exists m, lookup "ModuleStyle" members = Some (JStr m))
  /\ (forall k, In k contact_text_keys -> exists v, lookup k members = Some v).

(** The directory of the log is there or can be made, the log file can be
    opened, and every call of the QR code library returns, [make_image]
    with the image [img]. *)
Definition world_works (env : Env) (img : image) : Prop :=
  (path_exists env (Py.dirname (QR.LOG_FILENAME env)) = true
   \/ makedirs env (Py.dirname (QR.LOG_FILENAME env)) = Returned tt)
  /\ file_handler env (QR.LOG_FILENAME env) = Returned tt
  /\ (forall v b, qr_code env v b = Returned tt)
  /\ (forall q d, add_data env q d = Returned tt)
  /\ (forall q d back front, make_image env q d back front = Returned img)
  /\ (forall p, image_save env img p = Returned tt).

(** The stable and the timestamped name of the two files, for the value
    [d] of [--destfile]: the parts of [d] before and after its first dot
    with the stamp between them, and the default name when [d] has no
    dot. *)
Definition two_names (env : Env) (d : string) : string * string :=
  match Py.split d "." with
  | stem :: ext :: _ =>
      (d, stem ++ "_" ++ QR.filenameDateTime env ++ "." ++ ext)
  | _ => ("vcard_qr.png",
          "vcard_qr_" ++ QR.filenameDateTime env ++ ".png")
  end.

End Spec.

(** * Properties *)

Import Rt Run Spec.

(** ** The string and path functions on sample values *)

Example lower_mixed : Py.lower "GappedSquare" = "gappedsquare".
Proof. reflexivity. Qed.

Example find_ico : Py.find "logo.ico" ".ico" = 4%Z.
Proof. reflexivity. Qed.

Example find_none : Py.find "logo.png" ".ico" = (-1)%Z.
Proof. reflexivity. Qed.

Example split_two_dots : Py.split "my.card.png" "." = ["my"; "card"; "png"].
Proof. reflexivity. Qed.

Example join_three :
  Py.join "/home/u" ["Png2Icon_Artifacts"; "2024.11.21_10.30"]
  = "/home/u/Png2Icon_Artifacts/2024.11.21_10.30".
Proof. reflexivity. Qed.

Example join_absolute : Py.join "/home/u/x" ["/tmp/card.png"] = "/tmp/card.png".
Proof. reflexivity. Qed.

Example basename_dir : Py.basename "/a/b/logo.png" = "logo.png".
Proof. reflexivity. Qed.

Example splitext_plain : Py.splitext "logo.png" = ("logo", ".png").
Proof. reflexivity. Qed.

Example splitext_hidden : Py.splitext ".bashrc" = (".bashrc", Py.EMPTY).
Proof. reflexivity. Qed.

Example splitext_two : Py.splitext "a.tar.gz" = ("a.tar", ".gz").
Proof. reflexivity. Qed.

Example dirname_log : Py.dirname "/w/QRCode_Artifacts/d/QRCodeLog_x.log"
  = "/w/QRCode_Artifacts/d".
Proof. reflexivity. Qed.

Example zfill_two : Py.zfill 2 7 = "07".
Proof. reflexivity. Qed.

Example rjust_three : Py.rjust 3 (Py.str_int 12) = " 12".
Proof. reflexivity. Qed.

(** ** Occurrences in a string *)

Lemma append_empty_r (s : string) : s ++ Py.EMPTY = s.
Proof. induction s as [|c s IH]; cbn; [reflexivity | now rewrite IH]. Qed.

Lemma append_assoc (a b c : string) : (a ++ b) ++ c = a ++ b ++ c.
Proof. induction a as [|x a IH]; cbn; [reflexivity | now rewrite IH]. Qed.

Lemma startswith_spec (s p : string) :
  Py.startswith s p = true <-> exists post, s = p ++ post.
Proof.
  revert s; induction p as [|a p IH]; intros s.
  - split; [intros _; now exists s | intros _; destruct s; reflexivity].
  - destruct s as [|b s]; cbn.
    + split; [discriminate | intros [post H]; discriminate H].
    + rewrite andb_true_iff, Ascii.eqb_eq, IH. split.
      * intros [-> [post ->]]. now exists post.
      * intros [post H]. injection H as -> ->. split; [reflexivity | now exists post].
Qed.

Lemma contains_empty (sub : string) : Contains Py.EMPTY sub <-> sub = Py.EMPTY.
Proof.
  split.
  - intros (pre & post & H). destruct pre; [|discriminate H].
    destruct sub; [reflexivity | discriminate H].
  - intros ->. now exists Py.EMPTY, Py.EMPTY.
Qed.

Lemma contains_cons (c : ascii) (s sub : string) :
  Contains (String c s) sub
  <-> (exists post, String c s = sub ++ post) \/ Contains s sub.
Proof.
  split.
  - intros (pre & post & H). destruct pre as [|a pre].
    + left. now exists post.
    + right. injection H as _ H. now exists pre, post.
  - intros [[post H] | (pre & post & H)].
    + now exists Py.EMPTY, post.
    + exists (String c pre), post. cbn. now rewrite H.
Qed.

Lemma find_from_none (s sub : string) (i : nat) :
  Py.find_from s sub i = None <-> ~ Contains s sub.
Proof.
  revert i; induction s as [|c s IH]; intros i.
  - cbn [Py.find_from]. rewrite contains_empty. destruct sub; cbn; split; intro H;
      try discriminate; try reflexivity; try (intros E; discriminate E).
    now elim H.
  - cbn [Py.find_from]. rewrite contains_cons.
    destruct (Py.startswith (String c s) sub) eqn:E.
    + apply startswith_spec in E. split; [discriminate | intros H; elim H; now left].
    + rewrite IH. split.
      * intros H [F | F]; [|now apply H].
        apply startswith_spec in F. rewrite F in E. discriminate E.
      * intros H F. apply H. now right.
Qed.

Lemma find_absent (s sub : string) :
  Py.find s sub = (-1)%Z <-> ~ Contains s sub.
Proof.
  unfold Py.find. rewrite <- (find_from_none s sub 0).
  destruct (Py.find_from s sub 0); split; intro H;
    try reflexivity; try discriminate H; lia.
Qed.

(** ** Running a computation *)

Section Rules.
Context {L C : Type}.
Implicit Types s : state L C.

Lemma wp_elim {A} (m : M L C A) s s' o Q : wp m s Q -> m s = (s', o) -> Q s' o.
Proof. unfold wp. intros H E. now rewrite E in H. Qed.

Lemma wp_bind {A B} (m : M L C A) (k : A -> M L C B) s Q :
  wp m s (fun s1 o => match o with
                      | Returned a => wp (k a) s1 Q
                      | Raised x => Q s1 (Raised x)
                      end) ->
  wp (bind m k) s Q.
Proof. unfold wp, bind. destruct (m s) as [s1 [a|x]]; auto. Qed.

Lemma wp_atomic {A} (m : M L C A) s s' o Q :
  m s = (s', o) -> Q s' o -> wp m s Q.
Proof. unfold wp. now intros ->. Qed.

Lemma wp_read {A} name (field : L -> option A) s v Q :
  field (locals s) = v ->
  match v with
  | Some a => Q s (Returned a)
  | None => Q s (Raised (UnboundLocalError name))
  end ->
  wp (read name field) s Q.
Proof. intros <-. unfold wp, read. destruct (field (locals s)); auto. Qed.

Lemma wp_try_except {A} (body : M L C A) h s Q :
  wp body s (fun s1 o => match o with
                         | Returned a => Q s1 (Returned a)
                         | Raised x => match h x with
                                       | Some hh => wp hh s1 Q
                                       | None => Q s1 (Raised x)
                                       end
                         end) ->
  wp (try_except body h) s Q.
Proof.
  unfold wp, try_except. destruct (body s) as [s1 [a|x]]; auto.
  cbn [fst snd]. destruct (h x); auto.
Qed.

Lemma wp_try_finally {A} (body : M L C A) final s Q :
  wp body s (fun s1 r =>
     wp final s1 (fun s2 o => match o with
                              | Returned _ => Q s2 r
                              | Raised x => Q s2 (Raised x)
                              end)) ->
  wp (try_finally body final) s Q.
Proof.
  unfold wp, try_finally. destruct (body s) as [s1 r]. cbn [fst snd].
  destruct (final s1) as [s2 [u|x]]; auto.
Qed.

Lemma wp_if {A} (b v : bool) (m1 m2 : M L C A) s Q :
  b = v -> (if v then wp m1 s Q else wp m2 s Q) ->
  wp (if b then m1 else m2) s Q.
Proof. intros <-. now destruct b. Qed.

Lemma wp_log_lines l msgs s s' (Q : state L C -> outcome unit -> Prop) :
  logged_all l msgs s = s' -> Q s' (Returned tt) -> wp (log_lines l msgs) s Q.
Proof.
  intros <-. revert s; induction msgs as [|m msgs IH]; intros s H.
  - exact H.
  - cbn [log_lines]. apply wp_bind. eapply wp_atomic; [reflexivity|].
    apply IH. exact H.
Qed.

Lemma wp_GetCommandLine_loop args n str s Q :
  Q (logged_all DEBUG (cmdline_debug args n str) s) (Returned (cmdline args str)) ->
  wp (GetCommandLine_loop args n str) s Q.
Proof.
  revert n str s; induction args as [|x rest IH]; intros n str s H.
  - exact H.
  - cbn [GetCommandLine_loop]. apply wp_bind. eapply wp_atomic; [reflexivity|].
    apply wp_bind. eapply wp_atomic; [reflexivity|]. cbv zeta. apply IH. exact H.
Qed.

Lemma wp_GetCommandLine env s s' Q :
  logged_all DEBUG (cmdline_debug (argv env) 0 "python") s = s' ->
  Q s' (Returned (cmdline (argv env) "python")) ->
  wp (GetCommandLine env) s Q.
Proof. intros <-. apply wp_GetCommandLine_loop. Qed.

Lemma logged_all_on l msgs lo t rs tr mk :
  (t <=? levelno l)%nat = true ->
  logged_all l msgs
    {| locals := lo; threshold := t; records := rs; trace := tr; marks := mk |}
  = {| locals := lo; threshold := t;
       records := (rs ++ map (Build_record l) msgs)%list;
       trace := tr; marks := mk |} :> state L C.
Proof.
  intros E. revert rs; induction msgs as [|m msgs IH]; intros rs.
  - cbn [logged_all map]. now rewrite app_nil_r.
  - cbn [logged_all map]. unfold logged. cbn [threshold]. rewrite E.
    unfold handled. cbn [locals threshold records trace marks].
    now rewrite IH, <- app_assoc.
Qed.

Lemma logged_all_off l msgs s :
  (threshold s <=? levelno l)%nat = false -> logged_all l msgs s = s.
Proof.
  intros E. induction msgs as [|m msgs IH]; [reflexivity|].
  cbn [logged_all]. unfold logged. now rewrite E.
Qed.

Lemma wp_finish (m : M L C unit) s (P : result C -> Prop) :
  wp m s (fun s' o => P (finish (s', o))) -> P (finish (m s)).
Proof. unfold wp. now destruct (m s). Qed.


Lemma pure_ret {A} (a : A) : pure (@ret L C A a).
Proof. now intros s. Qed.

Lemma pure_raise {A} x : pure (@raise L C A x).
Proof. now intros s. Qed.

Lemma pure_lift {A} (o : outcome A) : pure (@lift L C A o).
Proof. now intros s. Qed.

Lemma pure_bind {A B} (m : M L C A) (k : A -> M L C B) :
  pure m -> (forall a, pure (k a)) -> pure (bind m k).
Proof.
  intros Hm Hk s. unfold bind. specialize (Hm s).
  destruct (m s) as [s1 [a|x]]; cbn [fst] in *; subst; [apply Hk | reflexivity].
Qed.

Lemma pure_if {A} (b : bool) (m1 m2 : M L C A) :
  pure m1 -> pure m2 -> pure (if b then m1 else m2).
Proof. now destruct b. Qed.

Lemma pure_try_except {A} (m : M L C A) h :
  pure m -> (forall x hh, h x = Some hh -> pure hh) -> pure (try_except m h).
Proof.
  intros Hm Hh s. unfold try_except. specialize (Hm s).
  destruct (m s) as [s1 [a|x]]; cbn [fst] in *; subst; [reflexivity|].
  destruct (h x) as [hh|] eqn:E; [now apply (Hh x) | reflexivity].
Qed.

Lemma wp_pure {A} (m : M L C A) s Q :
  pure m -> (forall o, Q s o) -> wp m s Q.
Proof. intros Hm H. unfold wp. rewrite Hm. apply H. Qed.


Lemma setup_trace_quiet LOG tr c x :
  setup_trace LOG tr -> In {| callee := c; raised := x |} tr ->
  is_conversion c = false.
Proof.
  intros H Hin. destruct (H _ Hin) as [(p & y & E) | (y & E)];
    injection E as -> _; reflexivity.
Qed.

Lemma setup_trace_log LOG tr ev p :
  setup_trace LOG tr -> In ev tr -> callee ev = FileHandler p -> p = LOG.
Proof.
  intros H Hin Hp. destruct (H _ Hin) as [(q & y & ->) | (y & ->)]; cbn in Hp;
    [discriminate Hp | now injection Hp as <-].
Qed.

(** The part every [main] starts with, up to the assignment of the level:
    either the directory cannot be made or the log file cannot be opened,
    or the rest runs from a state whose trace holds the set-up calls
    only. *)
Lemma wp_prologue env LOG BANNER (verbose : bool) (core : M L C unit) l0 Q :
  (forall tr x, setup_trace LOG tr ->
     Q {| locals := l0; threshold := levelno WARNING; records := [];
          trace := tr; marks := [] |} (Raised x)) ->
  (forall rs tr, setup_trace LOG tr ->
     wp core {| locals := l0;
                threshold := if verbose then levelno DEBUG else levelno WARNING;
                records := rs; trace := tr; marks := [] |} Q) ->
  wp (setup_logging env LOG ;;
      (log_lines CRITICAL BANNER ;;
       ((if verbose then set_level (levelno DEBUG) else ret tt) ;; core)))
     (initial l0) Q.
Proof.
  intros Hfail Hcore.
  assert (Hgo : forall tr, setup_trace LOG tr ->
            wp (log_lines CRITICAL BANNER ;;
                ((if verbose then set_level (levelno DEBUG) else ret tt) ;; core))
               {| locals := l0; threshold := levelno WARNING; records := [];
                  trace := tr; marks := [] |} Q).
  { intros tr Htr. apply wp_bind. eapply wp_log_lines.
    - apply logged_all_on. reflexivity.
    - cbv beta iota. apply wp_bind. destruct verbose.
      + eapply wp_atomic; [reflexivity|]. cbv beta iota. now apply Hcore.
      + eapply wp_atomic; [reflexivity|]. cbv beta iota. now apply Hcore. }
  unfold setup_logging, ConfigureLogging, initial. cbv zeta.
  apply wp_bind. apply wp_bind.
  destruct (negb (path_exists env (Py.dirname LOG))).
  - eapply wp_atomic; [reflexivity|].
    destruct (makedirs env (Py.dirname LOG)) as [[]|x]; cbn [status].
    + apply wp_bind. eapply wp_atomic; [reflexivity|].
      destruct (file_handler env LOG) as [[]|y]; cbn [status]; cbv beta iota.
      * eapply wp_atomic; [reflexivity|]. cbv beta iota. apply Hgo.
        intros ev [<- | [<- | []]]; [left; eauto | right; eauto].
      * apply Hfail.
        intros ev [<- | [<- | []]]; [left; eauto | right; eauto].
    + cbv beta iota. apply Hfail.
      intros ev [<- | []]. left; eauto.
  - eapply wp_atomic; [reflexivity|]. cbv beta iota.
    apply wp_bind. eapply wp_atomic; [reflexivity|].
    destruct (file_handler env LOG) as [[]|y]; cbn [status]; cbv beta iota.
    + eapply wp_atomic; [reflexivity|]. cbv beta iota. apply Hgo.
      intros ev [<- | []]. right; eauto.
    + apply Hfail. intros ev [<- | []]. right; eauto.
Qed.

End Rules.

(** ** Ends of lists and membership *)

Lemma suffix_nil {A} (l : list A) : Suffix [] l.
Proof. exists l. now rewrite app_nil_r. Qed.

Lemma suffix_snoc {A} (X l : list A) (a : A) :
  Suffix X l -> Suffix (X ++ [a]) (l ++ [a]).
Proof. intros [pre ->]. exists pre. now rewrite app_assoc. Qed.

Lemma suffix_in {A} (X l : list A) a : Suffix X l -> In a X -> In a l.
Proof. intros [pre ->] H. apply in_or_app. now right. Qed.

Lemma in_snoc_here {A} (l : list A) a : In a (l ++ [a]).
Proof. apply in_or_app. right. now left. Qed.

Lemma in_snoc_there {A} (l seg : list A) a : In a l -> In a (l ++ seg).
Proof. intros H. apply in_or_app. now left. Qed.

(** ** Tactics that run a script *)

(** The state a step without branching leads to. *)
Ltac state_eval :=
  cbv beta iota zeta delta
      [bind perform log set_level assign mark ret raise lift sys_exit read
       logged handled called assigned marked leveled log_lines
       threshold records locals trace marks levelno Nat.leb
       QR.on_KeyboardInterrupt QR.on_Exception
       Png2Icon.on_KeyboardInterrupt Png2Icon.on_Exception
       Png2Icon.final_report Png2Icon.report_lines
       Png2Icon.startLocalDatetime Png2Icon.startUtcDatetime
       Video2Gif.on_KeyboardInterrupt Video2Gif.on_Exception
       Video2Gif.final_report Video2Gif.report_lines
       Video2Gif.startLocalDatetime Video2Gif.startUtcDatetime
       WifiQR.final_report WifiQR.report_lines WifiQR.objConfig
       WifiQR.startLocalDatetime WifiQR.startUtcDatetime
       UrlQR.final_report UrlQR.report_lines UrlQR.objConfig
       UrlQR.startLocalDatetime UrlQR.startUtcDatetime
       ContactCard.final_report ContactCard.report_lines ContactCard.objConfig
       ContactCard.startLocalDatetime ContactCard.startUtcDatetime];
  reflexivity.

Ltac logs_all :=
  first [ rewrite logged_all_on by reflexivity
        | rewrite logged_all_off by reflexivity ];
  reflexivity.

Ltac norm :=
  cbv beta iota zeta delta
      [except_KeyboardInterrupt except_Exception except_all orelse].

Ltac wp_rule :=
  lazymatch goal with
  | |- wp (bind _ _) _ _ => apply wp_bind
  | |- wp (try_except _ _) _ _ => apply wp_try_except
  | |- wp (try_finally _ _) _ _ => apply wp_try_finally
  | |- wp (log_lines _ _) _ _ => eapply wp_log_lines; [logs_all|]
  | |- wp (GetCommandLine _) _ _ => eapply wp_GetCommandLine; [logs_all|]
  | |- wp (if ?b then _ else _) _ _ =>
      let v := eval vm_compute in b in
      lazymatch v with
      | true => apply (wp_if b true); [vm_compute; reflexivity|]
      | false => apply (wp_if b false); [vm_compute; reflexivity|]
      | _ => eapply wp_if; [reflexivity|]
      end
  | |- wp _ _ _ => eapply wp_atomic; [state_eval|]
  end.

Ltac head_scrutinee t :=
  lazymatch t with
  | match ?u with _ => _ end => head_scrutinee u
  | _ => t
  end.

(** A case distinction on what the next step depends on: an equation of
    the context decides it when there is one, evaluation when the value is
    closed, and otherwise both cases are followed. *)
Ltac branch :=
  lazymatch goal with
  | |- match ?u with _ => _ end =>
      let v := head_scrutinee u in
      first
        [ match goal with H : v = _ |- _ => rewrite H end
        | let w := eval vm_compute in v in
          lazymatch w with
          | Returned _ => change v with w
          | Raised _ => change v with w
          | true => change v with w
          | false => change v with w
          end
        | destruct v eqn:? ]
  end.

Ltac run := repeat (first [wp_rule | progress norm | branch]).

Ltac start :=
  lazymatch goal with
  | |- context [finish ?t] => pattern (finish t); apply wp_finish
  end.

(** The cases of a membership in a list built by appending. *)
Ltac cases_in H :=
  rewrite ?in_app_iff in H; cbn [In] in H;
  repeat match type of H with
         | _ \/ _ => destruct H as [H|H]
         | False => destruct H
         end;
  try discriminate H.

(** Membership in a list built by appending, found from its end. *)
Ltac find_in :=
  repeat lazymatch goal with
         | |- In ?a (_ ++ [?b]) =>
             first [ constr_eq a b; apply in_snoc_here | apply in_snoc_there ]
         | |- In _ (_ ++ _) => apply in_snoc_there
         end.

(** [init_last X k] splits the list [X] into all but its last element and
    the last one. *)
Ltac init_last X k :=
  lazymatch X with
  | [?a] => k (@nil Rt.record) a
  | ?x :: ?t => init_last t ltac:(fun i a => k (x :: i) a)
  end.

Ltac suffix_steps :=
  lazymatch goal with
  | |- Suffix [] _ => apply suffix_nil
  | |- Suffix ?X ?l =>
      init_last X ltac:(fun i a =>
        change (Suffix (i ++ [a]) l); apply suffix_snoc; suffix_steps)
  end.

(** The end of a log: the expected records are first brought to the form
    of a list of records. *)
Ltac suffix :=
  lazymatch goal with
  | |- Suffix ?X ?l =>
      let X' := eval cbv beta iota delta
                  [app map abort_records final_records qr_tail crit
                   Png2Icon.report_lines Video2Gif.report_lines
                   WifiQR.report_lines UrlQR.report_lines
                   ContactCard.report_lines] in X in
      change (Suffix X' l); suffix_steps
  end.

Ltac leaf :=
  cbn [finish calls exit_code uncaught log_records observed status
       trace records marks].

(** ** Tactics for what a run has logged, called and observed *)

(** The call of a trace that raised [x]: the set-up calls are not among
    the conversion calls. *)
Ltac raised_case H Hc :=
  cases_in H;
  [ lazymatch goal with
    | Htr : setup_trace _ _ |- _ =>
        rewrite (setup_trace_quiet _ _ _ _ Htr H) in Hc; discriminate Hc
    end
  | .. ];
  inversion H; subst; try (cbn in Hc; discriminate Hc).

Ltac on_interrupt :=
  let c := fresh "c" in let Hc := fresh "Hc" in let Hin := fresh "Hin" in
  intros (c & Hc & Hin); raised_case Hin Hc;
  (split; [reflexivity | split; [reflexivity | suffix]]).

Ltac on_error :=
  let e := fresh "e" in
  let c := fresh "c" in let Hc := fresh "Hc" in let Hin := fresh "Hin" in
  intros e (c & Hc & Hin); raised_case Hin Hc;
  unfold crit;
  (split; [reflexivity | split; [reflexivity | split; find_in]]).

Ltac on_marks :=
  let Hin := fresh "Hin" in
  intros ? ? Hin; cases_in Hin; inversion Hin; reflexivity.

Ltac on_calls :=
  let ev := fresh "ev" in let Hin := fresh "Hin" in let Hp := fresh "Hp" in
  intros ev ? Hin Hp; cases_in Hin;
  [ lazymatch goal with
    | Htr : setup_trace _ _ |- _ =>
        first [ exact (setup_trace_log _ _ _ _ Htr Hin Hp)
              | destruct ev as [c0 x0]; cbn in Hp; subst c0;
                discriminate (setup_trace_quiet _ _ _ _ Htr Hin) ]
    end
  | .. ];
  subst ev; cbn in Hp; try discriminate Hp; inversion Hp; reflexivity.

(** ** What a run of a file converter guarantees *)


Lemma Png2Icon_run (env : Env) (args : Png2Icon.Args) :
  Png2Icon_facts env args (Png2Icon.main env args).
Proof.
  unfold Png2Icon.main. start. unfold Png2Icon.run. cbv zeta.
  apply wp_prologue.
  - intros tr x Htr. unfold Png2Icon_facts, conversion_raised. leaf.
    split; [|split; [|split; [|split]]].
    + intros (c & Hc & Hin).
      rewrite (setup_trace_quiet _ _ _ _ Htr Hin) in Hc. discriminate Hc.
    + intros e (c & Hc & Hin).
      rewrite (setup_trace_quiet _ _ _ _ Htr Hin) in Hc. discriminate Hc.
    + intros p c [].
    + intros ev p Hin Hp. exact (setup_trace_log _ _ _ _ Htr Hin Hp).
    + intros [c0 x0] p Hin Hp. cbn in Hp. subst c0.
      discriminate (setup_trace_quiet _ _ _ _ Htr Hin).
  - intros rs tr Htr.
    unfold Png2Icon.guarded, Png2Icon.GenerateIcoFile.
    destruct (Png2Icon.verbose args) eqn:Hv.
    all: run.
    all: unfold Png2Icon_facts, png_destFile, conversion_raised; rewrite Hv; leaf.
    all: (split; [on_interrupt
      | split; [on_error
      | split; [on_marks | split; on_calls]]]).
Qed.


Lemma Video2Gif_run (env : Env) (args : Video2Gif.Args) :
  Video2Gif_facts env args (Video2Gif.main env args).
Proof.
  unfold Video2Gif.main. start. unfold Video2Gif.run. cbv zeta.
  apply wp_prologue.
  - intros tr x Htr. unfold Video2Gif_facts, conversion_raised. leaf.
    split; [|split; [|split; [|split]]].
    + intros (c & Hc & Hin).
      rewrite (setup_trace_quiet _ _ _ _ Htr Hin) in Hc. discriminate Hc.
    + intros e (c & Hc & Hin).
      rewrite (setup_trace_quiet _ _ _ _ Htr Hin) in Hc. discriminate Hc.
    + intros p c [].
    + intros ev p Hin Hp. exact (setup_trace_log _ _ _ _ Htr Hin Hp).
    + intros [c0 x0] p Hin Hp. cbn in Hp. subst c0.
      discriminate (setup_trace_quiet _ _ _ _ Htr Hin).
  - intros rs tr Htr.
    unfold Video2Gif.guarded, Video2Gif.GenerateGifFile.
    destruct (Video2Gif.verbose args) eqn:Hv.
    all: run.
    all: unfold Video2Gif_facts, gif_destFile, conversion_raised; rewrite Hv; leaf.
    all: (split; [on_interrupt
      | split; [on_error
      | split; [on_marks | split; on_calls]]]).
Qed.

(** ** The steps of the QR tools that leave the state alone *)

Section Quiet.
Context {L C : Type}.

Lemma wp_bind_pure {A B} (m : M L C A) (k : A -> M L C B) s Q :
  pure m -> (forall a, wp (k a) s Q) -> (forall x, Q s (Raised x)) ->
  wp (bind m k) s Q.
Proof.
  intros Hm Hk Hx. apply wp_bind. apply wp_pure; [exact Hm|].
  intros [a|x]; [apply Hk | apply Hx].
Qed.

Lemma item2_pure (d : json) (k1 k2 : string) : pure (@QR.item2 L C d k1 k2).
Proof.
  unfold QR.item2. apply pure_bind; [apply pure_lift | intro; apply pure_lift].
Qed.

Lemma item3_pure (d : json) (k1 k2 k3 : string) :
  pure (@QR.item3 L C d k1 k2 k3).
Proof.
  unfold QR.item3. apply pure_bind; [apply item2_pure | intro; apply pure_lift].
Qed.

Lemma module_style_pure (configData : json) (key : string) :
  pure (@QR.module_style L C configData key).
Proof.
  unfold QR.module_style. cbv zeta.
  repeat first [ apply pure_bind | apply item2_pure | apply pure_lift
               | apply pure_ret | apply pure_if | intro ].
Qed.

Lemma color_3d_pure (r g b : json) : pure (@QR.color_3d L C r g b).
Proof.
  unfold QR.color_3d.
  repeat first [ apply pure_bind | apply pure_lift | apply pure_ret | intro ].
Qed.

(** The generators make one image, with one of the five drawers, or none
    when the stored style is none of the five constants. *)
Lemma wp_styled_image env q style back front (s : state L C) Q :
  (forall d,
     wp (perform (MakeImage d back front) (make_image env q d back front)) s
        (fun s1 o => match o with
                     | Returned img => Q s1 (Returned (Some img))
                     | Raised x => Q s1 (Raised x)
                     end)) ->
  Q s (Returned None) ->
  wp (QR.styled_image env q style back front) s Q.
Proof.
  intros Hmake Hnone. unfold QR.styled_image. cbv zeta.
  assert (Hd : forall d,
            wp (img <- perform (MakeImage d back front)
                               (make_image env q d back front) ;;
                ret (Some img)) s Q).
  { intros d. apply wp_bind. specialize (Hmake d). unfold wp in *.
    cbn [perform fst snd] in *.
    destruct (make_image env q d back front); exact Hmake. }
  repeat match goal with
         | |- wp (if ?b then _ else _) _ _ => destruct b; [apply Hd|]
         end.
  exact Hnone.
Qed.

End Quiet.

Ltac solve_pure :=
  repeat first [ apply pure_bind | apply item3_pure | apply item2_pure
               | apply module_style_pure | apply color_3d_pure
               | apply pure_lift | apply pure_ret | apply pure_raise
               | apply pure_if | intro ].

(** [Config.__init__] of the WiFi and of the URL tool reads the file and
    changes nothing else. *)
Lemma WifiQR_Config_init_wp env f (s : state WifiQR.Locals WifiQR.Config) Q :
  (forall o, Q (called (JsonLoad f) (status (json_load env f)) s) o) ->
  wp (WifiQR.Config_init env f) s Q.
Proof.
  intros H. unfold WifiQR.Config_init. apply wp_bind.
  eapply wp_atomic; [reflexivity|]. revert H.
  destruct (json_load env f) as [configData|x]; intros H; [|apply H].
  apply wp_pure; [solve_pure | exact H].
Qed.

Lemma UrlQR_Config_init_wp env f (s : state UrlQR.Locals UrlQR.Config) Q :
  (forall o, Q (called (JsonLoad f) (status (json_load env f)) s) o) ->
  wp (UrlQR.Config_init env f) s Q.
Proof.
  intros H. unfold UrlQR.Config_init. apply wp_bind.
  eapply wp_atomic; [reflexivity|]. revert H.
  destruct (json_load env f) as [configData|x]; intros H; [|apply H].
  apply wp_pure; [solve_pure | exact H].
Qed.


Lemma ContactCard_Config_init_wp env f d
  (s : state ContactCard.Locals ContactCard.Config) Q :
  (forall x, Q (called (JsonLoad f) (status (json_load env f)) s) (Raised x)) ->
  (forall c, Q (logged_all ERROR (dest_warning d)
                  (called (JsonLoad f) (status (json_load env f)) s))
               (Returned c)) ->
  wp (ContactCard.Config_init env f d) s Q.
Proof.
  intros Hx Hc. unfold ContactCard.Config_init. apply wp_bind.
  eapply wp_atomic; [reflexivity|]. revert Hx Hc.
  destruct (json_load env f) as [configData|x]; intros Hx Hc; [|apply Hx].
  cbn [status] in *.
  repeat (apply wp_bind_pure;
          [ first [ solve [solve_pure]
                  | apply pure_try_except;
                    [ apply item2_pure
                    | intros ? ? E; injection E as <-; apply pure_ret ] ]
          | intros ? | exact Hx ]).
  unfold ContactCard.timestamped. unfold dest_warning in Hc. revert Hc.
  destruct (ContactCard.list_item (Py.split d ".") 0) as [stem|x0];
    destruct (ContactCard.list_item (Py.split d ".") 1) as [ext|x1];
    intros Hc; run; apply Hc.
Qed.

(** ** What a run of a QR tool guarantees *)

Ltac qr_rule :=
  lazymatch goal with
  | |- wp (QR.color_3d _ _ _) _ _ =>
      apply wp_pure; [apply color_3d_pure | intro]
  | |- wp (QR.styled_image _ _ _ _ _) _ _ =>
      apply wp_styled_image; [intro|]
  | |- wp (QR.save _ _ _) _ _ => unfold QR.save
  | |- wp (WifiQR.Config_init _ _) _ _ =>
      apply WifiQR_Config_init_wp; intro
  | |- wp (UrlQR.Config_init _ _) _ _ =>
      apply UrlQR_Config_init_wp; intro
  | |- wp (ContactCard.Config_init _ _ _) _ _ =>
      apply ContactCard_Config_init_wp; intro;
      [ | cbv beta iota delta [called locals threshold records trace marks];
          rewrite logged_all_on by reflexivity ]
  end.

Ltac run_qr := repeat (first [qr_rule | wp_rule | progress norm | branch]).


Ltac qr_interrupt :=
  let c := fresh "c" in let Hc := fresh "Hc" in let Hin := fresh "Hin" in
  intros (c & Hc & Hin); raised_case Hin Hc;
  (split; [reflexivity | split; [reflexivity |
     eexists; split; [apply in_snoc_here | suffix]]]).

Ltac qr_error :=
  let e := fresh "e" in
  let c := fresh "c" in let Hc := fresh "Hc" in let Hin := fresh "Hin" in
  intros e (c & Hc & Hin); raised_case Hin Hc;
  unfold crit;
  (split; [reflexivity | split; [reflexivity | split; find_in]]).

Ltac qr_marks :=
  let H1 := fresh "H1" in let H2 := fresh "H2" in
  intros ? ? H1 H2; cases_in H1; cases_in H2;
  inversion H1; inversion H2; subst; reflexivity.

Ltac qr_leaf :=
  split; [qr_interrupt | split; [qr_error | split;
    [qr_marks | on_calls]]].

(** No conversion call and no observation is made when the directory of
    the log cannot be created. *)
Lemma qr_facts_setup_failure {L C} env prog name verbose lines after
  (l0 : L) tr x :
  setup_trace (QR.LOG_FILENAME env) tr ->
  @qr_facts C env prog name verbose lines after
    (finish ({| locals := l0; threshold := levelno WARNING; records := [];
                trace := tr; marks := [] |}, Raised x)).
Proof.
  intros Htr. unfold qr_facts, conversion_raised. leaf.
  split; [|split; [|split]].
  - intros (c & Hc & Hin).
    rewrite (setup_trace_quiet _ _ _ _ Htr Hin) in Hc. discriminate Hc.
  - intros e (c & Hc & Hin).
    rewrite (setup_trace_quiet _ _ _ _ Htr Hin) in Hc. discriminate Hc.
  - intros c1 c2 [].
  - intros ev p Hin Hp. exact (setup_trace_log _ _ _ _ Htr Hin Hp).
Qed.


Lemma WifiQR_run (env : Env) (args : WifiQR.Args) :
  WifiQR_facts env args (WifiQR.main env args).
Proof.
  unfold WifiQR.main. start. unfold WifiQR.run. cbv zeta.
  apply wp_prologue.
  - intros tr x Htr. split; [now apply qr_facts_setup_failure|].
    intros [c0 x0] d Hin Hd. cbn in Hd. subst c0.
    discriminate (setup_trace_quiet _ _ _ _ Htr Hin).
  - intros rs tr Htr.
    unfold WifiQR.guarded, WifiQR.GenerateWifiQRCode.
    destruct (WifiQR.verbose args) eqn:Hv.
    all: run_qr.
    all: unfold WifiQR_facts, WifiQR_after, qr_facts, conversion_raised;
      rewrite ?Hv; leaf.
    all: (split; [qr_leaf | on_calls]).
Qed.


Lemma UrlQR_run (env : Env) (args : UrlQR.Args) :
  UrlQR_facts env args (UrlQR.main env args).
Proof.
  unfold UrlQR.main. start. unfold UrlQR.run. cbv zeta.
  apply wp_prologue.
  - intros tr x Htr. now apply qr_facts_setup_failure.
  - intros rs tr Htr.
    unfold UrlQR.guarded, UrlQR.GenerateUrlQRCode.
    destruct (UrlQR.verbose args) eqn:Hv.
    all: run_qr.
    all: unfold UrlQR_facts, qr_facts, conversion_raised; rewrite ?Hv; leaf.
    all: qr_leaf.
Qed.


Ltac contact_calls :=
  let ev := fresh "ev" in let Hin := fresh "Hin" in let Hp := fresh "Hp" in
  intros ev ? ? Hin Hp || intros ev ? Hin Hp; cases_in Hin;
  [ lazymatch goal with
    | Htr : setup_trace _ _ |- _ =>
        destruct ev as [c0 x0]; cbn in Hp; subst c0;
        discriminate (setup_trace_quiet _ _ _ _ Htr Hin)
    end
  | .. ];
  subst ev; cbn in Hp; try discriminate Hp; inversion Hp;
  eexists; (split; [apply in_snoc_here | auto]).

Lemma ContactCard_run (env : Env) (args : ContactCard.Args) :
  ContactCard_facts env args (ContactCard.main env args).
Proof.
  unfold ContactCard.main. start. unfold ContactCard.run. cbv zeta.
  apply wp_prologue.
  - intros tr x Htr. split; [now apply qr_facts_setup_failure|].
    split.
    + intros [c0 x0] d Hin Hd. cbn in Hd. subst c0.
      discriminate (setup_trace_quiet _ _ _ _ Htr Hin).
    + intros [c0 x0] img p Hin Hd. cbn in Hd. subst c0.
      discriminate (setup_trace_quiet _ _ _ _ Htr Hin).
  - intros rs tr Htr.
    unfold ContactCard.guarded, ContactCard.GenerateContactCard.
    destruct (ContactCard.verbose args) eqn:Hv.
    all: run_qr.
    all: unfold ContactCard_facts, qr_facts, conversion_raised; rewrite ?Hv; leaf.
    all: (split; [qr_leaf | split; contact_calls]).
Qed.

(** * The specification, statement by statement *)

(** ** Where the artifacts go (C1) *)

(** A membership in a list that evaluates to a list of closed terms. *)
Ltac in_list := vm_compute; repeat (first [left; reflexivity | right]).

(** In every run of png2icon.py and of video2gif.py the library is handed
    the bare destination name. *)
Lemma converters_save_to_destFile (env : Env) :
  (forall args ev p, In ev (calls (Png2Icon.main env args)) ->
     callee ev = ImageSaveIco p -> p = png_destFile args)
  /\ (forall args ev p, In ev (calls (Video2Gif.main env args)) ->
        callee ev = WriteGif p -> p = gif_destFile args).
Proof.
  split; intros args.
  - apply (Png2Icon_run env args).
  - apply (Video2Gif_run env args).
Qed.

(** C1, at the input [python png2icon.py logo.png] (and at
    [python video2gif.py clip.mp4]): the run ends with status 0 and writes
    one artifact, to the bare name [logo.ico] (resp. [clip.gif]), which
    taken from the working directory is not under [baseDirectory], while
    the final report of the same run names the file under
    [baseDirectory]. *)
Theorem C1_converters_write_outside_baseDirectory :
  (let env := sample ["png2icon.py"; "logo.png"] JNull no_fault in
   let r := Png2Icon.main env png_args in
   exit_code r = 0%Z
   /\ artifacts r = ["logo.ico"]
   /\ Png2Icon.baseDirectory env = "/home/u/Png2Icon_Artifacts/2024.11.21_10.30"
   /\ resolved env "logo.ico" = "/home/u/logo.ico"
   /\ Py.startswith "logo.ico" (Png2Icon.baseDirectory env) = false
   /\ Py.startswith (resolved env "logo.ico") (Png2Icon.baseDirectory env)
      = false
   /\ In (crit ".ico file: /home/u/Png2Icon_Artifacts/2024.11.21_10.30/logo.ico")
         (log_records r))
  /\ (let env := sample ["video2gif.py"; "clip.mp4"] JNull no_fault in
      let r := Video2Gif.main env gif_args in
      exit_code r = 0%Z
      /\ artifacts r = ["clip.gif"]
      /\ Video2Gif.baseDirectory env
         = "/home/u/Video2Gif_Artifacts/2024.11.21_10.30"
      /\ Py.startswith (resolved env "clip.gif") (Video2Gif.baseDirectory env)
         = false
      /\ In (crit ".gif file: /home/u/Video2Gif_Artifacts/2024.11.21_10.30/clip.gif")
            (log_records r)).
Proof.
  cbv zeta. split.
  - do 6 (split; [vm_compute; reflexivity|]). in_list.
  - do 4 (split; [vm_compute; reflexivity|]). in_list.
Qed.

(** ** A conversion call that raises (C2) *)

Lemma contains_tail (pre s : string) : Contains (pre ++ s) s.
Proof. exists pre, Py.EMPTY. now rewrite append_empty_r. Qed.

Lemma C2_counterexample :
  ~ raise_is_reported
      (sample ["png2icon.py"; "logo.png"] JNull (fault_at_start (Exc boom)))
      (Png2Icon.main
         (sample ["png2icon.py"; "logo.png"] JNull (fault_at_start (Exc boom)))
         png_args).
Proof.
  intros H. destruct (H boom) as (_ & _ & _ & rec & Hin & Hsub).
  - exists (ImageOpen "logo.png"). split; [reflexivity | in_list].
  - revert Hsub. apply find_absent.
    set (env := sample _ _ _) in *.
    assert (F : forallb (fun rec => (Py.find (message rec) (format_exc env boom)
                                     =? -1)%Z)
                        (log_records (Png2Icon.main env png_args)) = true)
      by (vm_compute; reflexivity).
    rewrite forallb_forall in F. apply Z.eqb_eq. exact (F rec Hin).
Qed.

(** The part every [main] starts with, with the banner as the log. *)
Lemma wp_prologue_banner {L C} env LOG BANNER (verbose : bool)
  (core : M L C unit) l0 Q :
  (forall tr x, setup_trace LOG tr ->
     Q {| locals := l0; threshold := levelno WARNING; records := [];
          trace := tr; marks := [] |} (Raised x)) ->
  (forall tr, setup_trace LOG tr ->
     wp core {| locals := l0;
                threshold := if verbose then levelno DEBUG else levelno WARNING;
                records := map crit BANNER; trace := tr; marks := [] |} Q) ->
  wp (setup_logging env LOG ;;
      (log_lines CRITICAL BANNER ;;
       ((if verbose then set_level (levelno DEBUG) else ret tt) ;; core)))
     (initial l0) Q.
Proof.
  intros Hfail Hcore.
  assert (Hgo : forall tr, setup_trace LOG tr ->
            wp (log_lines CRITICAL BANNER ;;
                ((if verbose then set_level (levelno DEBUG) else ret tt) ;; core))
               {| locals := l0; threshold := levelno WARNING; records := [];
                  trace := tr; marks := [] |} Q).
  { intros tr Htr. apply wp_bind. eapply wp_log_lines.
    - apply logged_all_on. reflexivity.
    - cbv beta iota. apply wp_bind. destruct verbose.
      + eapply wp_atomic; [reflexivity|]. cbv beta iota. now apply Hcore.
      + eapply wp_atomic; [reflexivity|]. cbv beta iota. now apply Hcore. }
  unfold setup_logging, ConfigureLogging, initial. cbv zeta.
  apply wp_bind. apply wp_bind.
  destruct (negb (path_exists env (Py.dirname LOG))).
  - eapply wp_atomic; [reflexivity|].
    destruct (makedirs env (Py.dirname LOG)) as [[]|x]; cbn [status].
    + apply wp_bind. eapply wp_atomic; [reflexivity|].
      destruct (file_handler env LOG) as [[]|y]; cbn [status]; cbv beta iota.
      * eapply wp_atomic; [reflexivity|]. cbv beta iota. apply Hgo.
        intros ev [<- | [<- | []]]; [left; eauto | right; eauto].
      * apply Hfail.
        intros ev [<- | [<- | []]]; [left; eauto | right; eauto].
    + cbv beta iota. apply Hfail.
      intros ev [<- | []]. left; eauto.
  - eapply wp_atomic; [reflexivity|]. cbv beta iota.
    apply wp_bind. eapply wp_atomic; [reflexivity|].
    destruct (file_handler env LOG) as [[]|y]; cbn [status]; cbv beta iota.
    + eapply wp_atomic; [reflexivity|]. cbv beta iota. apply Hgo.
      intros ev [<- | []]. right; eauto.
    + apply Hfail. intros ev [<- | []]. right; eauto.
Qed.

Lemma debug_is_no_entry (prog : string) (msgs : list string) :
  no_stack_trace prog (map (Build_record DEBUG) msgs).
Proof. apply Forall_map, Forall_forall. reflexivity. Qed.

Lemma banner_is_calm (prog : string) (log : list record) :
  forallb (fun rec => negb (handler_entry prog rec)) log = true ->
  no_stack_trace prog log.
Proof.
  intros H. apply Forall_forall. intros rec Hin. apply negb_true_iff.
  revert rec Hin. now apply forallb_forall.
Qed.

(** No record of a log that was built by appending is an entry of the
    [except Exception] clause. *)
Ltac calm :=
  unfold no_stack_trace in *;
  repeat lazymatch goal with
         | Hrs : Forall _ ?rs |- Forall _ ?rs => exact Hrs
         | |- Forall _ (_ ++ _) => apply Forall_app; split
         | |- Forall _ (map (Build_record DEBUG) _) =>
             apply debug_is_no_entry
         | |- Forall _ (_ :: _) => constructor; [reflexivity|]
         | |- Forall _ [] => constructor
         end.

Lemma Png2Icon_no_stack_trace (env : Env) (args : Png2Icon.Args) :
  no_stack_trace "png2icon.py" (log_records (Png2Icon.main env args)).
Proof.
  unfold Png2Icon.main. start. unfold Png2Icon.run. cbv zeta.
  apply wp_prologue_banner.
  - intros tr x Htr. leaf. constructor.
  - intros tr Htr.
    assert (Hrs : no_stack_trace "png2icon.py" (map crit Png2Icon.BANNER))
      by (apply banner_is_calm; vm_compute; reflexivity).
    revert Hrs. generalize (map crit Png2Icon.BANNER). intros rs Hrs.
    unfold Png2Icon.guarded, Png2Icon.GenerateIcoFile.
    destruct (Png2Icon.verbose args) eqn:Hv.
    all: run.
    all: leaf.
    all: calm.
Qed.

Lemma Video2Gif_no_stack_trace (env : Env) (args : Video2Gif.Args) :
  no_stack_trace "Video2Gif.py" (log_records (Video2Gif.main env args)).
Proof.
  unfold Video2Gif.main. start. unfold Video2Gif.run. cbv zeta.
  apply wp_prologue_banner.
  - intros tr x Htr. leaf. constructor.
  - intros tr Htr.
    assert (Hrs : no_stack_trace "Video2Gif.py" (map crit Video2Gif.BANNER))
      by (apply banner_is_calm; vm_compute; reflexivity).
    revert Hrs. generalize (map crit Video2Gif.BANNER). intros rs Hrs.
    unfold Video2Gif.guarded, Video2Gif.GenerateGifFile.
    destruct (Video2Gif.verbose args) eqn:Hv.
    all: run.
    all: leaf.
    all: calm.
Qed.

(** C2, amended: when a call of the conversion step raises an exception
    (not an interrupt), every tool ends with status 0 and without a
    traceback on the console.  The three QR tools log the entry
    [Error: <message>] and the entry [Call Stack:] followed by the stack
    trace.  Png2Icon and Video2Gif catch the exception inside
    [GenerateIcoFile] resp. [GenerateGifFile] and log the entry
    [Error processing <source>: <message>] at level ERROR; their log holds
    no stack trace: no CRITICAL record starts with [Call Stack:] and none
    is the header of the [except Exception] clause of [main]. *)
Theorem C2_conversion_failure (env : Env) :
  (forall args e,
     conversion_raised (Png2Icon.main env args) (Exc e) ->
     exit_code (Png2Icon.main env args) = 0%Z
     /\ uncaught (Png2Icon.main env args) = None
     /\ In {| levelname := ERROR;
              message := "Error processing " ++ Png2Icon.sourcefile args
                         ++ ": " ++ exc_msg e |}
           (log_records (Png2Icon.main env args))
     /\ no_stack_trace "png2icon.py" (log_records (Png2Icon.main env args)))
  /\ (forall args e,
        conversion_raised (Video2Gif.main env args) (Exc e) ->
        exit_code (Video2Gif.main env args) = 0%Z
        /\ uncaught (Video2Gif.main env args) = None
        /\ In {| levelname := ERROR;
                 message := "Error processing " ++ Video2Gif.sourcefile args
                            ++ ": " ++ exc_msg e |}
              (log_records (Video2Gif.main env args))
        /\ no_stack_trace "Video2Gif.py"
             (log_records (Video2Gif.main env args)))
  /\ (forall args e,
        conversion_raised (ContactCard.main env args) (Exc e) ->
        exit_code (ContactCard.main env args) = 0%Z
        /\ uncaught (ContactCard.main env args) = None
        /\ In (crit ("Error: " ++ exc_msg e))
              (log_records (ContactCard.main env args))
        /\ In (crit ("Call Stack:" ++ Py.NL ++ format_exc env e))
              (log_records (ContactCard.main env args)))
  /\ (forall args e,
        conversion_raised (UrlQR.main env args) (Exc e) ->
        exit_code (UrlQR.main env args) = 0%Z
        /\ uncaught (UrlQR.main env args) = None
        /\ In (crit ("Error: " ++ exc_msg e))
              (log_records (UrlQR.main env args))
        /\ In (crit ("Call Stack:" ++ Py.NL ++ format_exc env e))
              (log_records (UrlQR.main env args)))
  /\ (forall args e,
        conversion_raised (WifiQR.main env args) (Exc e) ->
        exit_code (WifiQR.main env args) = 0%Z
        /\ uncaught (WifiQR.main env args) = None
        /\ In (crit ("Error: " ++ exc_msg e))
              (log_records (WifiQR.main env args))
        /\ In (crit ("Call Stack:" ++ Py.NL ++ format_exc env e))
              (log_records (WifiQR.main env args))).
Proof.
  split; [|split; [|split; [|split]]]; intros args e H.
  - destruct (proj1 (proj2 (Png2Icon_run env args)) e H) as (E1 & E2 & E3 & _).
    split; [exact E1 | split; [exact E2 | split; [exact E3|]]].
    apply Png2Icon_no_stack_trace.
  - destruct (proj1 (proj2 (Video2Gif_run env args)) e H) as (E1 & E2 & E3 & _).
    split; [exact E1 | split; [exact E2 | split; [exact E3|]]].
    apply Video2Gif_no_stack_trace.
  - exact (proj1 (proj2 (proj1 (ContactCard_run env args))) e H).
  - exact (proj1 (proj2 (UrlQR_run env args)) e H).
  - exact (proj1 (proj2 (proj1 (WifiQR_run env args))) e H).
Qed.

Lemma C2_witness :
  let r := Png2Icon.main
             (sample ["png2icon.py"; "logo.png"] JNull
                     (fault_at_start (Exc boom))) png_args in
  exit_code r = 0%Z /\ uncaught r = None
  /\ In {| levelname := ERROR; message := "Error processing logo.png: boom" |}
        (log_records r)
  /\ no_stack_trace "png2icon.py" (log_records r).
Proof.
  apply (proj1 (C2_conversion_failure
                  (sample ["png2icon.py"; "logo.png"] JNull
                          (fault_at_start (Exc boom))))
               png_args boom).
  exists (ImageOpen "logo.png"). split; [reflexivity | in_list].
Defined.

(** ** The module style (C3) *)

Lemma documented_resolves (m : string) : resolves m (documented_style m).
Proof.
  unfold resolves, documented_style. cbv zeta.
  destruct (Py.lower m =? "square") eqn:E1;
    [apply String.eqb_eq in E1 | apply String.eqb_neq in E1];
  (destruct (Py.lower m =? "gappedsquare") eqn:E2;
    [apply String.eqb_eq in E2 | apply String.eqb_neq in E2]);
  (destruct (Py.lower m =? "verticalbars") eqn:E3;
    [apply String.eqb_eq in E3 | apply String.eqb_neq in E3]);
  (destruct (Py.lower m =? "horizontalbars") eqn:E4;
    [apply String.eqb_eq in E4 | apply String.eqb_neq in E4]);
  (destruct (Py.lower m =? "rounded") eqn:E5;
    [apply String.eqb_eq in E5 | apply String.eqb_neq in E5]);
  repeat split; intros; try reflexivity; try contradiction; congruence.
Qed.

Section Members.
Context {L C : Type}.
Implicit Types s : state L C.

Lemma item2_run (d : json) (k1 k2 : string) s :
  QR.item2 d k1 k2 s
  = (s, match getitem d k1 with
        | Returned a => getitem a k2
        | Raised x => Raised x
        end).
Proof.
  unfold QR.item2, bind, lift. cbn [fst snd].
  now destruct (getitem d k1).
Qed.

Lemma item3_run (d : json) (k1 k2 k3 : string) s :
  QR.item3 d k1 k2 k3 s
  = (s, match getitem d k1 with
        | Returned a => match getitem a k2 with
                        | Returned b => getitem b k3
                        | Raised x => Raised x
                        end
        | Raised x => Raised x
        end).
Proof.
  unfold QR.item3, bind. rewrite item2_run. cbn [fst snd].
  destruct (getitem d k1) as [a|]; [|reflexivity].
  now destruct (getitem a k2).
Qed.

(** The chain of tests of [Config.__init__] returns the documented
    style of a string. *)
Lemma module_style_run (configData : json) (key m : string) s :
  config_member configData key = Returned (JStr m) ->
  QR.module_style configData key s = (s, Returned (documented_style m)).
Proof.
  intros H. unfold QR.module_style, documented_style. cbv zeta.
  assert (E : (v <- QR.item2 configData "config" key ;; lift (lower_of v)) s
              = (s, Returned (Py.lower m))).
  { unfold bind. rewrite item2_run. cbn [fst snd].
    unfold config_member in H. now rewrite H. }
  revert E.
  generalize (v <- @QR.item2 L C configData "config" key ;; lift (lower_of v)).
  intros lowered E. unfold bind.
  repeat (rewrite E; cbn [fst snd]).
  destruct (Py.lower m =? "gappedsquare") eqn:E2;
    [apply String.eqb_eq in E2; now rewrite E2|].
  rewrite E; cbn [fst snd].
  destruct (Py.lower m =? "verticalbars") eqn:E3;
    [apply String.eqb_eq in E3; now rewrite E3|].
  rewrite E; cbn [fst snd].
  destruct (Py.lower m =? "horizontalbars") eqn:E4;
    [apply String.eqb_eq in E4; now rewrite E4|].
  rewrite E; cbn [fst snd].
  destruct (Py.lower m =? "rounded") eqn:E5;
    [apply String.eqb_eq in E5; now rewrite E5|].
  rewrite E; cbn [fst snd].
  now destruct (Py.lower m =? "square").
Qed.

Lemma wp_bind_any {A B} (m : M L C A) (k : A -> M L C B) s Q :
  (forall s1 a, m s = (s1, Returned a) -> wp (k a) s1 Q) ->
  (forall s1 x, m s = (s1, Raised x) -> Q s1 (Raised x)) ->
  wp (bind m k) s Q.
Proof.
  intros Hk Hx. apply wp_bind. unfold wp at 1.
  destruct (m s) as [s1 [a|x]]; cbn [fst snd]; [now apply Hk | now apply Hx].
Qed.

End Members.

(** The style a construction that returns has stored. *)
Ltac stored_style :=
  repeat (apply wp_bind_any;
          [ intros ? ? ? | intros ? ? _ ? E; discriminate E ]);
  unfold wp, ret; cbn [fst snd]; intros ? E; injection E as <-;
  cbn [WifiQR.moduleStyleWifi UrlQR.ModuleStyle ContactCard.moduleStyle];
  match goal with
  | Hm : config_member _ _ = _, E : QR.module_style _ _ _ = _ |- _ =>
      rewrite (module_style_run _ _ _ _ Hm) in E; injection E as _ <-
  end;
  apply documented_resolves.

(** C3: in each QR tool, when the configuration file holds the string [m]
    as module style, the chain of tests of [Config.__init__] returns a
    style [m] resolves to, and a construction that returns has stored such
    a style: the style of one of the five names for [m] equal to it in any
    letter case, and the square style for any other [m]. *)
Theorem C3_module_style (env : Env) (f : string) (configData : json)
  (m : string) :
  json_load env f = Returned configData ->
  (forall L C key (s : state L C),
     config_member configData key = Returned (JStr m) ->
     exists style, QR.module_style configData key s = (s, Returned style)
                   /\ resolves m style)
  /\ (forall s s' c,
        config_member configData "ModuleStyleWifi" = Returned (JStr m) ->
        WifiQR.Config_init env f s = (s', Returned c) ->
        resolves m (WifiQR.moduleStyleWifi c))
  /\ (forall s s' c,
        config_member configData "ModuleStyle" = Returned (JStr m) ->
        UrlQR.Config_init env f s = (s', Returned c) ->
        resolves m (UrlQR.ModuleStyle c))
  /\ (forall d s s' c,
        config_member configData "ModuleStyle" = Returned (JStr m) ->
        ContactCard.Config_init env f d s = (s', Returned c) ->
        resolves m (ContactCard.moduleStyle c)).
Proof.
  intros Hload. split; [|split; [|split]].
  - intros L C key s Hm. exists (documented_style m).
    split; [now apply module_style_run | apply documented_resolves].
  - intros s s' c Hm Hrun.
    refine (wp_elim _ s s' (Returned c)
              (fun _ o => forall c, o = Returned c ->
                          resolves m (WifiQR.moduleStyleWifi c))
              _ Hrun c eq_refl).
    unfold WifiQR.Config_init. apply wp_bind. unfold wp at 1, perform.
    rewrite Hload. cbn [fst snd]. stored_style.
  - intros s s' c Hm Hrun.
    refine (wp_elim _ s s' (Returned c)
              (fun _ o => forall c, o = Returned c ->
                          resolves m (UrlQR.ModuleStyle c))
              _ Hrun c eq_refl).
    unfold UrlQR.Config_init. apply wp_bind. unfold wp at 1, perform.
    rewrite Hload. cbn [fst snd]. stored_style.
  - intros d s s' c Hm Hrun.
    refine (wp_elim _ s s' (Returned c)
              (fun _ o => forall c, o = Returned c ->
                          resolves m (ContactCard.moduleStyle c))
              _ Hrun c eq_refl).
    unfold ContactCard.Config_init. apply wp_bind. unfold wp at 1, perform.
    rewrite Hload. cbn [fst snd]. stored_style.
Qed.

Lemma C3_witness :
  exists style,
    QR.module_style sample_wifi "ModuleStyleWifi"
      (initial {| WifiQR.objConfig := None; WifiQR.startUtcDatetime := None;
                  WifiQR.startLocalDatetime := None |}
       : state WifiQR.Locals WifiQR.Config)
    = (initial {| WifiQR.objConfig := None; WifiQR.startUtcDatetime := None;
                  WifiQR.startLocalDatetime := None |},
       Returned style)
    /\ resolves "Rounded" style.
Proof.
  apply (proj1 (C3_module_style
                  (sample ["WifiQRCodeGenerator.py"; "wifi.json"; "HomeNet";
                           "secret123"] sample_wifi no_fault)
                  "wifi.json" sample_wifi "Rounded" eq_refl)).
  reflexivity.
Defined.

Example style_of_any_case :
  documented_style "RoUnDeD" = QR.MODULE_DRAWER_STYLE_ROUNDED
  /\ documented_style "GAPPEDSQUARE" = QR.MODULE_DRAWER_STYLE_GAPPED_SQUARE
  /\ documented_style "hexagon" = QR.MODULE_DRAWER_STYLE_SQUARE
  /\ documented_style Py.EMPTY = QR.MODULE_DRAWER_STYLE_SQUARE.
Proof. repeat split. Qed.

(** ** Destination file name (C4) *)

Lemma destination_ico (src dst : string) :
  Png2Icon.destination src dst
  = if (String.length dst <? 5)%nat || (Py.find dst ".ico" =? -1)%Z
    then fst (Py.splitext (Py.basename src)) ++ ".ico" else dst.
Proof.
  unfold Png2Icon.destination.
  destruct ((String.length dst <? 5)%nat || (Py.find dst ".ico" =? -1)%Z);
    [|reflexivity].
  now destruct (Py.splitext (Py.basename src)).
Qed.

Lemma destination_gif (src dst : string) :
  Video2Gif.destination src dst
  = if (String.length dst <? 5)%nat || (Py.find dst ".gif" =? -1)%Z
    then fst (Py.splitext (Py.basename src)) ++ ".gif" else dst.
Proof.
  unfold Video2Gif.destination.
  destruct ((String.length dst <? 5)%nat || (Py.find dst ".gif" =? -1)%Z);
    [|reflexivity].
  now destruct (Py.splitext (Py.basename src)).
Qed.

Lemma short_or_lacking (dst ext : string) :
  (String.length dst <? 5)%nat || (Py.find dst ext =? -1)%Z = true
  <-> (String.length dst < 5 \/ ~ Contains dst ext).
Proof.
  rewrite orb_true_iff, Nat.ltb_lt, Z.eqb_eq, find_absent. reflexivity.
Qed.

(** C4: for Png2Icon and Video2Gif, a [--destfile] value shorter than five
    characters, or without the substring [.ico] (resp. [.gif]), resolves to
    the base name of the source file without its extension followed by
    [.ico] (resp. [.gif]); any other value is kept unchanged; and the
    resolved name is the one [main] converts to. *)
Theorem C4_destination_resolution :
  (forall src dst,
     (String.length dst < 5 \/ ~ Contains dst ".ico" ->
      Png2Icon.destination src dst
      = fst (Py.splitext (Py.basename src)) ++ ".ico")
     /\ (~ (String.length dst < 5 \/ ~ Contains dst ".ico") ->
         Png2Icon.destination src dst = dst))
  /\ (forall src dst,
        (String.length dst < 5 \/ ~ Contains dst ".gif" ->
         Video2Gif.destination src dst
         = fst (Py.splitext (Py.basename src)) ++ ".gif")
        /\ (~ (String.length dst < 5 \/ ~ Contains dst ".gif") ->
            Video2Gif.destination src dst = dst))
  /\ (forall env args p c,
        In (p, c) (observed (Png2Icon.main env args)) ->
        c = (Png2Icon.sourcefile args,
             Png2Icon.destination (Png2Icon.sourcefile args)
                                  (Png2Icon.destfile args)))
  /\ (forall env args p c,
        In (p, c) (observed (Video2Gif.main env args)) ->
        c = (Video2Gif.sourcefile args,
             Video2Gif.destination (Video2Gif.sourcefile args)
                                   (Video2Gif.destfile args))).
Proof.
  split; [|split; [|split]].
  - intros src dst. rewrite destination_ico, <- short_or_lacking.
    destruct ((String.length dst <? 5)%nat || (Py.find dst ".ico" =? -1)%Z);
      split; intros H; try reflexivity; [now elim H | discriminate H].
  - intros src dst. rewrite destination_gif, <- short_or_lacking.
    destruct ((String.length dst <? 5)%nat || (Py.find dst ".gif" =? -1)%Z);
      split; intros H; try reflexivity; [now elim H | discriminate H].
  - intros env args. apply (Png2Icon_run env args).
  - intros env args. apply (Video2Gif_run env args).
Qed.

Lemma C4_witness :
  Png2Icon.destination "/data/logo.png" Py.EMPTY = "logo.ico"
  /\ Png2Icon.destination "logo.png" "custom.ico" = "custom.ico"
  /\ Video2Gif.destination "clips/intro.mp4" "a.gi" = "intro.gif"
  /\ Video2Gif.destination "intro.mp4" "movie.gif" = "movie.gif"
  /\ ("logo.png", "logo.ico")
     = (Png2Icon.sourcefile png_args,
        Png2Icon.destination (Png2Icon.sourcefile png_args)
                             (Png2Icon.destfile png_args)).
Proof.
  split; [|split; [|split; [|split]]].
  - apply (proj1 (proj1 C4_destination_resolution "/data/logo.png" Py.EMPTY)).
    left. vm_compute. lia.
  - apply (proj2 (proj1 C4_destination_resolution "logo.png" "custom.ico")).
    intros [H | H]; [vm_compute in H; lia|].
    apply H. exists "custom", Py.EMPTY. reflexivity.
  - apply (proj1 (proj1 (proj2 C4_destination_resolution)
                   "clips/intro.mp4" "a.gi")).
    left. vm_compute. lia.
  - apply (proj2 (proj1 (proj2 C4_destination_resolution)
                   "intro.mp4" "movie.gif")).
    intros [H | H]; [vm_compute in H; lia|].
    apply H. exists "movie", Py.EMPTY. reflexivity.
  - apply (proj1 (proj2 (proj2 C4_destination_resolution))
             (sample ["png2icon.py"; "logo.png"] JNull no_fault)
             png_args Converting).
    vm_compute. right. left. reflexivity.
Defined.

(** ** The payload of the WiFi tool (C5) *)

(** C5: whatever string a run of the WiFi tool hands to [add_data] is
    [WIFI:S:<network>;T:WPA;P:<password>;H:false;;], with the network name
    and the password of the command line. *)
Theorem C5_wifi_payload (env : Env) (args : WifiQR.Args) (ev : event)
  (d : string) :
  In ev (calls (WifiQR.main env args)) ->
  callee ev = AddData d ->
  d = "WIFI:S:" ++ WifiQR.network args ++ ";T:WPA;P:" ++ WifiQR.password args
      ++ ";H:false;;".
Proof. apply (WifiQR_run env args). Qed.

Lemma C5_witness :
  "WIFI:S:HomeNet;T:WPA;P:secret123;H:false;;"
  = "WIFI:S:" ++ WifiQR.network wifi_args ++ ";T:WPA;P:"
    ++ WifiQR.password wifi_args ++ ";H:false;;".
Proof.
  apply (C5_wifi_payload
           (sample ["WifiQRCodeGenerator.py"; "wifi.json"; "HomeNet"; "secret123"]
                   sample_wifi no_fault)
           wifi_args
           {| callee := AddData "WIFI:S:HomeNet;T:WPA;P:secret123;H:false;;";
              raised := None |}).
  - in_list.
  - reflexivity.
Defined.

(** ** The name of the log file (C6) *)

Lemma C6_counterexample :
  ~ log_named_after_tool wifi_qr
      (sample ["WifiQRCodeGenerator.py"; "wifi.json"; "HomeNet"; "secret123"]
              sample_wifi no_fault).
Proof. unfold log_named_after_tool. vm_compute. discriminate. Qed.

(** C6, amended: the log file path is [baseDirectory] joined with
    [<prefix>Log_<UTC second stamp>z.log], where the prefix is [Png2Icon]
    for Png2Icon, [Video2Gif] for Video2Gif and the shared [QRCode] for
    each of the three QR tools; and this path is the one every run opens its
    log file at. *)
Theorem C6_log_file_path (env : Env) :
  (forall t, log_path t env
             = Py.join (base_directory t env)
                 [log_prefix t ++ "Log_" ++ strftime_second (utc env)
                  ++ "z.log"])
  /\ (forall args ev p, In ev (calls (Png2Icon.main env args)) ->
        callee ev = FileHandler p -> p = log_path png2icon env)
  /\ (forall args ev p, In ev (calls (Video2Gif.main env args)) ->
        callee ev = FileHandler p -> p = log_path video2gif env)
  /\ (forall args ev p, In ev (calls (ContactCard.main env args)) ->
        callee ev = FileHandler p -> p = log_path contact_card env)
  /\ (forall args ev p, In ev (calls (UrlQR.main env args)) ->
        callee ev = FileHandler p -> p = log_path url_qr env)
  /\ (forall args ev p, In ev (calls (WifiQR.main env args)) ->
        callee ev = FileHandler p -> p = log_path wifi_qr env).
Proof.
  split; [intros []; reflexivity|].
  split; [intros args; apply (Png2Icon_run env args)|].
  split; [intros args; apply (Video2Gif_run env args)|].
  split; [intros args; apply (ContactCard_run env args)|].
  split; [intros args; apply (UrlQR_run env args)|].
  intros args; apply (WifiQR_run env args).
Qed.

Lemma C6_witness :
  "/home/u/QRCode_Artifacts/2024.11.21_10.30/QRCodeLog_2024.11.21_10.30.05z.log"
  = log_path wifi_qr
      (sample ["WifiQRCodeGenerator.py"; "wifi.json"; "HomeNet"; "secret123"]
              sample_wifi no_fault).
Proof.
  apply (proj2 (proj2 (proj2 (proj2 (proj2
           (C6_log_file_path
              (sample ["WifiQRCodeGenerator.py"; "wifi.json"; "HomeNet";
                       "secret123"] sample_wifi no_fault))))))
           wifi_args
           {| callee := FileHandler
                "/home/u/QRCode_Artifacts/2024.11.21_10.30/QRCodeLog_2024.11.21_10.30.05z.log";
              raised := None |}).
  - in_list.
  - reflexivity.
Defined.

(** ** The request between its construction and the conversion (C7) *)

Lemma C7_counterexample :
  ~ unchanged_request
      (WifiQR.main
         (sample ["WifiQRCodeGenerator.py"; "wifi.json"; "HomeNet"; "secret123"]
                 sample_wifi no_fault)
         wifi_args).
Proof.
  unfold unchanged_request.
  set (obs := observed _). vm_compute in obs. subst obs.
  intros H.
  lazymatch type of H with
  | context [In _ [(Constructed, ?c1); (Converting, ?c2)]] =>
      specialize (H c1 c2 (or_introl eq_refl) (or_intror (or_introl eq_refl)))
  end.
  discriminate H.
Qed.

(** C7, amended: in Png2Icon, Video2Gif, the contact card tool and the URL
    tool the request holds at the conversion call what it held when its
    construction returned; in the WiFi tool it differs in [wifiNetwork] and
    [wifiPassword], which [main] assigns from the command line after
    [Config] has returned, and in nothing else. *)
Theorem C7_request_between_construction_and_conversion (env : Env) :
  (forall args, unchanged_request (Png2Icon.main env args))
  /\ (forall args, unchanged_request (Video2Gif.main env args))
  /\ (forall args, unchanged_request (ContactCard.main env args))
  /\ (forall args, unchanged_request (UrlQR.main env args))
  /\ (forall args c1 c2,
        In (Constructed, c1) (observed (WifiQR.main env args)) ->
        In (Converting, c2) (observed (WifiQR.main env args)) ->
        c2 = WifiQR.set_wifiPassword
               (WifiQR.set_wifiNetwork c1 (WifiQR.network args))
               (WifiQR.password args)).
Proof.
  split; [|split; [|split; [|split]]]; intros args.
  - intros c1 c2 H1 H2.
    rewrite (proj1 (proj2 (proj2 (Png2Icon_run env args))) _ _ H1).
    now rewrite (proj1 (proj2 (proj2 (Png2Icon_run env args))) _ _ H2).
  - intros c1 c2 H1 H2.
    rewrite (proj1 (proj2 (proj2 (Video2Gif_run env args))) _ _ H1).
    now rewrite (proj1 (proj2 (proj2 (Video2Gif_run env args))) _ _ H2).
  - intros c1 c2 H1 H2. symmetry.
    exact (proj1 (proj2 (proj2 (proj1 (ContactCard_run env args)))) _ _ H1 H2).
  - intros c1 c2 H1 H2. symmetry.
    exact (proj1 (proj2 (proj2 (UrlQR_run env args))) _ _ H1 H2).
  - exact (proj1 (proj2 (proj2 (proj1 (WifiQR_run env args))))).
Qed.

Lemma C7_witness :
  ("logo.png", "logo.ico") = ("logo.png", "logo.ico") :> Png2Icon.Request.
Proof.
  apply (proj1 (C7_request_between_construction_and_conversion
                  (sample ["png2icon.py"; "logo.png"] JNull no_fault))
               png_args).
  - in_list.
  - in_list.
Defined.

(** ** An interrupt during the conversion (C8) *)

Lemma contains_aborted (prog : string) :
  Contains (prog ++ " aborted by user.") "aborted by user".
Proof.
  exists (prog ++ " "), ".". now rewrite append_assoc.
Qed.

Lemma abort_reported {C} (prog : string) (final : list record) (r : result C) :
  exit_code r = 0%Z -> uncaught r = None ->
  Suffix (abort_records prog ++ final)%list (log_records r) ->
  interrupt_reported prog final r.
Proof.
  intros E1 E2 S. split; [exact E1 | split; [exact E2 | split; [|exact S]]].
  exists (crit (prog ++ " aborted by user.")). split.
  - apply (suffix_in _ _ _ S). apply in_or_app. left.
    unfold abort_records. cbn [map]. right. right. now left.
  - apply contains_aborted.
Qed.

(** C8: in each of the five tools an interrupt raised by a call of the
    conversion step ends the run with status 0 and without a traceback, a
    record of the log holds [aborted by user], and the log ends with the
    records of the [except KeyboardInterrupt] clause followed by the final
    report of the [finally] block: the elapsed time, the path of the
    artifact, the path of the log file and the closing banner. *)
Theorem C8_interrupt_during_conversion (env : Env) :
  (forall args,
     conversion_raised (Png2Icon.main env args) KeyboardInterrupt ->
     interrupt_reported "png2icon.py"
       (final_records env DEBUG "png2icon" (Png2Icon.verbose args)
          (closing_lines
             ("png2icon processing time:   "
              ++ str_timedelta env (end_local env - start_local env) ++ " ")
             [".ico file: "
              ++ Py.join (Png2Icon.baseDirectory env) [png_destFile args]]
             ("Log file:  " ++ Png2Icon.LOG_FILENAME env)
             "png2icon completed.   "))
       (Png2Icon.main env args))
  /\ (forall args,
        conversion_raised (Video2Gif.main env args) KeyboardInterrupt ->
        interrupt_reported "Video2Gif.py"
          (final_records env DEBUG "Video2Gif" (Video2Gif.verbose args)
             (closing_lines
                ("Video2Gif processing time:   "
                 ++ str_timedelta env (end_local env - start_local env) ++ " ")
                [".gif file: "
                 ++ Py.join (Video2Gif.baseDirectory env) [gif_destFile args]]
                ("Log file:  " ++ Video2Gif.LOG_FILENAME env)
                "Video2Gif completed.   "))
          (Video2Gif.main env args))
  /\ (forall args,
        conversion_raised (ContactCard.main env args) KeyboardInterrupt ->
        exists c, In (Converting, c) (observed (ContactCard.main env args))
          /\ interrupt_reported "ContactCardQRCodeGenerator.py"
               (final_records env INFO "ContactCardQRCodeGenerator"
                  (ContactCard.verbose args)
                  (closing_lines
                     ("ContactCardQRCodeGenerator processing time:   "
                      ++ str_timedelta env (end_local env - start_local env)
                      ++ " ")
                     [ "QR Code file: " ++ stable_path env c;
                       "QR Code file: " ++ stamped_path env c ]
                     ("Log file:     " ++ QR.LOG_FILENAME env)
                     "ContactCardQRCodeGenerator completed.   "))
               (ContactCard.main env args))
  /\ (forall args,
        conversion_raised (UrlQR.main env args) KeyboardInterrupt ->
        exists c, In (Converting, c) (observed (UrlQR.main env args))
          /\ interrupt_reported "UrlQRCodeGenerator.py"
               (final_records env INFO "UrlQRCodeGenerator"
                  (UrlQR.verbose args)
                  (closing_lines
                     ("UrlQRCodeGenerator processing time:   "
                      ++ str_timedelta env (end_local env - start_local env)
                      ++ " ")
                     [ "URL QR Code file: "
                       ++ Py.join (QR.baseDirectory env) [UrlQR.destFileUrl c] ]
                     ("Log file: " ++ QR.LOG_FILENAME env)
                     "UrlQRCodeGenerator completed.   "))
               (UrlQR.main env args))
  /\ (forall args,
        conversion_raised (WifiQR.main env args) KeyboardInterrupt ->
        exists c, In (Converting, c) (observed (WifiQR.main env args))
          /\ interrupt_reported "WifiQRCodeGenerator.py"
               (final_records env INFO "WifiQRCodeGenerator"
                  (WifiQR.verbose args)
                  (closing_lines
                     ("WifiQRCodeGenerator processing time:   "
                      ++ str_timedelta env (end_local env - start_local env)
                      ++ " ")
                     [ "WiFi QR Code file: "
                       ++ Py.join (QR.baseDirectory env)
                                  [WifiQR.destFileWifi c] ]
                     ("Log file: " ++ QR.LOG_FILENAME env)
                     "WifiQRCodeGenerator completed.   "))
               (WifiQR.main env args)).
Proof.
  split; [|split; [|split; [|split]]]; intros args H.
  - destruct (proj1 (Png2Icon_run env args) H) as (E1 & E2 & S).
    now apply abort_reported.
  - destruct (proj1 (Video2Gif_run env args) H) as (E1 & E2 & S).
    now apply abort_reported.
  - destruct (proj1 (proj1 (ContactCard_run env args)) H)
      as (E1 & E2 & c & Hc & S).
    exists c. split; [exact Hc | now apply abort_reported].
  - destruct (proj1 (UrlQR_run env args) H) as (E1 & E2 & c & Hc & S).
    exists c. split; [exact Hc | now apply abort_reported].
  - destruct (proj1 (proj1 (WifiQR_run env args)) H)
      as (E1 & E2 & c & Hc & S).
    exists c. split; [exact Hc | now apply abort_reported].
Qed.

Lemma C8_witness :
  interrupt_reported "png2icon.py"
    (map crit
       [ Py.EMPTY;
         "png2icon processing time:   0:00:07 ";
         Py.EMPTY;
         ".ico file: /home/u/Png2Icon_Artifacts/2024.11.21_10.30/logo.ico";
         Py.EMPTY;
         "Log file:  /home/u/Png2Icon_Artifacts/2024.11.21_10.30/Png2IconLog_2024.11.21_10.30.05z.log";
         Py.EMPTY;
         HASHES54;
         "png2icon completed.   ";
         HASHES54 ])
    (Png2Icon.main
       (sample ["png2icon.py"; "logo.png"] JNull
               (fault_at_start KeyboardInterrupt))
       png_args).
Proof.
  apply (proj1 (C8_interrupt_during_conversion
                  (sample ["png2icon.py"; "logo.png"] JNull
                          (fault_at_start KeyboardInterrupt)))
               png_args).
  exists (ImageOpen "logo.png"). split; [reflexivity | in_list].
Defined.

(** ** The optional note of the contact card (C10) *)

Lemma ends_with_refl (s : string) : EndsWith s s.
Proof. now exists Py.EMPTY. Qed.

Lemma ends_with_app (a s t : string) : EndsWith s t -> EndsWith (a ++ s) t.
Proof. intros [pre ->]. exists (a ++ pre). now rewrite append_assoc. Qed.

Lemma config_member_present configData members key v :
  getitem configData "config" = Returned (JObj members) ->
  lookup key members = Some v ->
  config_member configData key = Returned v.
Proof.
  intros Hcfg Hk. unfold config_member. rewrite Hcfg. cbn [getitem].
  now rewrite Hk.
Qed.

Lemma config_member_missing configData members key :
  getitem configData "config" = Returned (JObj members) ->
  lookup key members = None ->
  config_member configData key = Raised (KeyError key).
Proof.
  intros Hcfg Hk. unfold config_member. rewrite Hcfg. cbn [getitem].
  now rewrite Hk.
Qed.

Lemma item2_config {L C} configData key (s : state L C) :
  QR.item2 configData "config" key s = (s, config_member configData key).
Proof. apply item2_run. Qed.

Lemma item3_config {L C} configData members key kv k3 v (s : state L C) :
  getitem configData "config" = Returned (JObj members) ->
  lookup key members = Some (JObj kv) ->
  lookup k3 kv = Some v ->
  QR.item3 configData "config" key k3 s = (s, Returned v).
Proof.
  intros Hcfg Hk H3. rewrite item3_run, Hcfg. cbn [getitem].
  rewrite Hk. cbn [getitem]. now rewrite H3.
Qed.

(** A member of [config] that is there is read. *)
Ltac member_step Hcfg :=
  apply wp_bind; eapply wp_atomic;
  [ first [ eapply item3_config; [exact Hcfg | eassumption | eassumption]
          | rewrite item2_config;
            erewrite config_member_present; [reflexivity | exact Hcfg | eassumption]
          | eapply module_style_run;
            eapply config_member_present; [exact Hcfg | eassumption] ]
  | cbv beta iota ].

(** C10: for the contact card tool, the key [Note] of [config] is
    optional and the seven text keys are not.  With a configuration that
    holds every other member [Config.__init__] reads and no [Note], the
    construction returns, the note is the empty string and the VCARD text
    ends with the line [NOTE:] before [END:VCARD].  With a configuration
    that lacks [FirstName], [LastName], [Title], [Organization], [Phone],
    [Email] or [Url], the construction raises. *)
Theorem C10_note_is_optional (env : Env) (f d : string) (configData : json)
  (members : list (string * json)) :
  json_load env f = Returned configData ->
  getitem configData "config" = Returned (JObj members) ->
  (forall s, contact_required members -> lookup "Note" members = None ->
     exists s' c,
       ContactCard.Config_init env f d s = (s', Returned c)
       /\ ContactCard.note c = JStr Py.EMPTY
       /\ EndsWith (ContactCard.cardData env c)
                   (Py.NL ++ "NOTE:" ++ Py.NL ++ "END:VCARD"))
  /\ (forall s k, In k contact_text_keys -> lookup k members = None ->
        exists s' x, ContactCard.Config_init env f d s = (s', Raised x)).
Proof.
  intros Hload Hcfg. split.
  - intros s (HF & HB & HS & HM & HT) HN.
    destruct HF as (vF & HF & kF & rF & gF & bF & -> & HFr & HFg & HFb).
    destruct HB as (vB & HB & kB & rB & gB & bB & -> & HBr & HBg & HBb).
    destruct HS as (vS & HS). destruct HM as (m & HM).
    destruct (HT "FirstName") as (v1 & H1); [cbn; tauto|].
    destruct (HT "LastName") as (v2 & H2); [cbn; tauto|].
    destruct (HT "Title") as (v3 & H3); [cbn; tauto|].
    destruct (HT "Organization") as (v4 & H4); [cbn; tauto|].
    destruct (HT "Phone") as (v5 & H5); [cbn; tauto|].
    destruct (HT "Email") as (v6 & H6); [cbn; tauto|].
    destruct (HT "Url") as (v7 & H7); [cbn; tauto|].
    clear HT.
    enough (W : wp (ContactCard.Config_init env f d) s
                  (fun _ o => exists c, o = Returned c
                      /\ ContactCard.note c = JStr Py.EMPTY
                      /\ EndsWith (ContactCard.cardData env c)
                           (Py.NL ++ "NOTE:" ++ Py.NL ++ "END:VCARD"))).
    { unfold wp in W. destruct W as (c & E & W).
      exists (fst (ContactCard.Config_init env f d s)), c.
      split; [|exact W].
      destruct (ContactCard.Config_init env f d s); cbn [fst snd] in *.
      now rewrite E. }
    unfold ContactCard.Config_init. apply wp_bind. unfold wp at 1, perform.
    rewrite Hload. cbn [fst snd].
    do 15 member_step Hcfg.
    apply wp_bind. apply wp_try_except. eapply wp_atomic;
      [ rewrite item2_config;
        erewrite config_member_missing; [reflexivity | exact Hcfg | exact HN]
      | cbv beta iota ].
    unfold except_all. eapply wp_atomic; [reflexivity | cbv beta iota].
    unfold ContactCard.timestamped.
    destruct (ContactCard.list_item (Py.split d ".") 0) as [stem|x0];
      destruct (ContactCard.list_item (Py.split d ".") 1) as [ext|x1];
      run.
    all: eexists; split; [reflexivity|]; split; [reflexivity|].
    all: unfold ContactCard.cardData;
      cbn [ContactCard.note ContactCard.firstName ContactCard.lastName
           ContactCard.title ContactCard.organization ContactCard.phone
           ContactCard.email ContactCard.url str];
      repeat first [apply ends_with_refl | apply ends_with_app].
  - intros s k Hk Hmiss.
    enough (W : wp (ContactCard.Config_init env f d) s
                  (fun _ o => exists x, o = Raised x)).
    { unfold wp in W. destruct W as (x & E).
      exists (fst (ContactCard.Config_init env f d s)), x.
      destruct (ContactCard.Config_init env f d s); cbn [fst snd] in *.
      now rewrite E. }
    unfold ContactCard.Config_init. apply wp_bind. unfold wp at 1, perform.
    rewrite Hload. cbn [fst snd].
    assert (Hitem : forall (s1 s2 : state ContactCard.Locals ContactCard.Config) a,
              QR.item2 configData "config" k s1 = (s2, Returned a) -> False).
    { intros s1 s2 a E. rewrite item2_config in E.
      rewrite (config_member_missing _ _ _ Hcfg Hmiss) in E. discriminate E. }
    cbn [contact_text_keys In] in Hk.
    repeat (destruct Hk as [<- | Hk];
            [ repeat (apply wp_bind_any;
                      [ intros ? ? E; try (now elim (Hitem _ _ _ E)); clear E
                      | intros ? ? _; eexists; reflexivity ])
            | ]).
    elim Hk.
Qed.

Lemma C10_witness :
  exists s' c,
    ContactCard.Config_init
      (sample ["ContactCardQRCodeGenerator.py"; "card.json"] sample_contact
              no_fault)
      "card.json" "vcard_qr.png"
      (initial {| ContactCard.objConfig := None;
                  ContactCard.startUtcDatetime := None;
                  ContactCard.startLocalDatetime := None |})
    = (s', Returned c)
    /\ ContactCard.note c = JStr Py.EMPTY
    /\ EndsWith
         (ContactCard.cardData
            (sample ["ContactCardQRCodeGenerator.py"; "card.json"]
                    sample_contact no_fault) c)
         (Py.NL ++ "NOTE:" ++ Py.NL ++ "END:VCARD").
Proof.
  refine (proj1 (C10_note_is_optional
                   (sample ["ContactCardQRCodeGenerator.py"; "card.json"]
                           sample_contact no_fault)
                   "card.json" "vcard_qr.png" sample_contact
                   [ ("FrontColor", rgb 0 0 0); ("BackColor", rgb 255 255 255);
                     ("Size", JInt 5); ("ModuleStyle", JStr "Rounded");
                     ("FirstName", JStr "Ada"); ("LastName", JStr "Lovelace");
                     ("Title", JStr "Countess");
                     ("Organization", JStr "Analytical Engines");
                     ("Phone", JStr "+44 20 7946 0000");
                     ("Email", JStr "ada@example.org");
                     ("Url", JStr "https://example.org") ]
                   eq_refl eq_refl) _ _ eq_refl).
  split; [|split; [|split; [|split]]].
  - eexists; split; [reflexivity|].
    do 4 eexists. split; [reflexivity|]. split; [reflexivity|].
    split; reflexivity.
  - eexists; split; [reflexivity|].
    do 4 eexists. split; [reflexivity|]. split; [reflexivity|].
    split; reflexivity.
  - eexists; reflexivity.
  - eexists; reflexivity.
  - intros k Hk. cbn [contact_text_keys In] in Hk.
    repeat (destruct Hk as [<- | Hk]; [eexists; reflexivity|]). elim Hk.
Defined.

(** ** The payload and the two files of the contact card tool (C9) *)

(** The text handed to [add_data] holds the [FN] line of the first and
    the last name. *)
Lemma cardData_FN (env : Env) (c : ContactCard.Config) :
  Contains (ContactCard.cardData env c)
           (Py.NL ++ "FN:" ++ str env (ContactCard.firstName c) ++ " "
            ++ str env (ContactCard.lastName c) ++ Py.NL).
Proof.
  exists ("BEGIN:VCARD" ++ Py.NL ++ "VERSION:4.0" ++ Py.NL
          ++ "N:" ++ str env (ContactCard.lastName c) ++ ";"
          ++ str env (ContactCard.firstName c) ++ ";;;"),
         ("TITLE:" ++ str env (ContactCard.title c) ++ Py.NL
          ++ "ORG:" ++ str env (ContactCard.organization c) ++ Py.NL
          ++ "TEL;TYPE=work:" ++ str env (ContactCard.phone c) ++ Py.NL
          ++ "EMAIL;TYPE=work:" ++ str env (ContactCard.email c) ++ Py.NL
          ++ "URL:" ++ str env (ContactCard.url c) ++ Py.NL
          ++ "NOTE:" ++ str env (ContactCard.note c) ++ Py.NL
          ++ "END:VCARD").
  unfold ContactCard.cardData. rewrite !append_assoc. reflexivity.
Qed.

(** The generator makes an image for every style [Config.__init__]
    stores. *)
Lemma styled_image_documented {L C} env q m back front img (s : state L C) :
  (forall d, make_image env q d back front = Returned img) ->
  exists d,
    QR.styled_image env q (documented_style m) back front s
    = (called (MakeImage d back front) None s, Returned (Some img)).
Proof.
  intros H. unfold documented_style. cbv zeta.
  repeat match goal with
         | |- context [if ?b then _ else _] => destruct b
         end;
    unfold QR.styled_image; cbn [String.eqb Ascii.eqb Bool.eqb
      QR.MODULE_DRAWER_STYLE_SQUARE QR.MODULE_DRAWER_STYLE_GAPPED_SQUARE
      QR.MODULE_DRAWER_STYLE_VERTICAL_BARS QR.MODULE_DRAWER_STYLE_HORIZONTAL_BARS
      QR.MODULE_DRAWER_STYLE_ROUNDED];
    eexists; unfold bind, perform, ret; rewrite H; reflexivity.
Qed.

(** *** The two names differ *)

Lemma append_inj_l (p a b : string) : p ++ a = p ++ b -> a = b.
Proof.
  induction p as [|x p IH]; cbn; intros H; [exact H|].
  injection H as H. now apply IH.
Qed.

Lemma split_nonempty (s : string) (sep : ascii) : Py.split s sep <> [].
Proof.
  destruct s as [|x s]; cbn [Py.split]; [discriminate|].
  destruct (Ascii.eqb x sep); [discriminate|].
  destruct (Py.split s sep); discriminate.
Qed.

(** The first part of a split ends where the first separator is. *)
Lemma split_head_stops (a b : string) (c sep : ascii) :
  nth_error (Py.split (a ++ String c b) sep) 0 = Some a -> c = sep.
Proof.
  induction a as [|x a IH]; cbn [append Py.split].
  - destruct (Ascii.eqb c sep) eqn:E; [intros _; now apply Ascii.eqb_eq|].
    destruct (Py.split b sep); cbn; intros H; discriminate H.
  - destruct (Ascii.eqb x sep); [cbn; intros H; discriminate H|].
    destruct (Py.split (a ++ String c b) sep) as [|h t] eqn:E.
    + now elim (split_nonempty _ _ E).
    + cbn. intros H. injection H as ->. now apply IH.
Qed.

Lemma startswith_empty (s : string) : Py.startswith s Py.EMPTY = true.
Proof. now destruct s. Qed.

(** The first part of a split starts as the string does. *)
Lemma split_head_start (d h : string) (sep : ascii) :
  nth_error (Py.split d sep) 0 = Some h ->
  forall rest, sep <> "/"%char ->
    Py.startswith (h ++ String "_" rest) Py.SEP = Py.startswith d Py.SEP.
Proof.
  intros H rest Hsep. destruct d as [|x d]; cbn [Py.split] in H.
  - injection H as <-. reflexivity.
  - destruct (Ascii.eqb x sep) eqn:E.
    + injection H as <-. apply Ascii.eqb_eq in E. subst x.
      change (Py.startswith (String "_" rest) "/"
              = Py.startswith (String sep d) "/").
      cbn [Py.startswith].
      destruct (Ascii.eqb "/" sep) eqn:E'; [|reflexivity].
      apply Ascii.eqb_eq in E'. now elim Hsep.
    + destruct (Py.split d sep); injection H as <-;
        unfold Py.SEP; cbn [append Py.startswith];
        now rewrite !startswith_empty.
Qed.

Lemma join_differs (base a b : string) :
  a <> b -> Py.startswith a Py.SEP = Py.startswith b Py.SEP ->
  Py.join base [a] <> Py.join base [b].
Proof.
  intros Hab Hs. unfold Py.join. cbn [fold_left]. unfold Py.join_step.
  rewrite Hs. destruct (Py.startswith b Py.SEP); [exact Hab|].
  destruct ((base =? Py.EMPTY) || Py.endswith_char base "/").
  - intros H. apply Hab. now apply append_inj_l in H.
  - intros H. apply Hab. apply append_inj_l in H. now apply append_inj_l in H.
Qed.

Lemma timestamped_differs (env : Env) (name t : string)
  (s s' : state ContactCard.Locals ContactCard.Config) :
  ContactCard.timestamped env name s = (s', Returned t) ->
  Py.join (QR.baseDirectory env) [name] <> Py.join (QR.baseDirectory env) [t].
Proof.
  unfold ContactCard.timestamped, bind, lift, ret, ContactCard.list_item.
  destruct (nth_error (Py.split name ".") 0) as [stem|] eqn:E0;
    [|intros H; discriminate H].
  destruct (nth_error (Py.split name ".") 1) as [ext|];
    [|intros H; discriminate H].
  intros H. injection H as _ <-.
  apply join_differs.
  - intros ->. apply split_head_stops in E0. discriminate E0.
  - symmetry. apply (split_head_start _ _ _ E0). discriminate.
Qed.

(** A configuration [Config.__init__] returns names two paths. *)
Lemma Config_init_two_paths (env : Env) (f d : string)
  (s s' : state ContactCard.Locals ContactCard.Config) (c : ContactCard.Config) :
  ContactCard.Config_init env f d s = (s', Returned c) ->
  stable_path env c <> stamped_path env c.
Proof.
  intros Hrun.
  refine (wp_elim _ s s' (Returned c)
            (fun _ o => forall c, o = Returned c ->
                        stable_path env c <> stamped_path env c)
            _ Hrun c eq_refl).
  unfold ContactCard.Config_init.
  do 17 (apply wp_bind_any; [intros ? ? _ | intros ? ? _ ? E; discriminate E]).
  apply wp_bind_any; [|intros ? ? _ ? E; discriminate E].
  intros sd dest Hdest.
  unfold wp, ret. cbn [fst snd]. intros ? E. injection E as <-.
  unfold stable_path, stamped_path.
  cbn [ContactCard.destFile ContactCard.destFileTimestamp].
  revert Hdest. unfold try_except, bind at 1.
  destruct (ContactCard.timestamped env d _) as [sa [t|x]] eqn:E1.
  - unfold ret. intros H. injection H as _ <-. cbn [fst snd].
    exact (timestamped_differs _ _ _ _ _ E1).
  - cbn [fst snd]. unfold except_all, bind at 1, log.
    unfold bind at 1.
    destruct (ContactCard.timestamped env ContactCard.DEFAULT_QRCODE_FILENAME _)
      as [sb [t|y]] eqn:E2; [|intros H; discriminate H].
    unfold ret. intros H. injection H as _ <-. cbn [fst snd].
    exact (timestamped_differs _ _ _ _ _ E2).
Qed.

(** A configuration that is valid is constructed. *)
Lemma valid_config_constructs (env : Env) (f d : string) (configData : json)
  (members : list (string * json)) (first last : string) :
  json_load env f = Returned configData ->
  getitem configData "config" = Returned (JObj members) ->
  contact_valid members ->
  lookup "FirstName" members = Some (JStr first) ->
  lookup "LastName" members = Some (JStr last) ->
  exists c,
    (forall s, snd (ContactCard.Config_init env f d s) = Returned c)
    /\ ContactCard.firstName c = JStr first
    /\ ContactCard.lastName c = JStr last
    /\ (exists r g b, ContactCard.frontColorRed c = JInt r
                      /\ ContactCard.frontColorGreen c = JInt g
                      /\ ContactCard.frontColorBlue c = JInt b)
    /\ (exists r g b, ContactCard.backColorRed c = JInt r
                      /\ ContactCard.backColorGreen c = JInt g
                      /\ ContactCard.backColorBlue c = JInt b)
    /\ (exists m, ContactCard.moduleStyle c = documented_style m)
    /\ (ContactCard.destFile c, ContactCard.destFileTimestamp c)
       = two_names env d.
Proof.
  intros Hload Hcfg (HF & HB & HS & HM & HT) H1 H2.
  destruct HF as (vF & HF & kF & rF & gF & bF & -> & HFr & HFg & HFb).
  destruct HB as (vB & HB & kB & rB & gB & bB & -> & HBr & HBg & HBb).
  destruct HS as (vS & HS). destruct HM as (m & HM).
  destruct (HT "Title") as (v3 & H3); [cbn; tauto|].
  destruct (HT "Organization") as (v4 & H4); [cbn; tauto|].
  destruct (HT "Phone") as (v5 & H5); [cbn; tauto|].
  destruct (HT "Email") as (v6 & H6); [cbn; tauto|].
  destruct (HT "Url") as (v7 & H7); [cbn; tauto|].
  clear HT.
  unfold two_names.
  assert (Hnote : exists nt, forall s : state ContactCard.Locals ContactCard.Config,
             try_except (QR.item2 configData "config" "Note")
                        (except_all (ret (JStr Py.EMPTY))) s
             = (s, Returned nt)).
  { destruct (lookup "Note" members) as [v|] eqn:HN.
    - exists v. intros s. unfold try_except. rewrite item2_config.
      now rewrite (config_member_present _ _ _ _ Hcfg HN).
    - exists (JStr Py.EMPTY). intros s. unfold try_except. rewrite item2_config.
      now rewrite (config_member_missing _ _ _ Hcfg HN). }
  destruct Hnote as (nt & Hnote).
  assert (Hdest : exists dest,
             (forall s : state ContactCard.Locals ContactCard.Config,
                snd (try_except
                       (stamped <- ContactCard.timestamped env d ;;
                        ret (stamped, d))
                       (except_all
                          (log ERROR
                             ("Invalid destination filename [" ++ d
                              ++ "]. Using the default ["
                              ++ ContactCard.DEFAULT_QRCODE_FILENAME
                              ++ "] filename.") ;;
                           stamped <- ContactCard.timestamped env
                                        ContactCard.DEFAULT_QRCODE_FILENAME ;;
                           ret (stamped, ContactCard.DEFAULT_QRCODE_FILENAME)))
                       s)
                = Returned dest)
             /\ (snd dest, fst dest)
                = match Py.split d "." with
                  | stem :: ext :: _ =>
                      (d, stem ++ "_" ++ QR.filenameDateTime env ++ "." ++ ext)
                  | _ => ("vcard_qr.png",
                          "vcard_qr_" ++ QR.filenameDateTime env ++ ".png")
                  end).
  { unfold ContactCard.timestamped, ContactCard.list_item.
    destruct (Py.split d ".") as [|stem [|ext rest]] eqn:E;
      cbn [nth_error]; eexists; (split; [intros s; reflexivity | reflexivity]). }
  destruct Hdest as (dest & Hdest & Hnames).
  eexists. split; [|split; [|split; [|split; [|split; [|split]]]]].
  - intros s.
    lazymatch goal with
    | |- snd (?m ?s0) = ?o0 => change (wp m s0 (fun _ o => o = o0))
    end.
    unfold ContactCard.Config_init. apply wp_bind. unfold wp at 1, perform.
    rewrite Hload. cbn [fst snd].
    do 15 member_step Hcfg.
    apply wp_bind. eapply wp_atomic; [apply Hnote | cbv beta iota].
    apply wp_bind. unfold wp at 1. rewrite Hdest.
    unfold wp, ret. cbn [fst snd]. reflexivity.
  - reflexivity.
  - reflexivity.
  - do 3 eexists. repeat split.
  - do 3 eexists. repeat split.
  - eexists. reflexivity.
  - exact Hnames.
Qed.

Lemma Config_init_state (env : Env) (f d : string)
  (s : state ContactCard.Locals ContactCard.Config) (c : ContactCard.Config) :
  snd (ContactCard.Config_init env f d s) = Returned c ->
  ContactCard.Config_init env f d s
  = (logged_all ERROR (dest_warning d)
       (called (JsonLoad f) (status (json_load env f)) s),
     Returned c).
Proof.
  intros H.
  assert (W : wp (ContactCard.Config_init env f d) s
                (fun s1 o => forall c, o = Returned c ->
                   s1 = logged_all ERROR (dest_warning d)
                          (called (JsonLoad f) (status (json_load env f)) s))).
  { apply ContactCard_Config_init_wp.
    - intros x c0 E. discriminate E.
    - intros c0 c1 _. reflexivity. }
  unfold wp in W. specialize (W c H).
  destruct (ContactCard.Config_init env f d s) as [s1 o].
  cbn [fst snd] in *. now subst.
Qed.

(** The part every [main] starts with, when the directory of the log is
    there or can be made and the log file can be opened. *)
Lemma wp_prologue_ok {L C} env LOG BANNER (verbose : bool)
  (core : M L C unit) l0 Q :
  path_exists env (Py.dirname LOG) = true
  \/ makedirs env (Py.dirname LOG) = Returned tt ->
  file_handler env LOG = Returned tt ->
  (forall rs tr, setup_trace LOG tr ->
     wp core {| locals := l0;
                threshold := if verbose then levelno DEBUG else levelno WARNING;
                records := rs; trace := tr; marks := [] |} Q) ->
  wp (setup_logging env LOG ;;
      (log_lines CRITICAL BANNER ;;
       ((if verbose then set_level (levelno DEBUG) else ret tt) ;; core)))
     (initial l0) Q.
Proof.
  intros Hdir Hlog Hcore.
  assert (Hgo : forall tr, setup_trace LOG tr ->
            wp (log_lines CRITICAL BANNER ;;
                ((if verbose then set_level (levelno DEBUG) else ret tt) ;; core))
               {| locals := l0; threshold := levelno WARNING; records := [];
                  trace := tr; marks := [] |} Q).
  { intros tr Htr. apply wp_bind. eapply wp_log_lines.
    - apply logged_all_on. reflexivity.
    - cbv beta iota. apply wp_bind. destruct verbose.
      + eapply wp_atomic; [reflexivity|]. cbv beta iota. now apply Hcore.
      + eapply wp_atomic; [reflexivity|]. cbv beta iota. now apply Hcore. }
  unfold setup_logging, ConfigureLogging, initial. cbv zeta.
  apply wp_bind. apply wp_bind.
  destruct (negb (path_exists env (Py.dirname LOG))) eqn:E.
  - destruct Hdir as [Hdir | Hdir]; [rewrite Hdir in E; discriminate E|].
    eapply wp_atomic; [reflexivity|]. rewrite Hdir. cbn [status].
    apply wp_bind. eapply wp_atomic; [reflexivity|].
    rewrite Hlog. cbn [status]. cbv beta iota.
    eapply wp_atomic; [reflexivity|]. cbv beta iota. apply Hgo.
    intros ev [<- | [<- | []]]; [left; eauto | right; eauto].
  - eapply wp_atomic; [reflexivity|]. cbv beta iota.
    apply wp_bind. eapply wp_atomic; [reflexivity|].
    rewrite Hlog. cbn [status]. cbv beta iota.
    eapply wp_atomic; [reflexivity|]. cbv beta iota. apply Hgo.
    intros ev [<- | []]. right; eauto.
Qed.

(** The generator makes an image for every style [Config.__init__]
    stores. *)
Lemma wp_styled_image_documented {L C} env q m back front img
  (s : state L C) Q :
  (forall d, make_image env q d back front = Returned img) ->
  (forall d, Q (called (MakeImage d back front) None s) (Returned (Some img))) ->
  wp (QR.styled_image env q (documented_style m) back front) s Q.
Proof.
  intros Hmake H.
  destruct (styled_image_documented env q m back front img s Hmake) as [d Hd].
  unfold wp. rewrite Hd. apply H.
Qed.

(** The calls of the set-up hand nothing to the encoder and save
    nothing. *)
Lemma setup_trace_flat {A} (LOG : string) (tr : list event)
  (f : event -> list A) :
  setup_trace LOG tr ->
  (forall p x, f {| callee := MakeDirs p; raised := x |} = []) ->
  (forall p x, f {| callee := FileHandler p; raised := x |} = []) ->
  flat_map f tr = [].
Proof.
  intros H H1 H2. induction tr as [|ev tr IH]; [reflexivity|].
  cbn [flat_map]. rewrite IH.
  - destruct (H ev (or_introl eq_refl)) as [(p & x & ->) | (x & ->)];
      [now rewrite H1 | now rewrite H2].
  - intros ev' Hin. apply H. now right.
Qed.

(** What a run is made of, read off a trace that starts with the calls of
    the set-up. *)
Ltac traced Htr :=
  unfold payloads, saves, artifacts; cbn [calls];
  rewrite !flat_map_app;
  rewrite (setup_trace_flat _ _ _ Htr) by reflexivity;
  reflexivity.

(** A run of the contact card tool in a world that works, with a valid
    configuration: the VCARD text of the configuration is handed to the
    encoder, and one image is saved at the two paths. *)
Lemma contact_card_runs (env : Env) (args : ContactCard.Args)
  (configData : json) (members : list (string * json)) (first last : string)
  (img : image) :
  world_works env img ->
  json_load env (ContactCard.configfile args) = Returned configData ->
  getitem configData "config" = Returned (JObj members) ->
  contact_valid members ->
  lookup "FirstName" members = Some (JStr first) ->
  lookup "LastName" members = Some (JStr last) ->
  exists c,
    ContactCard.firstName c = JStr first
    /\ ContactCard.lastName c = JStr last
    /\ (ContactCard.destFile c, ContactCard.destFileTimestamp c)
       = two_names env (ContactCard.destfile args)
    /\ stable_path env c <> stamped_path env c
    /\ exit_code (ContactCard.main env args) = 0%Z
    /\ uncaught (ContactCard.main env args) = None
    /\ payloads (ContactCard.main env args) = [ContactCard.cardData env c]
    /\ saves (ContactCard.main env args)
       = [(img, stable_path env c); (img, stamped_path env c)]
    /\ artifacts (ContactCard.main env args)
       = [stable_path env c; stamped_path env c].
Proof.
  intros (Hdir & Hlog & Hqr & Hadd & Hmake & Hsave) Hload Hcfg Hvalid H1 H2.
  destruct (valid_config_constructs env _ (ContactCard.destfile args) _ _ _ _
              Hload Hcfg Hvalid H1 H2)
    as (c & Hc & Hf & Hl & (fr & fg & fb & Hfr & Hfg & Hfb)
        & (br & bg & bb & Hbr & Hbg & Hbb) & (m & Hm) & Hnames).
  exists c.
  split; [exact Hf | split; [exact Hl | split; [exact Hnames | split]]].
  { eapply (Config_init_two_paths env (ContactCard.configfile args)
              (ContactCard.destfile args)
              (initial {| ContactCard.objConfig := None;
                          ContactCard.startUtcDatetime := None;
                          ContactCard.startLocalDatetime := None |})).
    apply Config_init_state. apply Hc. }
  unfold ContactCard.main. start. unfold ContactCard.run. cbv zeta.
  apply wp_prologue_ok; [exact Hdir | exact Hlog |]. intros rs tr Htr.
  unfold ContactCard.guarded, ContactCard.GenerateContactCard.
  apply wp_try_finally. apply wp_try_except. apply wp_bind.
  eapply wp_atomic; [apply Config_init_state; apply Hc|].
  rewrite Hload. cbn [status]. cbv beta iota.
  rewrite Hfr, Hfg, Hfb, Hbr, Hbg, Hbb, Hm.
  unfold dest_warning.
  destruct (ContactCard.verbose args) eqn:Hv;
    destruct (ContactCard.list_item (Py.split (ContactCard.destfile args) ".") 0);
    destruct (ContactCard.list_item (Py.split (ContactCard.destfile args) ".") 1).
  all: cbv beta iota delta [called locals threshold records trace marks];
    rewrite logged_all_on by reflexivity.
  all: repeat first
         [ lazymatch goal with
           | |- wp (QR.color_3d _ _ _) _ _ => eapply wp_atomic; [reflexivity|]
           | |- wp (QR.styled_image _ _ (documented_style _) _ _) _ _ =>
               eapply wp_styled_image_documented; [intros; apply Hmake | intros ?]
           | |- wp (QR.save _ _ _) _ _ => unfold QR.save
           end
         | wp_rule
         | progress norm
         | progress (rewrite ?Hqr, ?Hadd, ?Hsave)
         | branch ].
  all: leaf.
  all: split; [reflexivity | split; [reflexivity |]].
  all: split; [traced Htr | split; traced Htr].
Qed.

(** C9: whatever text the contact card tool hands to [add_data] is the
    VCARD text of its configuration, which holds the line
    [FN:<first> <last>], and whatever it saves is saved at the stable or
    at the timestamped path under [baseDirectory].  In a world that works
    (the log can be set up and the calls of the QR code library return),
    with a valid configuration whose [FirstName] and [LastName] are the
    strings [first] and [last], the run ends with status 0, hands to the
    encoder one text, which holds the line [FN:first last], and saves one
    and the same image twice, at two different paths: under the stable
    destination name and under the timestamped name. *)
Theorem C9_payload_and_two_files (env : Env) :
  (forall args ev d,
     In ev (calls (ContactCard.main env args)) -> callee ev = AddData d ->
     exists c, In (Converting, c) (observed (ContactCard.main env args))
       /\ d = ContactCard.cardData env c
       /\ Contains d (Py.NL ++ "FN:" ++ str env (ContactCard.firstName c)
                      ++ " " ++ str env (ContactCard.lastName c) ++ Py.NL))
  /\ (forall args ev img p,
        In ev (calls (ContactCard.main env args)) ->
        callee ev = ImageSave img p ->
        exists c, In (Converting, c) (observed (ContactCard.main env args))
                  /\ (p = stable_path env c \/ p = stamped_path env c))
  /\ (forall args configData members first last img,
        world_works env img ->
        json_load env (ContactCard.configfile args) = Returned configData ->
        getitem configData "config" = Returned (JObj members) ->
        contact_valid members ->
        lookup "FirstName" members = Some (JStr first) ->
        lookup "LastName" members = Some (JStr last) ->
        exists d p1 p2,
          exit_code (ContactCard.main env args) = 0%Z
          /\ uncaught (ContactCard.main env args) = None
          /\ payloads (ContactCard.main env args) = [d]
          /\ Contains d (Py.NL ++ "FN:" ++ first ++ " " ++ last ++ Py.NL)
          /\ saves (ContactCard.main env args) = [(img, p1); (img, p2)]
          /\ artifacts (ContactCard.main env args) = [p1; p2]
          /\ p1 <> p2
          /\ p1 = Py.join (QR.baseDirectory env)
                    [fst (two_names env (ContactCard.destfile args))]
          /\ p2 = Py.join (QR.baseDirectory env)
                    [snd (two_names env (ContactCard.destfile args))]).
Proof.
  split; [|split].
  - intros args ev d Hin Hd.
    destruct (proj1 (proj2 (ContactCard_run env args)) ev d Hin Hd)
      as (c & Hc & ->).
    exists c. split; [exact Hc | split; [reflexivity | apply cardData_FN]].
  - intros args. exact (proj2 (proj2 (ContactCard_run env args))).
  - intros args configData members first last img Hw Hload Hcfg Hvalid H1 H2.
    destruct (contact_card_runs env args configData members first last img
                Hw Hload Hcfg Hvalid H1 H2)
      as (c & Hf & Hl & Hnames & Hdiff & E1 & E2 & E3 & E4 & E5).
    exists (ContactCard.cardData env c), (stable_path env c),
           (stamped_path env c).
    split; [exact E1 | split; [exact E2 | split; [exact E3|]]].
    split.
    { pose proof (cardData_FN env c) as H. rewrite Hf, Hl in H. exact H. }
    split; [exact E4 | split; [exact E5 | split; [exact Hdiff|]]].
    unfold stable_path, stamped_path. rewrite <- Hnames. split; reflexivity.
Qed.

Lemma C9_witness :
  exists d p1 p2,
    exit_code
      (ContactCard.main
         (sample ["ContactCardQRCodeGenerator.py"; "card.json"]
                 sample_contact no_fault)
         (contact_args "vcard_qr.png")) = 0%Z
    /\ uncaught
         (ContactCard.main
            (sample ["ContactCardQRCodeGenerator.py"; "card.json"]
                    sample_contact no_fault)
            (contact_args "vcard_qr.png")) = None
    /\ payloads
         (ContactCard.main
            (sample ["ContactCardQRCodeGenerator.py"; "card.json"]
                    sample_contact no_fault)
            (contact_args "vcard_qr.png")) = [d]
    /\ Contains d (Py.NL ++ "FN:Ada Lovelace" ++ Py.NL)
    /\ saves
         (ContactCard.main
            (sample ["ContactCardQRCodeGenerator.py"; "card.json"]
                    sample_contact no_fault)
            (contact_args "vcard_qr.png")) = [("QR", p1); ("QR", p2)]
    /\ artifacts
         (ContactCard.main
            (sample ["ContactCardQRCodeGenerator.py"; "card.json"]
                    sample_contact no_fault)
            (contact_args "vcard_qr.png")) = [p1; p2]
    /\ p1 <> p2
    /\ p1 = "/home/u/QRCode_Artifacts/2024.11.21_10.30/vcard_qr.png"
    /\ p2 = "/home/u/QRCode_Artifacts/2024.11.21_10.30/vcard_qr_2024.11.21_10.30.05.png".
Proof.
  refine (proj2 (proj2 (C9_payload_and_two_files
                   (sample ["ContactCardQRCodeGenerator.py"; "card.json"]
                           sample_contact no_fault)))
            (contact_args "vcard_qr.png") sample_contact
            [ ("FrontColor", rgb 0 0 0); ("BackColor", rgb 255 255 255);
              ("Size", JInt 5); ("ModuleStyle", JStr "Rounded");
              ("FirstName", JStr "Ada"); ("LastName", JStr "Lovelace");
              ("Title", JStr "Countess");
              ("Organization", JStr "Analytical Engines");
              ("Phone", JStr "+44 20 7946 0000");
              ("Email", JStr "ada@example.org");
              ("Url", JStr "https://example.org") ]
            "Ada" "Lovelace" "QR" _ eq_refl eq_refl _ eq_refl eq_refl).
  - split; [right; reflexivity|]. split; [reflexivity|].
    split; [intros; reflexivity|]. split; [intros; reflexivity|].
    split; intros; reflexivity.
  - split; [|split; [|split; [|split]]].
    + eexists; split; [reflexivity|].
      do 4 eexists. split; [reflexivity|]. split; [reflexivity|].
      split; reflexivity.
    + eexists; split; [reflexivity|].
      do 4 eexists. split; [reflexivity|]. split; [reflexivity|].
      split; reflexivity.
    + eexists; reflexivity.
    + eexists; reflexivity.
    + intros k Hk. cbn [contact_text_keys In] in Hk.
      repeat (destruct Hk as [<- | Hk]; [eexists; reflexivity|]). elim Hk.
Defined.

(** The scenario of Ada Lovelace from end to end, with the default
    destination name and with one that has two dots. *)
Example contact_card_of_Ada :
  (let env := sample ["ContactCardQRCodeGenerator.py"; "card.json"]
                     sample_contact no_fault in
   let r := ContactCard.main env (contact_args "vcard_qr.png") in
   exit_code r = 0%Z
   /\ map lines (payloads r)
      = [[ "BEGIN:VCARD"; "VERSION:4.0"; "N:Lovelace;Ada;;;";
           "FN:Ada Lovelace"; "TITLE:Countess"; "ORG:Analytical Engines";
           "TEL;TYPE=work:+44 20 7946 0000";
           "EMAIL;TYPE=work:ada@example.org";
           "URL:https://example.org"; "NOTE:"; "END:VCARD" ]]
   /\ artifacts r
      = [ "/home/u/QRCode_Artifacts/2024.11.21_10.30/vcard_qr.png";
          "/home/u/QRCode_Artifacts/2024.11.21_10.30/vcard_qr_2024.11.21_10.30.05.png" ])
  /\ (let env := sample ["ContactCardQRCodeGenerator.py"; "card.json";
                         "--destfile"; "my.card.png"]
                        sample_contact no_fault in
      artifacts (ContactCard.main env (contact_args "my.card.png"))
      = [ "/home/u/QRCode_Artifacts/2024.11.21_10.30/my.card.png";
          "/home/u/QRCode_Artifacts/2024.11.21_10.30/my_2024.11.21_10.30.05.card" ]).
Proof.
  cbv zeta. split.
  - do 2 (split; [vm_compute; reflexivity|]). vm_compute. reflexivity.
  - vm_compute. reflexivity.
Qed.
